(** * BiciMad: URL catalogue and trip dataset

    A shallow embedding of [bicimad/bicimad.py]: the class [UrlEMT]
    (link extraction from the portal's index page, month/year resolution,
    download of the monthly CSV) and the class [BiciMad] (cleaning of the
    trip table and its aggregations), followed by the properties of the
    specification that were checked against them.

    Conventions of the embedding.
    - A Python [str] is a [string] (its UTF-8 bytes); [bytes] likewise.
      Python and the embedding read ASCII text alike; where a statement
      depends on how other characters are read, it is made of ASCII text.
    - A Python [int] is a [Z].
    - A raised exception is the [Err] case of [result]; code that calls the
      HTTP client, the archive reader or the decoder is a tree of such calls
      ([io]), so that "no request was issued" is a property of the tree.
    - A pandas table is a list of rows under a list of column labels; a cell
      is a [value]. Sums of minutes are exact rationals: the rounding of
      float64 arithmetic is not modelled.
    - The methods of [BiciMad] are functions of the table of the instance.
      What a call leaves behind is stated of [obj], where [self._data] is a
      reference into a store of tables and the bodies of the methods read
      and write through it. *)

From Stdlib Require Import ZArith QArith DecimalString DecimalZ Ascii.
From stdpp Require Import gmap strings list sorting.

Open Scope Z_scope.
Open Scope string_scope.
Open Scope list_scope.

(** ** Exceptions and results *)

Inductive exn :=
| ValueError (msg : string)
| KeyError (key : string)
| TypeError (msg : string)
| ConnectionError (msg : string)
| LibraryError (msg : string).

Inductive result (A : Type) :=
| Ok (a : A)
| Err (e : exn).
Arguments Ok {A} a.
Arguments Err {A} e.

#[global] Instance result_ret : MRet result := λ A a, Ok a.
#[global] Instance result_bind : MBind result := λ A B f m,
  match m with
  | Ok a => f a
  | Err e => Err e
  end.
#[global] Instance result_fmap : FMap result := λ A B f m,
  match m with
  | Ok a => Ok (f a)
  | Err e => Err e
  end.

(** ** Formatting of integers and string helpers *)

(** [f"{z}"] *)
Definition str_of_int (z : Z) : string := NilEmpty.string_of_int (Z.to_int z).

(** [f"{z:02}"]: sign-aware zero padding to width 2. A negative number
    already fills two columns. *)
Definition fmt_02 (z : Z) : string :=
  let d := str_of_int z in
  if (String.length d <? 2)%nat then "0" +:+ d else d.

(** [sub in s] *)
Fixpoint str_contains (sub s : string) : bool :=
  String.prefix sub s ||
  match s with
  | EmptyString => false
  | String _ s' => str_contains sub s'
  end.

(** [s.endswith(suffix)] *)
Definition str_endswith (s suffix : string) : bool :=
  String.prefix (String.rev suffix) (String.rev s).

(** [s.replace(old, new)] for a non-empty [old]: every occurrence found by
    a scan from the left is replaced, and the scan resumes after it. *)
Fixpoint str_replace_go (old new : string) (skip : nat) (s : string) : string :=
  match s with
  | EmptyString => EmptyString
  | String c s' =>
      match skip with
      | S j => str_replace_go old new j s'
      | O =>
          if String.prefix old s
          then new +:+ str_replace_go old new (String.length old - 1) s'
          else String c (str_replace_go old new 0 s')
      end
  end.

Definition str_replace (old new s : string) : string := str_replace_go old new 0 s.

(** ** The fragment of pandas the trip table uses *)

Module pd.

(** A cell. [NaN] is the missing value ([nan], [NaT]). A float is held as
    the decimal [m * 10^-e] that Python prints for it (the shortest one
    that reads back as the same float); a date-time cell is held as its
    count of nanoseconds. Within a column numbers have one representation
    (the column's dtype). *)
Inductive value :=
| NaN
| VInt (z : Z)
| VFloat (m : Z) (e : nat)
| VStr (s : string).

#[global] Instance value_eq_dec : EqDecision value.
Proof. solve_decision. Defined.

Definition value_enc (v : value) : unit + Z + (Z * nat) + string :=
  match v with
  | NaN => inl (inl (inl ()))
  | VInt z => inl (inl (inr z))
  | VFloat m e => inl (inr (m, e))
  | VStr s => inr s
  end.

Definition value_dec (x : unit + Z + (Z * nat) + string) : value :=
  match x with
  | inl (inl (inl _)) => NaN
  | inl (inl (inr z)) => VInt z
  | inl (inr (m, e)) => VFloat m e
  | inr s => VStr s
  end.

#[global] Instance value_countable : Countable value.
Proof. apply (inj_countable' value_enc value_dec). by intros []. Defined.

Definition notna (v : value) : bool :=
  match v with
  | NaN => false
  | _ => true
  end.

(** Trailing zeros of the fraction are not printed. *)
Fixpoint normalize (m : Z) (e : nat) : Z * nat :=
  match e with
  | O => (m, O)
  | S e' => if (m mod 10 =? 0)%Z then normalize (m / 10) e' else (m, e)
  end.

Fixpoint zfill (width : nat) (s : string) : string :=
  match width with
  | O => s
  | S w => if (String.length s <=? w)%nat then "0" +:+ zfill w s else s
  end.

(** The digits of a whole number without its trailing zeros. *)
Fixpoint rstrip_zeros (s : string) : string :=
  match s with
  | EmptyString => EmptyString
  | String c s' =>
      match rstrip_zeros s' with
      | EmptyString => if Ascii.eqb c "0" then EmptyString else String c EmptyString
      | t => String c t
      end
  end.

(** [str(x)] of a float [x = m * 10^-e]: positional notation, with at
    least one digit after the point, when [1e-4 <= |x| < 1e16] or [x] is
    zero; otherwise the exponent notation [d.ddde+XX], with at least two
    digits in the exponent. *)
Definition str_of_float (m : Z) (e : nat) : string :=
  let '(m, e) := normalize m e in
  let a := Z.abs m in
  let p := 10 ^ Z.of_nat e in
  if (10 ^ 16 * p <=? a)%Z || ((0 <? a)%Z && (a * 10 ^ 4 <? p)%Z) then
    let x := Z.of_nat (String.length (str_of_int a)) - Z.of_nat e - 1 in
    (if (m <? 0)%Z then "-" else "") +:+
    match rstrip_zeros (str_of_int a) with
    | String d EmptyString => String d EmptyString
    | String d ds => String d ("." +:+ ds)
    | EmptyString => EmptyString
    end +:+
    "e" +:+ (if (x <? 0)%Z then "-" else "+") +:+ fmt_02 (Z.abs x)
  else
    match e with
    | O => str_of_int m +:+ ".0"
    | S _ =>
        (if (m <? 0)%Z then "-" else "") +:+ str_of_int (a / p) +:+ "." +:+
        zfill e (str_of_int (a mod p))
    end.

(** [str(v)] *)
Definition py_str (v : value) : string :=
  match v with
  | NaN => "nan"
  | VInt z => str_of_int z
  | VFloat m e => str_of_float m e
  | VStr s => s
  end.

(** The number in a cell; [None] for a cell that is not a number. *)
Definition to_Q (v : value) : option Q :=
  match v with
  | VInt z => Some (inject_Z z)
  | VFloat m e => Some (inject_Z m / inject_Z (10 ^ Z.of_nat e))%Q
  | NaN | VStr _ => None
  end.

(** The order in which group keys are sorted: numbers by magnitude,
    strings by their characters. *)
Definition value_leb (a b : value) : bool :=
  match a, b with
  | VStr s, VStr t => String.leb s t
  | NaN, _ => true
  | _, NaN => false
  | VStr _, _ => false
  | _, VStr _ => true
  | _, _ =>
      match to_Q a, to_Q b with
      | Some x, Some y => Qle_bool x y
      | _, _ => true
      end
  end.

Definition value_le (a b : value) : Prop := value_leb a b = true.

#[global] Instance value_le_dec : RelDecision value_le.
Proof. intros a b. unfold value_le. apply _. Defined.

(** A date-time: nanoseconds since 1970-01-01T00:00. *)
Definition Timestamp := Z.

Definition ns_per_day : Z := 86400 * 1000000000.

(** [ts.normalize()], the start of the day of [ts]; the key of [.date]
    and of [Grouper(freq='D')]. *)
Definition floor_day (ts : Timestamp) : Timestamp := ts / ns_per_day * ns_per_day.

Definition day_names : list string :=
  ["Monday"; "Tuesday"; "Wednesday"; "Thursday"; "Friday"; "Saturday"; "Sunday"].

(** [ts.day_name()]; 1970-01-01 was a Thursday. *)
Definition day_name (ts : Timestamp) : string :=
  day_names !!! Z.to_nat ((ts / ns_per_day + 3) mod 7).

(** A row: its label in the index ([None] is [NaT]) and its cells, one
    per column. The labels of the trip table are date-times; a position
    in a [RangeIndex] is held as that integer. *)
Record Row := { label : option Timestamp; cells : list value }.

Record DataFrame := { columns : list string; rows : list Row }.

Record Series (K V : Type) := { name : option string; items : list (K * V) }.
Arguments name {K V} _.
Arguments items {K V} _.

Definition rename {K V : Type} (s : Series K V) (n : string) : Series K V :=
  {| name := Some n; items := items s |}.

Definition col_index (df : DataFrame) (col : string) : option nat :=
  fst <$> list_find (λ c, c = col) (columns df).

Definition cell (i : nat) (r : Row) : value := default NaN (cells r !! i).

(** [df[col]] *)
Definition getitem (df : DataFrame) (col : string) : result (list value) :=
  match col_index df col with
  | Some i => Ok (cell i <$> rows df)
  | None => Err (KeyError col)
  end.

(** [df[col] = vals], for values that carry the table's own index. *)
Definition setitem (df : DataFrame) (col : string) (vals : list value) : DataFrame :=
  match col_index df col with
  | Some i =>
      {| columns := columns df;
         rows := zip_with (λ r v, {| label := label r; cells := <[i := v]> (cells r) |})
                          (rows df) vals |}
  | None =>
      {| columns := columns df ++ [col];
         rows := zip_with (λ r v, {| label := label r; cells := cells r ++ [v] |})
                          (rows df) vals |}
  end.

(** [df[[c1, ..., cn]]] *)
Definition select (df : DataFrame) (cols : list string) : result DataFrame :=
  idx ← foldr (λ c acc,
                 match col_index df c with
                 | Some i => (i ::.) <$> acc
                 | None => Err (KeyError c)
                 end) (Ok []) cols;
  mret {| columns := cols;
          rows := (λ r, {| label := label r; cells := (λ i, cell i r) <$> idx |}) <$> rows df |}.

(** [df.set_index(col)]: the column [col] becomes the index and is no
    longer a column. A date-time cell is the label it stands for. *)
Definition set_index (df : DataFrame) (col : string) : result DataFrame :=
  match col_index df col with
  | Some i =>
      Ok {| columns := delete i (columns df);
            rows := (λ r, {| label := match cell i r with
                                      | VInt ts => Some ts
                                      | _ => None
                                      end;
                             cells := delete i (cells r) |}) <$> rows df |}
  | None => Err (KeyError col)
  end.

(** [df.dropna(how='all')] *)
Definition dropna_all (df : DataFrame) : DataFrame :=
  {| columns := columns df;
     rows := List.filter (λ r, existsb notna (cells r)) (rows df) |}.

(** [groupby(keys)]: the distinct keys that are present, sorted, each
    with the members of its group in their order. A missing key
    ([None]) belongs to no group. *)
Definition groupby {K V : Type} `{EqDecision K} (le : relation K)
    `{!RelDecision le} (kvs : list (option K * V)) : list (K * list V) :=
  let present := omap fst kvs in
  let keys := merge_sort le (remove_dups present) in
  (λ k, (k, snd <$> List.filter (λ kv, bool_decide (kv.1 = Some k)) kvs)) <$> keys.

Definition key_of (v : value) : option value :=
  match v with
  | NaN => None
  | _ => Some v
  end.

(** [.sum()] of a column: missing cells are skipped; text cannot be
    added to numbers nor divided. *)
Fixpoint sum (vs : list value) : result Q :=
  match vs with
  | [] => Ok 0%Q
  | NaN :: vs' => sum vs'
  | VStr _ :: _ => Err (TypeError "unsupported operand type(s)")
  | v :: vs' =>
      s ← sum vs';
      mret (default 0%Q (to_Q v) + s)%Q
  end.

(** [.sum()] of every group, then [/ 60]. *)
Fixpoint sums_div_60 {K : Type} (gs : list (K * list value)) : result (list (K * Q)) :=
  match gs with
  | [] => Ok []
  | (k, vs) :: gs' =>
      s ← sum vs;
      rest ← sums_div_60 gs';
      mret ((k, (s / 60)%Q) :: rest)
  end.

End pd.

(** ** Calls to the libraries outside the repository *)

Record Response := {
  status_code : Z;
  content : string;
  text : string
}.

(** A ZIP archive that has been opened: its entries, by name. *)
Definition ZipFile := list (string * string).

(** [requests.get(url)], [zipfile.ZipFile(io.BytesIO(b))],
    [bytes.decode('utf-8')] and [pd.read_csv(data, delimiter=";",
    index_col="fecha", parse_dates=[...], dayfirst=True)]. Each may raise. *)
Inductive event : Type → Type :=
| requests_get (url : string) : event Response
| zipfile_ZipFile (zip_bytes : string) : event ZipFile
| decode_utf8 (b : string) : event string
| read_csv (data : string) : event pd.DataFrame.

(** [zfile.open(name).read()] *)
Fixpoint zip_open_read (zfile : ZipFile) (name : string) : result string :=
  match zfile with
  | [] => Err (KeyError ("There is no item named " +:+ name +:+ " in the archive"))
  | (n, contents) :: zfile' =>
      if String.eqb n name then Ok contents else zip_open_read zfile' name
  end.

Inductive io (A : Type) : Type :=
| Pure (r : result A)
| Call {X : Type} (ev : event X) (k : result X → io A).
Arguments Pure {A} r.
Arguments Call {A X} ev k.

Fixpoint io_bind {A B : Type} (f : A → io B) (m : io A) : io B :=
  match m with
  | Pure (Ok a) => f a
  | Pure (Err e) => Pure (Err e)
  | Call ev k => Call ev (λ r, io_bind f (k r))
  end.

#[global] Instance io_ret : MRet io := λ A a, Pure (Ok a).
#[global] Instance io_mbind : MBind io := λ A B f m, io_bind f m.

Definition raise {A : Type} (e : exn) : io A := Pure (Err e).
Definition lift {A : Type} (r : result A) : io A := Pure r.
Definition perform {X : Type} (ev : event X) : io X := Call ev Pure.

(** The calls a computation issues when the libraries answer as [env] says,
    in order, with its outcome. *)
Fixpoint run {A : Type} (env : ∀ X, event X → result X) (m : io A)
  : list {X : Type & event X} * result A :=
  match m with
  | Pure r => ([], r)
  | Call ev k =>
      let '(tr, r) := run env (k (env _ ev)) in
      (existT _ ev :: tr, r)
  end.

(** ** The fragment of [re] the link pattern uses *)

Module re.

Inductive cls :=
| dot                                   (* [.]: anything but a newline *)
| digit                                 (* [\d] *)
| ranges (rs : list (ascii * ascii)).   (* [[a-zA-Z]] *)

Definition in_range (c : ascii) (r : ascii * ascii) : bool :=
  ((nat_of_ascii r.1 <=? nat_of_ascii c) && (nat_of_ascii c <=? nat_of_ascii r.2))%nat.

(** The text is held as bytes. On ASCII text [\d] is the ten ASCII digits,
    as here. On a [str] Python's [\d] also matches the decimal digits of
    other scripts; these are bytes above 127 here and are not matched, so
    what is stated of the substrings that match is stated of ASCII text
    ([ascii_text]). *)
Definition cls_matches (k : cls) (c : ascii) : bool :=
  match k with
  | dot => negb (Ascii.eqb c "010"%char)
  | digit => in_range c ("0"%char, "9"%char)
  | ranges rs => existsb (in_range c) rs
  end.

Inductive atom :=
| Lit (s : string)          (* literal characters *)
| Rep (k : cls) (n : nat)   (* [k{n}] *)
| LazyStar (k : cls)        (* [k*?] *)
| GreedyPlus (k : cls).     (* [k+] *)

Fixpoint strip_prefix (p s : string) : option string :=
  match p, s with
  | EmptyString, _ => Some s
  | String a p', String b s' => if Ascii.eqb a b then strip_prefix p' s' else None
  | String _ _, EmptyString => None
  end.

(** The repetitions, in the order a backtracking matcher tries them; [k]
    is the rest of the pattern. All return what is left of the text after
    the first successful way of matching. *)
Fixpoint exactly (n : nat) (p : ascii → bool) (k : string → option string)
    (s : string) : option string :=
  match n with
  | O => k s
  | S n' =>
      match s with
      | String c s' => if p c then exactly n' p k s' else None
      | EmptyString => None
      end
  end.

Fixpoint lazy_star (p : ascii → bool) (k : string → option string)
    (s : string) : option string :=
  match k s with
  | Some r => Some r
  | None =>
      match s with
      | String c s' => if p c then lazy_star p k s' else None
      | EmptyString => None
      end
  end.

Fixpoint greedy_star (p : ascii → bool) (k : string → option string)
    (s : string) : option string :=
  match s with
  | String c s' =>
      if p c then
        match greedy_star p k s' with
        | Some r => Some r
        | None => k s
        end
      else k s
  | EmptyString => k s
  end.

Fixpoint match_here (pat : list atom) (s : string) : option string :=
  match pat with
  | [] => Some s
  | a :: pat' =>
      match a with
      | Lit l =>
          match strip_prefix l s with
          | Some s' => match_here pat' s'
          | None => None
          end
      | Rep k n => exactly n (cls_matches k) (match_here pat') s
      | LazyStar k => lazy_star (cls_matches k) (match_here pat') s
      | GreedyPlus k =>
          match s with
          | String c s' =>
              if cls_matches k c
              then greedy_star (cls_matches k) (match_here pat') s'
              else None
          | EmptyString => None
          end
      end
  end.

Fixpoint str_take (n : nat) (s : string) : string :=
  match n, s with
  | S n', String c s' => String c (str_take n' s')
  | _, _ => EmptyString
  end.

(** [findall]: scan from the left; after a match of [n] characters the
    next [n - 1] positions are skipped, so matches do not overlap. *)
Fixpoint findall_go (pat : list atom) (skip : nat) (s : string) {struct s}
    : list string :=
  match skip with
  | S j =>
      match s with
      | String _ s' => findall_go pat j s'
      | EmptyString => []
      end
  | O =>
      match match_here pat s with
      | Some rest =>
          let n := (String.length s - String.length rest)%nat in
          str_take n s ::
            match s with
            | String _ s' => findall_go pat (n - 1) s'
            | EmptyString => []
            end
      | None =>
          match s with
          | String _ s' => findall_go pat 0 s'
          | EmptyString => []
          end
      end
  end.

Definition findall (pat : list atom) (s : string) : list string :=
  findall_go pat 0 s.

End re.

(** ** class UrlEMT *)

Module UrlEMT.

Definition EMT : string := "https://opendata.emtmadrid.es/".
Definition GENERAL : string := "/Datos-estaticos/Datos-generales-(1)".

(** [urljoin(EMT, GENERAL)]: an absolute path replaces the path of the
    base, which is ["/"]. *)
Definition index_url : string :=
  "https://opendata.emtmadrid.es/Datos-estaticos/Datos-generales-(1)".

(** [enlaces_validos] in the order in which the collection is iterated;
    what is proved of [get_url] holds for every order. *)
Record t := { enlaces_validos : list string }.

(** [r'(getattachment/.*?trips_\d{2}_\d{2}_[a-zA-Z]+-csv\.aspx)'] *)
Definition pattern : list re.atom :=
  [ re.Lit "getattachment/"; re.LazyStar re.dot; re.Lit "trips_";
    re.Rep re.digit 2; re.Lit "_"; re.Rep re.digit 2; re.Lit "_";
    re.GreedyPlus (re.ranges [("a"%char, "z"%char); ("A"%char, "Z"%char)]);
    re.Lit "-csv.aspx" ].

Definition get_links (html : string) : gset string :=
  let matches := re.findall pattern html in
  list_to_set ((λ link, EMT +:+ link) <$> matches).

Definition select_valid_urls : io (gset string) :=
  let url := index_url in
  resp ← perform (requests_get url);
  if negb (status_code resp =? 200)%Z then
    raise (ConnectionError ("Failed to connect to " +:+ url +:+
                            ", status code: " +:+ str_of_int (status_code resp)))
  else
    let links := get_links (text resp) in
    mret links.

Definition init : io t :=
  links ← select_valid_urls;
  mret {| enlaces_validos := elements links |}.

Definition get_url (self : t) (month year : Z) : result string :=
  if negb ((1 <=? month)%Z && (month <=? 12)%Z) then
    Err (ValueError "El mes debe ser un número entre 1 y 12.")
  else if negb (existsb (Z.eqb year) [21; 22; 23]) then
    Err (ValueError "El año debe ser 21, 22 o 23.")
  else
    let search_str := str_of_int year +:+ "_" +:+ fmt_02 month in
    match find (str_contains search_str) (enlaces_validos self) with
    | Some url => Ok url
    | None =>
        Err (ValueError ("No existe un enlace valido para el mes " +:+
                         str_of_int month +:+ " del año " +:+ str_of_int year))
    end.

Definition month_name_mapping : list (Z * string) :=
  [ (1, "January"); (2, "February"); (3, "March"); (4, "April");
    (5, "May"); (6, "June"); (7, "July"); (8, "August");
    (9, "September"); (10, "October"); (11, "November"); (12, "December") ].

Fixpoint dict_get (d : list (Z * string)) (key : Z) : result string :=
  match d with
  | [] => Err (KeyError (str_of_int key))
  | (k, v) :: d' => if (k =? key)%Z then Ok v else dict_get d' key
  end.

Definition get_name_csv (month year : Z) : result string :=
  month_name ← dict_get month_name_mapping month;
  let csv_name := "trips_" +:+ str_of_int year +:+ "_" +:+ fmt_02 month +:+
                  "_" +:+ month_name +:+ ".csv" in
  mret csv_name.

Definition get_csv (self : t) (month year : Z) : io string :=
  url ← lift (get_url self month year);
  resp ← perform (requests_get url);
  if negb (status_code resp =? 200)%Z then
    raise (ConnectionError ("Failed to connect to " +:+ url +:+
                            ", status code: " +:+ str_of_int (status_code resp)))
  else
    let zip_bytes := content resp in
    zfile ← perform (zipfile_ZipFile zip_bytes);
    name_csv ← lift (get_name_csv month year);
    contents ← lift (zip_open_read zfile name_csv);
    content_str ← perform (decode_utf8 contents);
    mret content_str.

End UrlEMT.

(** ** class BiciMad *)

Module BiciMad.
Import pd.

Record t := { _month : Z; _year : Z; _data : DataFrame }.

Definition csv_columns : list string :=
  [ "idBike"; "fleet"; "trip_minutes"; "geolocation_unlock"; "address_unlock";
    "unlock_date"; "locktype"; "unlocktype"; "geolocation_lock"; "address_lock";
    "lock_date"; "station_unlock"; "unlock_station_name"; "station_lock";
    "lock_station_name" ].

Definition csv_to_df (data : string) : io DataFrame :=
  df ← perform (read_csv data);
  df ← lift (select df csv_columns);
  mret df.

Definition get_data (month year : Z) : io DataFrame :=
  url_emt_instance ← UrlEMT.init;
  csv_file ← UrlEMT.get_csv url_emt_instance month year;
  df ← csv_to_df csv_file;
  mret df.

Definition col_names : list string := ["fleet"; "idBike"; "station_lock"; "station_unlock"].

(** One turn of the loop in [clean]. *)
Definition clean_column (df : DataFrame) (col_name : string) : DataFrame :=
  if decide (col_name ∈ columns df) then
    match getitem df col_name with
    | Ok col =>
        setitem df col_name ((λ v, VStr (str_replace ".0" "" (py_str v))) <$> col)
    | Err _ => df
    end
  else df.

Definition clean (df : DataFrame) : DataFrame :=
  foldl clean_column (dropna_all df) col_names.

(** [BiciMad(month, year)] *)
Definition init (month year : Z) : io t :=
  data ← get_data month year;
  mret {| _month := month; _year := year; _data := clean data |}.

Definition get_most_popular_stations (self : t) : result (gset value) :=
  let df := _data self in
  stations ← getitem df "station_unlock";
  let result := (λ g, (g.1, length g.2)) <$> groupby value_le ((λ s, (key_of s, ())) <$> stations) in
  let max_count := max_list (snd <$> result) in
  let top := List.filter (λ g, bool_decide (g.2 = max_count)) result in
  let top_stations := fst <$> top in
  addresses ← getitem df "address_unlock";
  let filtered := List.filter (λ sa, bool_decide (sa.1 ∈ top_stations)) (zip stations addresses) in
  mret (list_to_set (snd <$> filtered)).

Definition get_uses_from_most_populars (self : t) : result nat :=
  let df := _data self in
  top_adresses ← get_most_popular_stations self;
  addresses ← getitem df "address_unlock";
  let df_filtered := List.filter (λ a, bool_decide (a ∈ top_adresses)) addresses in
  mret (length df_filtered).

(** The values of the record [resume] returns. *)
Inductive pyobj :=
| PInt (z : Z)
| PFloat (q : Q)
| PSet (s : gset value).

Definition resume (self : t) : result (Series string pyobj) :=
  minutes ← getitem (_data self) "trip_minutes";
  total ← sum minutes;
  most_popular ← get_most_popular_stations self;
  uses ← get_uses_from_most_populars self;
  mret {| name := None;
          items := [ ("year", PInt (_year self));
                     ("month", PInt (_month self));
                     ("total_uses", PInt (Z.of_nat (length (rows (_data self)))));
                     ("total_time", PFloat (total / 60)%Q);
                     ("most_popular_station", PSet most_popular);
                     ("uses_from_most_popular", PInt (Z.of_nat uses)) ] |}.

Definition day_time (self : t) : result (Series Timestamp Q) :=
  let data := _data self in
  minutes ← getitem data "trip_minutes";
  horas ← sums_div_60 (groupby Z.le (zip (label <$> rows data) minutes));
  mret (rename {| name := Some "trip_minutes"; items := horas |} "trip_hours").

Definition mapping : list (string * string) :=
  [ ("Monday", "L"); ("Tuesday", "M"); ("Wednesday", "X"); ("Thursday", "J");
    ("Friday", "V"); ("Saturday", "S"); ("Sunday", "D") ].

Fixpoint dict_get (d : list (string * string)) (key : string) : result string :=
  match d with
  | [] => Err (KeyError key)
  | (k, v) :: d' => if String.eqb k key then Ok v else dict_get d' key
  end.

(** [data.index.day_name().map(lambda x: mapping[x])]; the day name of
    [NaT] is [nan], which is no key of [mapping]. *)
Fixpoint dia_of_index (idx : list (option Timestamp)) : result (list value) :=
  match idx with
  | [] => Ok []
  | None :: _ => Err (KeyError "nan")
  | Some ts :: idx' =>
      d ← dict_get mapping (day_name ts);
      ds ← dia_of_index idx';
      mret (VStr d :: ds)
  end.

(** [weekday_time] assigns to [data], which is [self._data] itself: the
    method returns its result and the instance it leaves behind. *)
Definition weekday_time (self : t) : result (Series value Q) * t :=
  let data := _data self in
  match dia_of_index (label <$> rows data) with
  | Err e => (Err e, self)
  | Ok dia =>
      let data := setitem data "dia" dia in
      let self := {| _month := _month self; _year := _year self; _data := data |} in
      (dia ← getitem data "dia";
       minutes ← getitem data "trip_minutes";
       horas ← sums_div_60 (groupby value_le (zip (key_of <$> dia) minutes));
       mret (rename {| name := Some "trip_minutes"; items := horas |} "trip_hours"),
       self)
  end.

Definition total_usage_day (self : t) : result (Series Timestamp nat) :=
  let data := _data self in
  bikes ← getitem data "idBike";
  let num_usage :=
    (λ g, (g.1, length g.2)) <$>
      groupby Z.le (zip ((λ r, floor_day <$> label r) <$> rows data) bikes) in
  mret (rename {| name := Some "idBike"; items := num_usage |} "Number_trips").

Definition day_station_le (a b : Timestamp * value) : Prop :=
  a.1 < b.1 ∨ (a.1 = b.1 ∧ value_le a.2 b.2).

#[global] Instance day_station_le_dec : RelDecision day_station_le.
Proof. intros a b. unfold day_station_le. apply _. Defined.

Definition total_usage_day_station_unlock (self : t) : result DataFrame :=
  let df := _data self in
  stations ← getitem df "station_unlock";
  let keys :=
    zip_with (λ r s, d ← floor_day <$> label r; k ← key_of s; Some (d, k))
             (rows df) stations in
  let counts := groupby day_station_le ((λ k, (k, ())) <$> keys) in
  mret {| columns := ["station_unlock"; "count"];
          rows := (λ g, {| label := Some g.1.1;
                           cells := [g.1.2; VInt (Z.of_nat (length g.2))] |}) <$> counts |}.

Definition data (self : t) : DataFrame := _data self.

Definition __str__ (self : t) : string :=
  "Month: " +:+ str_of_int (_month self) +:+ ", Year: " +:+ str_of_int (_year self).

(** The aggregation methods. *)
Inductive method :=
| Resume
| GetMostPopularStations
| GetUsesFromMostPopulars
| DayTime
| WeekdayTime
| TotalUsageDay
| TotalUsageDayStationUnlock.

End BiciMad.

(** ** The instance as an object

    In [BiciMad] above a method is a function of the table. In Python
    [self._data] is a reference: a method that assigns to the table it
    reaches through it, or calls one of its operations with
    [inplace=True], changes the table of the instance. Here the bodies of
    the aggregation methods are programs over the store of tables:
    [df = self._data] binds a reference, every use of the table reads what
    the reference leads to at that moment, an operation that builds a
    table allocates it, and an assignment or an in-place operation writes
    to the table referred to. A [Series] made inside a call is a value:
    none is reachable from the instance. *)

Module obj.
Import pd.

Definition ref := nat.

(** The tables allocated so far; a reference is a position. *)
Definition store := list DataFrame.

Definition st (A : Type) : Type := store → result A * store.

#[global] Instance st_ret : MRet st := λ A a σ, (Ok a, σ).
#[global] Instance st_bind : MBind st := λ A B f m σ,
  match m σ with
  | (Ok a, σ') => f a σ'
  | (Err e, σ') => (Err e, σ')
  end.

(** A computation that touches no table. *)
Definition eval {A : Type} (r : result A) : st A := λ σ, (r, σ).

Definition read (r : ref) : st DataFrame := λ σ,
  match σ !! r with
  | Some df => (Ok df, σ)
  | None => (Err (LibraryError "no such table"), σ)
  end.

Definition new (df : DataFrame) : st ref := λ σ, (Ok (length σ), σ ++ [df]).

Definition write (r : ref) (df : DataFrame) : st unit := λ σ, (Ok (), <[r := df]> σ).

Record t := { _month : Z; _year : Z; _data : ref }.

(** The instance with the table [df] for [_data]. *)
Definition snapshot (self : t) (df : DataFrame) : BiciMad.t :=
  {| BiciMad._month := _month self; BiciMad._year := _year self; BiciMad._data := df |}.

Definition get_most_popular_stations (self : t) : st (gset value) :=
  let df := _data self in
  table ← read df;
  stations ← eval (getitem table "station_unlock");
  let result := (λ g, (g.1, length g.2)) <$> groupby value_le ((λ s, (key_of s, ())) <$> stations) in
  let max_count := max_list (snd <$> result) in
  let top := List.filter (λ g, bool_decide (g.2 = max_count)) result in
  let top_stations := fst <$> top in
  table ← read df;
  addresses ← eval (getitem table "address_unlock");
  let filtered := List.filter (λ sa, bool_decide (sa.1 ∈ top_stations)) (zip stations addresses) in
  mret (list_to_set (snd <$> filtered)).

Definition get_uses_from_most_populars (self : t) : st nat :=
  let df := _data self in
  top_adresses ← get_most_popular_stations self;
  table ← read df;
  addresses ← eval (getitem table "address_unlock");
  let df_filtered := List.filter (λ a, bool_decide (a ∈ top_adresses)) addresses in
  mret (length df_filtered).

Definition resume (self : t) : st (Series string BiciMad.pyobj) :=
  table ← read (_data self);
  minutes ← eval (getitem table "trip_minutes");
  total ← eval (sum minutes);
  most_popular ← get_most_popular_stations self;
  uses ← get_uses_from_most_populars self;
  mret {| name := None;
          items := [ ("year", BiciMad.PInt (_year self));
                     ("month", BiciMad.PInt (_month self));
                     ("total_uses", BiciMad.PInt (Z.of_nat (length (rows table))));
                     ("total_time", BiciMad.PFloat (total / 60)%Q);
                     ("most_popular_station", BiciMad.PSet most_popular);
                     ("uses_from_most_popular", BiciMad.PInt (Z.of_nat uses)) ] |}.

Definition day_time (self : t) : st (Series Timestamp Q) :=
  let data := _data self in
  table ← read data;
  minutes ← eval (getitem table "trip_minutes");
  horas ← eval (sums_div_60 (groupby Z.le (zip (label <$> rows table) minutes)));
  mret (rename {| name := Some "trip_minutes"; items := horas |} "trip_hours").

(** [data['dia'] = ...] writes to the table of the instance: [data] is
    [self._data]. The right-hand side is evaluated first, so nothing is
    written when it raises. *)
Definition weekday_time (self : t) : st (Series value Q) :=
  let data := _data self in
  table ← read data;
  dia ← eval (BiciMad.dia_of_index (label <$> rows table));
  table ← read data;
  _ ← write data (setitem table "dia" dia);
  table ← read data;
  dia ← eval (getitem table "dia");
  minutes ← eval (getitem table "trip_minutes");
  horas ← eval (sums_div_60 (groupby value_le (zip (key_of <$> dia) minutes)));
  mret (rename {| name := Some "trip_minutes"; items := horas |} "trip_hours").

Definition total_usage_day (self : t) : st (Series Timestamp nat) :=
  let data := _data self in
  table ← read data;
  bikes ← eval (getitem table "idBike");
  let num_usage :=
    (λ g, (g.1, length g.2)) <$>
      groupby Z.le (zip ((λ r, floor_day <$> label r) <$> rows table) bikes) in
  mret (rename {| name := Some "idBike"; items := num_usage |} "Number_trips").

(** [df = df.groupby(...).size().reset_index(name='count')] binds [df] to
    a new table, with the keys of the groups as the columns ["fecha"] and
    ["station_unlock"] under a [RangeIndex]; [df.set_index('fecha',
    inplace=True)] then writes to that table, not to the table of the
    instance. The method returns the reference to it. *)
Definition total_usage_day_station_unlock (self : t) : st ref :=
  let df := _data self in
  table ← read df;
  stations ← eval (getitem table "station_unlock");
  let keys :=
    zip_with (λ r s, d ← floor_day <$> label r; k ← key_of s; Some (d, k))
             (rows table) stations in
  let counts := groupby BiciMad.day_station_le ((λ k, (k, ())) <$> keys) in
  df ← new {| columns := ["fecha"; "station_unlock"; "count"];
              rows := imap (λ i g, {| label := Some (Z.of_nat i);
                                      cells := [VInt g.1.1; g.1.2;
                                                VInt (Z.of_nat (length g.2))] |})
                           counts |};
  table ← read df;
  table ← eval (set_index table "fecha");
  _ ← write df table;
  mret df.

(** The store a call of the method [m] leaves behind. *)
Definition after (m : BiciMad.method) (self : t) (σ : store) : store :=
  match m with
  | BiciMad.Resume => (resume self σ).2
  | BiciMad.GetMostPopularStations => (get_most_popular_stations self σ).2
  | BiciMad.GetUsesFromMostPopulars => (get_uses_from_most_populars self σ).2
  | BiciMad.DayTime => (day_time self σ).2
  | BiciMad.WeekdayTime => (weekday_time self σ).2
  | BiciMad.TotalUsageDay => (total_usage_day self σ).2
  | BiciMad.TotalUsageDayStationUnlock => (total_usage_day_station_unlock self σ).2
  end.

End obj.

(** * Properties *)

(** ** Vocabulary of the specification *)

(** [sub] occurs in [s]. *)
Definition occurs_in (sub s : string) : Prop :=
  ∃ before after, s = before +:+ sub +:+ after.

Definition digit_char (d : Z) : ascii := ascii_of_nat (48 + Z.to_nat d).

(** A number below 100 written with two digits, zero-padded. *)
Definition two_digits (z : Z) : string :=
  String (digit_char (z / 10)) (String (digit_char (z mod 10)) "").

Definition english_month_names : list string :=
  [ "January"; "February"; "March"; "April"; "May"; "June"; "July"; "August";
    "September"; "October"; "November"; "December" ].

Fixpoint all_chars (P : ascii → Prop) (s : string) : Prop :=
  match s with
  | EmptyString => True
  | String c s' => P c ∧ all_chars P s'
  end.

Definition is_digit (c : ascii) : Prop := (48 ≤ nat_of_ascii c ≤ 57)%nat.

Definition is_letter (c : ascii) : Prop :=
  (97 ≤ nat_of_ascii c ≤ 122)%nat ∨ (65 ≤ nat_of_ascii c ≤ 90)%nat.

Definition not_newline (c : ascii) : Prop := c ≠ "010"%char.


(** [getattachment/<anything>trips_<2-digit>_<2-digit>_<letters>-csv.aspx],
    with [anything] made of characters that satisfy [P]. *)
Definition link_shape (P : ascii → Prop) (s : string) : Prop :=
  ∃ anything yy mm letters,
    s = "getattachment/" +:+ anything +:+ "trips_" +:+ yy +:+ "_" +:+ mm +:+ "_" +:+
        letters +:+ "-csv.aspx" ∧
    all_chars P anything ∧
    (String.length yy = 2%nat ∧ all_chars is_digit yy) ∧
    (String.length mm = 2%nat ∧ all_chars is_digit mm) ∧
    (letters ≠ "" ∧ all_chars is_letter letters).


(** [trips_<2-digit>_<2-digit>_<letters>-csv.aspx] *)
Definition file_name (s : string) : Prop :=
  ∃ yy mm letters,
    s = "trips_" +:+ yy +:+ "_" +:+ mm +:+ "_" +:+ letters +:+ "-csv.aspx" ∧
    (String.length yy = 2%nat ∧ all_chars is_digit yy) ∧
    (String.length mm = 2%nat ∧ all_chars is_digit mm) ∧
    (letters ≠ "" ∧ all_chars is_letter letters).

(** The link [m] at the head of the text [t]: ["getattachment/"], then the
    shortest text on the same line after which a file name follows, then
    that file name. *)
Definition link_at (t m : string) : Prop :=
  ∃ anything name rest,
    t = "getattachment/" +:+ anything +:+ name +:+ rest ∧
    m = "getattachment/" +:+ anything +:+ name ∧
    all_chars not_newline anything ∧
    file_name name ∧
    ∀ a1 a2 name' rest',
      anything = a1 +:+ a2 → a2 ≠ "" → file_name name' →
      a2 +:+ name +:+ rest ≠ name' +:+ rest'.




(** What a continuation of the matcher promises: it only succeeds by
    consuming a text of shape [Q], and it does succeed on such a text. *)
Definition sound (k : string → option string) (Q : string → Prop) : Prop :=
  ∀ s r, k s = Some r → ∃ m, s = m +:+ r ∧ Q m.


(** *** Tables *)

(** Every row has one cell per column. *)
Definition well_formed (df : pd.DataFrame) : Prop :=
  Forall (λ r, length (pd.cells r) = length (pd.columns df)) (pd.rows df).

(** A row that [dropna(how='all')] keeps: some cell is present. *)
Definition survives (r : pd.Row) : bool := existsb pd.notna (pd.cells r).

(** What [clean] writes in place of an identifier. *)
Definition cleaned (v : pd.value) : pd.value :=
  pd.VStr (str_replace ".0" "" (pd.py_str v)).

Definition alter_cell (i : nat) (g : pd.value → pd.value) (r : pd.Row) : pd.Row :=
  {| pd.label := pd.label r; pd.cells := <[i := g (pd.cell i r)]> (pd.cells r) |}.

Definition clean_row_at (oi : option nat) (r : pd.Row) : pd.Row :=
  match oi with
  | Some i => alter_cell i cleaned r
  | None => r
  end.

Definition clean_row (df : pd.DataFrame) (r : pd.Row) : pd.Row :=
  foldl (λ r c, clean_row_at (pd.col_index df c) r) r BiciMad.col_names.

(** The fixture of the repository's tests: seven rows, one of them empty
    (the numeric columns are then read as floats), stations tallying
    1:2, 2:1, 3:2, 4:1, over two days. *)
Definition nov_1 : pd.Timestamp := 19297 * pd.ns_per_day.
Definition nov_2 : pd.Timestamp := 19298 * pd.ns_per_day.

Definition trip (ts : option pd.Timestamp) (bike fleet minutes addr station : pd.value)
    : pd.Row :=
  {| pd.label := ts;
     pd.cells := [ bike; fleet; minutes; pd.NaN; addr; pd.NaN; pd.NaN; pd.NaN; pd.NaN;
                   pd.NaN; pd.NaN; station; pd.NaN; pd.NaN; pd.NaN ] |}.

Definition raw_fixture : pd.DataFrame :=
  {| pd.columns := BiciMad.csv_columns;
     pd.rows :=
       [ trip (Some nov_1) (pd.VFloat 7337 0) (pd.VFloat 1 0) (pd.VFloat 525 2)
              (pd.VStr "Calle Jesus") (pd.VFloat 2 0);
         trip (Some nov_1) (pd.VFloat 5098 0) (pd.VFloat 1 0) (pd.VFloat 10 0)
              (pd.VStr "Calle Alcala") (pd.VFloat 1 0);
         trip None pd.NaN pd.NaN pd.NaN pd.NaN pd.NaN;
         trip (Some nov_1) (pd.VFloat 6519 0) (pd.VFloat 1 0) (pd.VFloat 10 0)
              (pd.VStr "Calle Alcala") (pd.VFloat 1 0);
         trip (Some nov_1) (pd.VFloat 11 0) (pd.VFloat 1 0) (pd.VFloat 1075 2)
              (pd.VStr "Calle Manuel Silvela") (pd.VFloat 3 0);
         trip (Some nov_1) (pd.VFloat 12 0) (pd.VFloat 1 0) (pd.VFloat 6 0)
              (pd.VStr "Calle X") (pd.VFloat 4 0);
         trip (Some nov_2) (pd.VFloat 13 0) (pd.VFloat 1 0) (pd.VFloat 5 1)
              (pd.VStr "Calle Manuel Silvela") (pd.VFloat 3 0) ] |}.

(** A one-row table with [v] as its fleet. *)
Definition fleet_table (v : pd.value) : pd.DataFrame :=
  {| pd.columns := BiciMad.csv_columns;
     pd.rows := [ trip (Some nov_1) (pd.VFloat 7337 0) v (pd.VFloat 10 0)
                       (pd.VStr "Calle Alcala") (pd.VFloat 1 0) ] |}.

Definition november : BiciMad.t :=
  {| BiciMad._month := 11; BiciMad._year := 22; BiciMad._data := BiciMad.clean raw_fixture |}.

(** The instance of the fixture as an object, its table being the first of
    the store. *)
Definition november_object : obj.t :=
  {| obj._month := 11; obj._year := 22; obj._data := 0%nat |}.

(** The size of the group of [s] when rows are grouped by station, and the
    largest such size. *)
Definition group_size (s : pd.value) (stations : list pd.value) : nat :=
  length (filter (λ x, x = s) stations).

Definition max_group_size (stations : list pd.value) : nat :=
  max_list ((λ s, group_size s stations) <$> stations).

(** The sum of the numbers of a column. *)
Definition total_minutes (minutes : list pd.value) : Q :=
  foldr Qplus 0%Q (omap pd.to_Q minutes).

Definition is_text (v : pd.value) : Prop := ∃ s, v = pd.VStr s.

(** Two unlocks on one day, an hour apart. *)
Definition hour : Z := 3600 * 1000000000.

Definition same_day : BiciMad.t :=
  {| BiciMad._month := 11; BiciMad._year := 22;
     BiciMad._data :=
       BiciMad.clean
         {| pd.columns := BiciMad.csv_columns;
            pd.rows :=
              [ trip (Some (nov_1 + 8 * hour)) (pd.VFloat 7337 0) (pd.VFloat 1 0)
                     (pd.VFloat 30 0) (pd.VStr "Calle Alcala") (pd.VFloat 1 0);
                trip (Some (nov_1 + 9 * hour)) (pd.VFloat 5098 0) (pd.VFloat 1 0)
                     (pd.VFloat 60 0) (pd.VStr "Calle Alcala") (pd.VFloat 1 0) ] |} |}.

(** The catalogue of the repository's tests. *)
Definition catalog_fixture : UrlEMT.t :=
  {| UrlEMT.enlaces_validos :=
       [ "https://opendata.emtmadrid.es/getattachment/45f51cef-9296-4afe-b42e-d8d5bca3c548/trips_22_11_November-csv.aspx";
         "https://opendata.emtmadrid.es/51ba4be6-596f-41d3-8bab-634c4be569c5/trips_21_10_October-csv.aspx";
         "https://opendata.emtmadrid.es/getattachment/trips_22_03_march-csv.aspx" ] |}.


(** A page with three links, two of them on one line. *)
Definition html_fixture : string :=
  "<a href='/getattachment/45f5/trips_22_11_November-csv.aspx'>Nov</a>" +:+
  "<a href='/getattachment/trips_22_03_march-csv.aspx'>Mar</a>" +:+
  String "010"%char
    "<a href='/getattachment/51ba/trips_21_10_October-csv.aspx'>Oct</a>".

(** [hours_per_day] as the specification words it: rows grouped by the date
    of their label, the minutes of each day summed and divided by 60. *)
Definition hours_per_day (self : BiciMad.t) : result (pd.Series pd.Timestamp Q) :=
  let data := BiciMad._data self in
  minutes ← pd.getitem data "trip_minutes";
  horas ← pd.sums_div_60
             (pd.groupby Z.le (zip ((λ r, pd.floor_day <$> pd.label r) <$> pd.rows data)
                                   minutes));
  mret {| pd.name := Some "trip_hours"; pd.items := horas |}.


(** The letter [weekday_time] gives to the day of a time stamp. *)
Definition weekday_code (ts : pd.Timestamp) : string :=
  match BiciMad.dict_get BiciMad.mapping (pd.day_name ts) with
  | Ok d => d
  | Err _ => ""
  end.

Definition weekday_codes : list string := ["L"; "M"; "X"; "J"; "V"; "S"; "D"].

(** The count in a row of the table of [total_usage_day_station_unlock]. *)
Definition count_of (r : pd.Row) : nat :=
  match pd.cell 1 r with
  | pd.VInt z => Z.to_nat z
  | _ => 0%nat
  end.

(** The number of trips that fall on [day] and start at [station], among
    the rows paired with their stations. *)
Definition trips_on (day : pd.Timestamp) (station : pd.value)
    (trips : list (pd.Row * pd.value)) : nat :=
  length (filter (λ t : pd.Row * pd.value,
                    pd.floor_day <$> pd.label t.1 = Some day ∧ t.2 = station) trips).

(** An atom that cannot match a line break, and a pattern made of such
    atoms. *)
Definition within_line_atom (a : re.atom) : bool :=
  match a with
  | re.Lit l => negb (str_contains (String "010"%char "") l)
  | re.Rep k _ | re.LazyStar k | re.GreedyPlus k => negb (re.cls_matches k "010"%char)
  end.

Definition within_line (pat : list re.atom) : bool := forallb within_line_atom pat.

(** *** Calls *)

(** An entry of the list of calls that [run] returns. *)
Definition issued {X : Type} (ev : event X) : {X : Type & event X} := existT X ev.

(** The portal as the tests mock it: the index page at its address, one
    answer for every other address, an archive, and a parsed table. *)
Definition portal (index dataset : Response) (zfile : ZipFile) (df : pd.DataFrame)
    : ∀ X, event X → result X :=
  λ X ev,
    match ev in event X return result X with
    | requests_get url =>
        if String.eqb url UrlEMT.index_url then Ok index else Ok dataset
    | zipfile_ZipFile _ => Ok zfile
    | decode_utf8 b => Ok b
    | read_csv _ => Ok df
    end.

Definition index_page : Response :=
  {| status_code := 200; content := html_fixture; text := html_fixture |}.

Definition not_found : Response :=
  {| status_code := 404; content := ""; text := "" |}.

Definition november_zip : Response :=
  {| status_code := 200; content := "PK"; text := "" |}.

Definition november_archive : ZipFile :=
  [ ("trips_22_11_November.csv", "fecha;idBike;fleet") ].

(** ** Strings *)

Lemma append_nil (t : string) : "" +:+ t = t.
Proof. reflexivity. Qed.

Lemma append_cons (a : ascii) (s t : string) : String a s +:+ t = String a (s +:+ t).
Proof. reflexivity. Qed.

Ltac str_simpl := rewrite ?append_cons, ?append_nil in *.

Lemma prefix_spec (p s : string) :
  String.prefix p s = true ↔ ∃ r, s = p +:+ r.
Proof.
  revert s. induction p as [|a p IH]; intros s.
  - split; [intros _; by exists s | by destruct s].
  - destruct s as [|b s]; simpl.
    + split; [done | intros [r Hr]; discriminate].
    + destruct (ascii_dec a b) as [->|Hne].
      * rewrite IH. split; intros [r Hr]; exists r; str_simpl; congruence.
      * split; [done | intros [r Hr]; str_simpl; congruence].
Qed.

Lemma str_contains_nil (sub : string) :
  str_contains sub "" = String.prefix sub "".
Proof. unfold str_contains. apply orb_false_r. Qed.

Lemma str_contains_cons (sub : string) (c : ascii) (s : string) :
  str_contains sub (String c s) = String.prefix sub (String c s) || str_contains sub s.
Proof. reflexivity. Qed.

Lemma str_contains_spec (sub s : string) :
  str_contains sub s = true ↔ occurs_in sub s.
Proof.
  unfold occurs_in. induction s as [|c s IH].
  - rewrite str_contains_nil, prefix_spec. split.
    + intros [r Hr]. by exists "", r.
    + intros ([|a before] & after & H); [by exists after | discriminate].
  - rewrite str_contains_cons, orb_true_iff, prefix_spec, IH. split.
    + intros [[r Hr] | (before & after & H)].
      * by exists "", r.
      * exists (String c before), after. str_simpl. by rewrite H.
    + intros ([|a before] & after & H).
      * left. by exists after.
      * right. exists before, after. str_simpl. congruence.
Qed.

Lemma str_contains_false (sub s : string) :
  str_contains sub s = false ↔ ¬ occurs_in sub s.
Proof. rewrite <- str_contains_spec. by destruct (str_contains sub s). Qed.

Lemma find_first {A : Type} (p : A → bool) (l : list A) (x : A) :
  find p l = Some x ↔
  ∃ before after, l = before ++ x :: after ∧ p x = true ∧ ∀ y, y ∈ before → p y = false.
Proof.
  induction l as [|a l IH]; simpl.
  - split; [done | intros ([|??] & ? & ? & _); discriminate].
  - destruct (p a) eqn:Ha.
    + split.
      * intros [= <-]. exists [], l. split_and!; [done | done |]. intros y Hy. by apply elem_of_nil in Hy.
      * intros ([|b before] & after & Hl & Hx & Hb).
        -- simpl in Hl. congruence.
        -- simpl in Hl. injection Hl as <- _. rewrite Hb in Ha; [done | left].
    + rewrite IH. split.
      * intros (before & after & -> & Hx & Hb). exists (a :: before), after.
        split_and!; [done | done |]. intros y [-> | Hy]%elem_of_cons; auto.
      * intros ([|b before] & after & Hl & Hx & Hb).
        -- simpl in Hl. injection Hl as <- _. congruence.
        -- simpl in Hl. injection Hl as <- ->. exists before, after.
           split_and!; [done | done |]. intros y Hy. apply Hb. by right.
Qed.

Lemma find_none_iff {A : Type} (p : A → bool) (l : list A) :
  find p l = None ↔ ∀ y, y ∈ l → p y = false.
Proof.
  induction l as [|a l IH]; simpl.
  - split; [intros _ y Hy; by apply elem_of_nil in Hy | done].
  - destruct (p a) eqn:Ha.
    + split; [done | intros H; rewrite H in Ha; [done | left]].
    + rewrite IH. split.
      * intros H y [-> | Hy]%elem_of_cons; auto.
      * intros H y Hy. apply H. by right.
Qed.

(** ** Formatting *)

Lemma Z_range_cases (P : Z → Prop) (lo : Z) (n : nat) :
  Forall P (seqZ lo (Z.of_nat n)) → ∀ z, lo ≤ z < lo + Z.of_nat n → P z.
Proof.
  intros H z Hz. rewrite Forall_forall in H. apply H.
  apply elem_of_seqZ. lia.
Qed.

Lemma fmt_02_two_digits (z : Z) : (0 ≤ z ≤ 99)%Z → fmt_02 z = two_digits z.
Proof.
  intros Hz. apply (Z_range_cases (λ z, fmt_02 z = two_digits z) 0 100); [|lia].
  vm_compute. repeat constructor.
Qed.

Lemma str_of_int_two_digits (z : Z) : (10 ≤ z ≤ 99)%Z → str_of_int z = two_digits z.
Proof.
  intros Hz. apply (Z_range_cases (λ z, str_of_int z = two_digits z) 10 90); [|lia].
  vm_compute. repeat constructor.
Qed.

(** ** The URL catalogue *)

Lemma valid_year_iff (year : Z) :
  existsb (Z.eqb year) [21; 22; 23] = true ↔ year = 21 ∨ year = 22 ∨ year = 23.
Proof.
  simpl. rewrite !orb_true_iff, !Z.eqb_eq. intuition discriminate.
Qed.

Lemma valid_month_iff (month : Z) :
  (1 <=? month)%Z && (month <=? 12)%Z = true ↔ (1 ≤ month ≤ 12)%Z.
Proof. rewrite andb_true_iff, !Z.leb_le. tauto. Qed.

Lemma search_token (month year : Z) :
  (1 ≤ month ≤ 12)%Z → year = 21 ∨ year = 22 ∨ year = 23 →
  str_of_int year +:+ "_" +:+ fmt_02 month = two_digits year +:+ "_" +:+ two_digits month.
Proof.
  intros Hm Hy. rewrite fmt_02_two_digits by lia.
  by rewrite str_of_int_two_digits by lia.
Qed.

Lemma get_url_invalid (self : UrlEMT.t) (month year : Z) :
  ¬ (1 ≤ month ≤ 12)%Z ∨ ¬ (year = 21 ∨ year = 22 ∨ year = 23) →
  ∃ msg, ∀ stored : UrlEMT.t, UrlEMT.get_url stored month year = Err (ValueError msg).
Proof.
  intros H. unfold UrlEMT.get_url.
  destruct ((1 <=? month)%Z && (month <=? 12)%Z) eqn:Hm; cbn [negb].
  - destruct (existsb (Z.eqb year) [21; 22; 23]) eqn:Hy; cbn [negb].
    + apply valid_month_iff in Hm. apply valid_year_iff in Hy. tauto.
    + eexists. intros stored. reflexivity.
  - eexists. intros stored. reflexivity.
Qed.

(** C4: an invalid month or year raises a value error whatever is stored;
    otherwise the first stored URL in which ["<year>_<month, two digits>"]
    occurs is returned, and when it occurs in none a value error naming the
    month and the year is raised. *)
Theorem get_url_resolution (self : UrlEMT.t) (month year : Z) :
  (¬ (1 ≤ month ≤ 12)%Z ∨ ¬ (year = 21 ∨ year = 22 ∨ year = 23) →
     ∃ msg, ∀ stored : UrlEMT.t,
       UrlEMT.get_url stored month year = Err (ValueError msg)) ∧
  ((1 ≤ month ≤ 12)%Z → year = 21 ∨ year = 22 ∨ year = 23 →
     let token := two_digits year +:+ "_" +:+ two_digits month in
     (∀ url, UrlEMT.get_url self month year = Ok url ↔
        ∃ before after,
          UrlEMT.enlaces_validos self = before ++ url :: after ∧
          occurs_in token url ∧
          ∀ u, u ∈ before → ¬ occurs_in token u) ∧
     ((∀ u, u ∈ UrlEMT.enlaces_validos self → ¬ occurs_in token u) →
        UrlEMT.get_url self month year =
          Err (ValueError ("No existe un enlace valido para el mes " +:+
                           str_of_int month +:+ " del año " +:+ str_of_int year)))).
Proof.
  split; [apply (get_url_invalid self) |].
  intros Hm Hy token. unfold UrlEMT.get_url.
  rewrite (proj2 (valid_month_iff month) Hm), (proj2 (valid_year_iff year) Hy).
  cbn [negb]. rewrite (search_token month year Hm Hy). fold token. split.
  - intros url.
    destruct (find (str_contains token) (UrlEMT.enlaces_validos self)) as [u|] eqn:Hfind.
    + split.
      * intros [= <-]. apply find_first in Hfind as (before & after & Hl & Hu & Hb).
        exists before, after. split_and!; [done | by apply str_contains_spec |].
        intros v Hv. apply str_contains_false. auto.
      * intros (before & after & Hl & Hu & Hb). f_equal.
        assert (find (str_contains token) (UrlEMT.enlaces_validos self) = Some url) as Hf.
        { apply find_first. exists before, after.
          split_and!; [done | by apply str_contains_spec |].
          intros v Hv. apply str_contains_false. auto. }
        congruence.
    + split; [done |].
      intros (before & after & Hl & Hu & Hb).
      rewrite find_none_iff in Hfind.
      apply str_contains_spec in Hu. rewrite Hfind in Hu; [done |].
      rewrite Hl. apply elem_of_app. right. left.
  - intros Hnone.
    assert (find (str_contains token) (UrlEMT.enlaces_validos self) = None) as ->; [| done].
    apply find_none_iff. intros u Hu. apply str_contains_false. auto.
Qed.

Lemma get_url_resolution_witness :
  UrlEMT.get_url catalog_fixture 12 22 =
    Err (ValueError "No existe un enlace valido para el mes 12 del año 22").
Proof.
  apply (proj2 (get_url_resolution catalog_fixture 12 22)).
  - lia.
  - right. left. reflexivity.
  - intros u Hu. apply str_contains_false.
    unfold catalog_fixture, UrlEMT.enlaces_validos in Hu.
    repeat (apply elem_of_cons in Hu as [-> | Hu]; [vm_compute; reflexivity |]).
    by apply elem_of_nil in Hu.
Defined.

(** C8: for a month from 1 to 12 and a two-digit year the file name is
    ["trips_<year>_<month, two digits>_<English month name>.csv"]. *)
Theorem get_name_csv_format (month year : Z) :
  ((1 ≤ month ≤ 12)%Z → (10 ≤ year ≤ 99)%Z →
     ∃ month_name,
       english_month_names !! Z.to_nat (month - 1) = Some month_name ∧
       UrlEMT.get_name_csv month year =
         Ok ("trips_" +:+ two_digits year +:+ "_" +:+ two_digits month +:+ "_" +:+
             month_name +:+ ".csv")) ∧
  UrlEMT.get_name_csv 9 25 = Ok "trips_25_09_September.csv" ∧
  UrlEMT.get_name_csv 1 21 = Ok "trips_21_01_January.csv".
Proof.
  split; [| split; reflexivity].
  intros Hm Hy.
  assert (month ∈ seqZ 1 12) as Hin by (apply elem_of_seqZ; lia).
  unfold UrlEMT.get_name_csv.
  rewrite (str_of_int_two_digits year Hy).
  vm_compute seqZ in Hin.
  repeat (apply elem_of_cons in Hin as [-> | Hin];
          [eexists; split; reflexivity |]).
  by apply elem_of_nil in Hin.
Qed.

Lemma get_name_csv_format_witness :
  ∃ month_name,
    english_month_names !! Z.to_nat (10 - 1) = Some month_name ∧
    UrlEMT.get_name_csv 10 22 =
      Ok ("trips_" +:+ two_digits 22 +:+ "_" +:+ two_digits 10 +:+ "_" +:+
          month_name +:+ ".csv").
Proof.
  apply (proj1 (get_name_csv_format 10 22)); lia.
Defined.

(** C10: with an invalid month or year [get_csv] raises the value error of
    [get_url] and calls nothing: no request, no archive, no decoding. *)
Theorem get_csv_invalid_no_request (self : UrlEMT.t) (month year : Z) :
  ¬ (1 ≤ month ≤ 12)%Z ∨ ¬ (year = 21 ∨ year = 22 ∨ year = 23) →
  ∃ msg,
    UrlEMT.get_url self month year = Err (ValueError msg) ∧
    UrlEMT.get_csv self month year = Pure (Err (ValueError msg)) ∧
    ∀ env, (run env (UrlEMT.get_csv self month year)).1 = [].
Proof.
  intros H. destruct (get_url_invalid self month year H) as [msg Hmsg].
  exists msg. unfold UrlEMT.get_csv. rewrite (Hmsg self). done.
Qed.

Lemma get_csv_invalid_no_request_witness :
  ∃ msg,
    UrlEMT.get_url catalog_fixture 13 23 = Err (ValueError msg) ∧
    UrlEMT.get_csv catalog_fixture 13 23 = Pure (Err (ValueError msg)) ∧
    ∀ env, (run env (UrlEMT.get_csv catalog_fixture 13 23)).1 = [].
Proof.
  apply (get_csv_invalid_no_request catalog_fixture 13 23). left. lia.
Defined.

(** ** The matcher *)

Lemma append_assoc (a b c : string) : (a +:+ b) +:+ c = a +:+ b +:+ c.
Proof. induction a as [|x a IH]; str_simpl; [done | by rewrite IH]. Qed.


Lemma str_length_app (a b : string) :
  String.length (a +:+ b) = (String.length a + String.length b)%nat.
Proof. induction a as [|x a IH]; str_simpl; simpl; [done | by rewrite IH]. Qed.

Lemma str_take_app (m r : string) :
  re.str_take (String.length (m +:+ r) - String.length r) (m +:+ r) = m.
Proof.
  rewrite str_length_app.
  replace (String.length m + String.length r - String.length r)%nat
    with (String.length m) by lia.
  induction m as [|x m IH]; str_simpl; simpl.
  - by destruct r.
  - by rewrite IH.
Qed.

Lemma strip_prefix_spec (l s r : string) :
  re.strip_prefix l s = Some r ↔ s = l +:+ r.
Proof.
  revert s. induction l as [|a l IH]; intros s; str_simpl; simpl.
  - split; congruence.
  - destruct s as [|b s]; [split; discriminate |].
    destruct (Ascii.eqb_spec a b) as [->|Hne].
    + rewrite IH. split; congruence.
    + split; [discriminate | congruence].
Qed.

Section combinators.
Context (P : ascii → Prop) (p : ascii → bool).
Context (Hp : ∀ c, p c = true ↔ P c).
Context (k : string → option string) (Q : string → Prop).

Lemma sound_lit (l : string) :
  sound k Q →
  sound (λ s, match re.strip_prefix l s with Some s' => k s' | None => None end)
        (λ m, ∃ m', m = l +:+ m' ∧ Q m').
Proof.
  intros Hk s r H. destruct (re.strip_prefix l s) as [s'|] eqn:Hs; [|done].
  apply strip_prefix_spec in Hs as ->.
  destruct (Hk _ _ H) as (m & -> & Hm).
  exists (l +:+ m). rewrite append_assoc. eauto.
Qed.


Lemma sound_exactly (n : nat) :
  sound k Q →
  sound (re.exactly n p k)
        (λ m, ∃ a m', m = a +:+ m' ∧ (String.length a = n ∧ all_chars P a) ∧ Q m').
Proof.
  intros Hk. induction n as [|n IH]; intros s r H; simpl in H.
  - destruct (Hk _ _ H) as (m & -> & Hm). exists m. split; [done |].
    exists "", m. by str_simpl.
  - destruct s as [|c s]; [done |]. destruct (p c) eqn:Hc; [|done].
    destruct (IH _ _ H) as (m & -> & a & m' & -> & [Hlen Ha] & Hm).
    exists (String c (a +:+ m')). split; [by str_simpl |].
    exists (String c a), m'. str_simpl. simpl. rewrite Hlen.
    split_and!; try done. by apply Hp.
Qed.


Lemma sound_lazy_star :
  sound k Q →
  sound (re.lazy_star p k) (λ m, ∃ a m', m = a +:+ m' ∧ all_chars P a ∧ Q m').
Proof.
  intros Hk s. induction s as [|c s IH]; intros r H; simpl in H.
  - destruct (k "") as [r'|] eqn:Hk0; [|done]. injection H as ->.
    destruct (Hk _ _ Hk0) as (m & Hs & Hm). exists m. split; [done |].
    exists "", m. by str_simpl.
  - destruct (k (String c s)) as [r'|] eqn:Hk0.
    + injection H as ->. destruct (Hk _ _ Hk0) as (m & Hs & Hm).
      exists m. split; [done |]. exists "", m. by str_simpl.
    + destruct (p c) eqn:Hc; [|done].
      destruct (IH _ H) as (m & -> & a & m' & -> & Ha & Hm).
      exists (String c (a +:+ m')). split; [by str_simpl |].
      exists (String c a), m'. str_simpl. simpl.
      split_and!; try done. by apply Hp.
Qed.


Lemma sound_greedy_star :
  sound k Q →
  sound (re.greedy_star p k) (λ m, ∃ a m', m = a +:+ m' ∧ all_chars P a ∧ Q m').
Proof.
  intros Hk.
  assert (∀ s r, k s = Some r →
            ∃ m, s = m +:+ r ∧ ∃ a m', m = a +:+ m' ∧ all_chars P a ∧ Q m') as Hk'.
  { intros s r H. destruct (Hk _ _ H) as (m & Hs & Hm). exists m. split; [done |].
    exists "", m. by str_simpl. }
  intros s. induction s as [|c s IH]; intros r H; simpl in H; [by apply Hk' |].
  destruct (p c) eqn:Hc; [| by apply Hk'].
  destruct (re.greedy_star p k s) as [r'|] eqn:Hg; [| by apply Hk'].
  injection H as ->.
  destruct (IH _ eq_refl) as (m & -> & a & m' & -> & Ha & Hm).
  exists (String c (a +:+ m')). split; [by str_simpl |].
  exists (String c a), m'. str_simpl. simpl.
  split_and!; try done. by apply Hp.
Qed.



Lemma sound_greedy_plus :
  sound k Q →
  sound (λ s, match s with
              | String c s' => if p c then re.greedy_star p k s' else None
              | EmptyString => None
              end)
        (λ m, ∃ a m', m = a +:+ m' ∧ (a ≠ "" ∧ all_chars P a) ∧ Q m').
Proof.
  intros Hk s r H. destruct s as [|c s]; [done |].
  destruct (p c) eqn:Hc; [|done].
  destruct (sound_greedy_star Hk _ _ H) as (m & -> & a & m' & -> & Ha & Hm).
  exists (String c (a +:+ m')). split; [by str_simpl |].
  exists (String c a), m'. str_simpl. simpl.
  split_and!; try done. by apply Hp.
Qed.


End combinators.









Section findall.
Context (pat : list re.atom) (Q : string → Prop).
Context (Hsound : sound (re.match_here pat) Q).



End findall.

Lemma elem_of_get_links (html u : string) :
  u ∈ UrlEMT.get_links html ↔
  ∃ m, u = UrlEMT.EMT +:+ m ∧ m ∈ re.findall UrlEMT.pattern html.
Proof.
  unfold UrlEMT.get_links. rewrite elem_of_list_to_set, list_elem_of_fmap. done.
Qed.


(** *** Which matches the scan returns *)




Section lazy.
Context (P : ascii → Prop) (p : ascii → bool).
Context (Hp : ∀ c, p c = true ↔ P c).
Context (k : string → option string).



End lazy.









Lemma link_at_link_shape (t m : string) : link_at t m → link_shape not_newline m.
Proof.
  intros (a & name & rest & _ & -> & Ha & (yy & mm & l & -> & Hyy & Hmm & Hl) & _).
  by exists a, yy, mm, l.
Qed.

Section scanning.
Context (pat : list re.atom) (Q : string → Prop).
Context (Hsound : sound (re.match_here pat) Q).
Context (Hne : ∀ m, Q m → m ≠ "").





End scanning.








(** ** Cleaning *)

Section clean.
Import pd.

Lemma col_index_Some (df : DataFrame) (c : string) (i : nat) :
  col_index df c = Some i → columns df !! i = Some c.
Proof.
  unfold col_index. destruct (list_find _ _) as [[j x]|] eqn:Hf; [|done].
  intros [= <-]. apply list_find_Some in Hf as (Hj & -> & _). done.
Qed.

Lemma col_index_elem_of (df : DataFrame) (c : string) :
  c ∈ columns df ↔ is_Some (col_index df c).
Proof.
  unfold col_index. split.
  - intros Hc. destruct (list_find_elem_of (λ x, x = c) (columns df) c Hc eq_refl)
      as [[j x] ->]. by eexists.
  - intros [i Hi]. destruct (list_find _ _) as [[j x]|] eqn:Hf; [|done].
    apply list_find_Some in Hf as (Hj & -> & _). by eapply list_elem_of_lookup_2.
Qed.

Lemma col_index_inj (df : DataFrame) (c c' : string) (i : nat) :
  col_index df c = Some i → col_index df c' = Some i → c = c'.
Proof. intros H H'. apply col_index_Some in H, H'. congruence. Qed.

Lemma cell_alter_eq (i : nat) (g : value → value) (r : Row) :
  (i < length (cells r))%nat → cell i (alter_cell i g r) = g (cell i r).
Proof. intros Hi. unfold cell at 1. simpl. by rewrite list_lookup_insert_eq. Qed.

Lemma cell_alter_ne (i j : nat) (g : value → value) (r : Row) :
  i ≠ j → cell i (alter_cell j g r) = cell i r.
Proof. intros Hne. unfold cell. simpl. by rewrite list_lookup_insert_ne. Qed.

Lemma cell_alter_ne_value (i j : nat) (v : value) (r : Row) :
  i ≠ j → cell i {| label := label r; cells := <[j := v]> (cells r) |} = cell i r.
Proof. intros Hne. unfold cell. simpl. by rewrite list_lookup_insert_ne. Qed.

Lemma length_clean_row_at (oi : option nat) (r : Row) :
  length (cells (clean_row_at oi r)) = length (cells r).
Proof. destruct oi; simpl; [apply length_insert | done]. Qed.

Lemma label_clean_row_at (oi : option nat) (r : Row) :
  label (clean_row_at oi r) = label r.
Proof. by destruct oi. Qed.

Lemma clean_column_unfold (df : DataFrame) (c : string) :
  BiciMad.clean_column df c =
    {| columns := columns df; rows := clean_row_at (col_index df c) <$> rows df |}.
Proof.
  unfold BiciMad.clean_column, getitem, setitem.
  destruct (decide (c ∈ columns df)) as [Hc|Hc].
  - apply col_index_elem_of in Hc as [i Hi]. rewrite Hi. f_equal.
    rewrite <- !list_fmap_compose, zip_with_fmap_r, zip_with_diag. done.
  - destruct (col_index df c) as [i|] eqn:Hi.
    + exfalso. apply Hc, col_index_elem_of. by eexists.
    + destruct df. simpl. by rewrite list_fmap_id.
Qed.

Lemma clean_unfold (df : DataFrame) :
  BiciMad.clean df =
    {| columns := columns df;
       rows := clean_row df <$> List.filter survives (rows df) |}.
Proof.
  unfold BiciMad.clean, BiciMad.col_names, clean_row. simpl.
  rewrite !clean_column_unfold. simpl. f_equal.
  rewrite <- !list_fmap_compose. done.
Qed.

Lemma cell_clean_row_steps (df : DataFrame) (names : list string) (r : Row)
    (col : string) (i : nat) :
  col_index df col = Some i →
  (i < length (cells r))%nat →
  NoDup names →
  cell i (foldl (λ r c, clean_row_at (col_index df c) r) r names) =
    if decide (col ∈ names) then cleaned (cell i r) else cell i r.
Proof.
  intros Hcol. revert r. induction names as [|c names IH]; intros r Hi Hnd.
  - done.
  - apply NoDup_cons in Hnd as [Hc Hnd]. simpl.
    rewrite IH; [| by rewrite length_clean_row_at | done].
    destruct (decide (c = col)) as [->|Hne].
    + rewrite Hcol. simpl. rewrite cell_alter_eq by done.
      rewrite decide_False by done. rewrite decide_True by left. done.
    + assert (cell i (clean_row_at (col_index df c) r) = cell i r) as ->.
      { destruct (col_index df c) as [j|] eqn:Hj; [|done]. simpl.
        apply cell_alter_ne. intros ->. apply Hne. by eapply col_index_inj. }
      destruct (decide (col ∈ names)) as [Hin|Hin].
      * rewrite decide_True by (by right). done.
      * rewrite decide_False; [done |]. intros [?|?]%elem_of_cons; congruence.
Qed.

Lemma label_clean_row (df : DataFrame) (r : Row) : label (clean_row df r) = label r.
Proof.
  unfold clean_row. generalize BiciMad.col_names. intros names. revert r.
  induction names as [|c names IH]; intros r; simpl; [done |].
  by rewrite IH, label_clean_row_at.
Qed.

Lemma cell_clean_row (df : DataFrame) (r : Row) (col : string) (i : nat) :
  col_index df col = Some i →
  length (cells r) = length (columns df) →
  cell i (clean_row df r) =
    if decide (col ∈ BiciMad.col_names) then cleaned (cell i r) else cell i r.
Proof.
  intros Hcol Hlen. apply cell_clean_row_steps; [done | |].
  - rewrite Hlen. apply col_index_Some in Hcol. by eapply lookup_lt_Some.
  - unfold BiciMad.col_names. compute_done.
Qed.

End clean.

Lemma well_formed_filter (df : pd.DataFrame) (n : nat) (r : pd.Row) :
  well_formed df →
  List.filter survives (pd.rows df) !! n = Some r →
  length (pd.cells r) = length (pd.columns df) ∧ survives r = true.
Proof.
  intros Hwf Hn. apply list_elem_of_lookup_2, list_elem_of_In, filter_In in Hn as [Hr Hs].
  split; [| done]. unfold well_formed in Hwf. rewrite Forall_forall in Hwf.
  by apply Hwf, list_elem_of_In.
Qed.

(** What [clean] leaves in the table: the rows with some cell present, in
    their order, each identifier replaced by [cleaned] and every other cell
    as it was. *)
Lemma clean_cells (df : pd.DataFrame) (n : nat) (r : pd.Row) :
  well_formed df →
  List.filter survives (pd.rows df) !! n = Some r →
  ∃ r', pd.rows (BiciMad.clean df) !! n = Some r' ∧
        pd.label r' = pd.label r ∧
        ∀ col i, pd.col_index df col = Some i →
          pd.cell i r' =
            if decide (col ∈ BiciMad.col_names) then cleaned (pd.cell i r) else pd.cell i r.
Proof.
  intros Hwf Hn. destruct (well_formed_filter df n r Hwf Hn) as [Hlen _].
  exists (clean_row df r). rewrite clean_unfold. simpl.
  rewrite list_lookup_fmap, Hn. split_and!; [done | apply label_clean_row |].
  intros col i Hcol. by apply cell_clean_row.
Qed.

Lemma clean_length (df : pd.DataFrame) :
  length (pd.rows (BiciMad.clean df)) = length (List.filter survives (pd.rows df)).
Proof. rewrite clean_unfold. simpl. apply length_fmap. Qed.

(** C9: in a row that survives cleaning, a missing identifier becomes the
    text ["nan"]. *)
Theorem clean_missing_identifier (df : pd.DataFrame) (n : nat) (r : pd.Row)
    (col : string) (i : nat) :
  well_formed df →
  List.filter survives (pd.rows df) !! n = Some r →
  col ∈ BiciMad.col_names →
  pd.col_index df col = Some i →
  pd.cell i r = pd.NaN →
  ∃ r', pd.rows (BiciMad.clean df) !! n = Some r' ∧
        pd.label r' = pd.label r ∧
        pd.cell i r' = pd.VStr "nan".
Proof.
  intros Hwf Hn Hcol Hi Hnan.
  destruct (clean_cells df n r Hwf Hn) as (r' & Hr' & Hlabel & Hcells).
  exists r'. split_and!; [done | done |].
  rewrite (Hcells col i Hi), decide_True, Hnan by done. reflexivity.
Qed.

Lemma raw_fixture_well_formed : well_formed raw_fixture.
Proof. unfold well_formed. simpl. repeat constructor. Defined.

Lemma clean_missing_identifier_witness :
  ∃ r', pd.rows (BiciMad.clean raw_fixture) !! 0%nat = Some r' ∧
        pd.label r' = Some nov_1 ∧
        pd.cell 13 r' = pd.VStr "nan".
Proof.
  apply (clean_missing_identifier raw_fixture 0
           (trip (Some nov_1) (pd.VFloat 7337 0) (pd.VFloat 1 0) (pd.VFloat 525 2)
                 (pd.VStr "Calle Jesus") (pd.VFloat 2 0))
           "station_lock" 13).
  - apply raw_fixture_well_formed.
  - reflexivity.
  - unfold BiciMad.col_names. apply list_elem_of_In. simpl. tauto.
  - reflexivity.
  - reflexivity.
Defined.









(** C1 fails on the code: [".0"] is removed wherever it occurs, so the fleet
    1.05 becomes ["15"], and the text ["1..00"] becomes ["1.0"], which ends
    in [".0"]. *)
Theorem clean_removes_inner_dot_zero :
  pd.py_str (pd.VFloat 105 2) = "1.05" ∧
  pd.cell 1 <$> pd.rows (BiciMad.clean (fleet_table (pd.VFloat 105 2))) = [pd.VStr "15"] ∧
  pd.cell 1 <$> pd.rows (BiciMad.clean (fleet_table (pd.VStr "1..00"))) = [pd.VStr "1.0"] ∧
  str_endswith "1.0" ".0" = true.
Proof. split_and!; reflexivity. Qed.

(** ** Grouping *)

Lemma filter_bool_decide {A : Type} (P : A → Prop) `{∀ x, Decision (P x)} (l : list A) :
  List.filter (λ x, bool_decide (P x)) l = filter P l.
Proof.
  induction l as [|x l IH]; [done |]. simpl. rewrite filter_cons, IH.
  destruct (decide (P x)) as [HP|HP].
  - by rewrite bool_decide_true.
  - by rewrite bool_decide_false.
Qed.

Lemma max_list_le (ns : list nat) (n : nat) :
  (∀ x, x ∈ ns → (x ≤ n)%nat) → (max_list ns ≤ n)%nat.
Proof.
  induction ns as [|x ns IH]; intros H; simpl; [lia |].
  apply Nat.max_lub; [apply H; left | apply IH]. intros y Hy. apply H. by right.
Qed.

Lemma max_list_same (l k : list nat) :
  (∀ x, x ∈ l ↔ x ∈ k) → max_list l = max_list k.
Proof.
  intros H. apply Nat.le_antisymm; apply max_list_le; intros x Hx;
    apply max_list_elem_of_le, H, Hx.
Qed.

Section groupby.
Import pd.
Context {K V : Type} `{EqDecision K} (le : relation K) `{!RelDecision le}.

Lemma elem_of_groupby (kvs : list (option K * V)) (k : K) (vs : list V) :
  (k, vs) ∈ groupby le kvs ↔
  Some k ∈ kvs.*1 ∧ vs = (filter (λ kv, kv.1 = Some k) kvs).*2.
Proof.
  unfold groupby. rewrite list_elem_of_fmap. split.
  - intros (k' & [= -> ->] & Hk). rewrite merge_sort_Permutation in Hk.
    apply elem_of_remove_dups, list_elem_of_omap in Hk as ([k0 v] & Hin & Hk0).
    simpl in Hk0. subst k0. split.
    + apply list_elem_of_fmap. by exists (Some k', v).
    + by rewrite filter_bool_decide.
  - intros [Hk ->]. exists k. split; [by rewrite filter_bool_decide |].
    rewrite merge_sort_Permutation. apply elem_of_remove_dups, list_elem_of_omap.
    apply list_elem_of_fmap in Hk as ([k0 v] & Hk0 & Hin). simpl in Hk0. subst k0.
    by exists (Some k, v).
Qed.

End groupby.

Section popular.
Import pd.

Lemma key_of_Some (s k : value) : key_of s = Some k ↔ s = k ∧ k ≠ NaN.
Proof. destruct s; simpl; split; try (intros [= <-]); try (intros [<- ?]); done. Qed.

Lemma station_group_size (stations : list value) (k : value) :
  k ≠ NaN →
  length (filter (λ kv : option value * (), kv.1 = Some k)
            ((λ s, (key_of s, ())) <$> stations)) = group_size k stations.
Proof.
  intros Hk. unfold group_size. induction stations as [|s stations IH]; [done |].
  rewrite fmap_cons, !filter_cons. simpl.
  destruct (decide (key_of s = Some k)) as [Hs|Hs];
    destruct (decide (s = k)) as [Hsk|Hsk]; simpl; rewrite ?IH; try done.
  - apply key_of_Some in Hs as [? _]. done.
  - exfalso. apply Hs, key_of_Some. done.
Qed.

(** The table [result] of [get_most_popular_stations]. *)
Lemma elem_of_station_counts (stations : list value) (k : value) (n : nat) :
  (k, n) ∈ (λ g : value * list (), (g.1, length g.2)) <$>
             groupby value_le ((λ s, (key_of s, ())) <$> stations) ↔
  k ∈ stations ∧ k ≠ NaN ∧ n = group_size k stations.
Proof.
  rewrite list_elem_of_fmap. split.
  - intros ([k' vs] & [= -> ->] & Hg). simpl in *.
    apply elem_of_groupby in Hg as [Hk ->].
    apply list_elem_of_fmap in Hk as ([k0 v] & Hk0 & Hin). simpl in Hk0. subst k0.
    apply list_elem_of_fmap in Hin as (s & [= Hs _] & Hin).
    symmetry in Hs. apply key_of_Some in Hs as [-> Hne].
    split_and!; [done | done |]. by rewrite length_fmap, station_group_size.
  - intros (Hk & Hne & ->).
    exists (k, (filter (λ kv : option value * (), kv.1 = Some k)
                  ((λ s, (key_of s, ())) <$> stations)).*2).
    simpl. split.
    + by rewrite length_fmap, station_group_size.
    + apply elem_of_groupby. split; [| done].
      rewrite <- list_fmap_compose. apply list_elem_of_fmap. exists k.
      split; [| done]. simpl. symmetry. by apply key_of_Some.
Qed.

Lemma group_size_pos (stations : list value) (k : value) :
  k ∈ stations → (0 < group_size k stations)%nat.
Proof.
  intros Hk. unfold group_size.
  assert (k ∈ filter (λ x, x = k) stations) as Hin by (by apply list_elem_of_filter).
  destruct (filter (λ x, x = k) stations); [by apply elem_of_nil in Hin | simpl; lia].
Qed.

Lemma max_station_count (stations : list value) :
  NaN ∉ stations →
  max_list (((λ g : value * list (), (g.1, length g.2)) <$>
               groupby value_le ((λ s, (key_of s, ())) <$> stations)).*2) =
  max_group_size stations.
Proof.
  intros Hnan. unfold max_group_size. apply max_list_same. intros n.
  rewrite !list_elem_of_fmap. split.
  - intros ([k n'] & -> & Hin). apply elem_of_station_counts in Hin as (Hk & _ & ->).
    by exists k.
  - intros (k & -> & Hk). exists (k, group_size k stations). split; [done |].
    apply elem_of_station_counts. split_and!; [done | | done]. by intros ->.
Qed.

Lemma get_most_popular_stations_elem_of (self : BiciMad.t)
    (stations addresses : list value) :
  getitem (BiciMad._data self) "station_unlock" = Ok stations →
  getitem (BiciMad._data self) "address_unlock" = Ok addresses →
  NaN ∉ stations →
  ∃ top, BiciMad.get_most_popular_stations self = Ok top ∧
    ∀ a, a ∈ top ↔
      ∃ s, (s, a) ∈ zip stations addresses ∧
           group_size s stations = max_group_size stations.
Proof.
  intros Hst Had Hnan. unfold BiciMad.get_most_popular_stations.
  rewrite Hst, Had. simpl. eexists. split; [reflexivity |].
  intros a. rewrite elem_of_list_to_set, list_elem_of_fmap.
  rewrite max_station_count by done. split.
  - intros ([s a'] & -> & Hin). simpl.
    rewrite filter_bool_decide in Hin. apply list_elem_of_filter in Hin as [Htop Hin].
    simpl in Htop. apply list_elem_of_fmap in Htop as ([k n] & -> & Hk).
    rewrite filter_bool_decide in Hk. apply list_elem_of_filter in Hk as [Hn Hk].
    simpl in Hn. subst n. apply elem_of_station_counts in Hk as (_ & _ & Hk).
    exists k. done.
  - intros (s & Hin & Hs). exists (s, a). split; [done |].
    rewrite filter_bool_decide. apply list_elem_of_filter. split; [| done]. simpl.
    apply list_elem_of_fmap. exists (s, group_size s stations). split; [done |].
    rewrite filter_bool_decide. apply list_elem_of_filter. split; [done |].
    apply elem_of_station_counts. split_and!; [| | done].
    + by eapply elem_of_zip_l.
    + intros ->. by apply Hnan, (elem_of_zip_l _ a _ addresses).
Qed.

End popular.

(** C5: the most popular stations are all those whose group is of the
    largest size; the result is the set of the addresses of their rows, and
    [get_uses_from_most_populars] counts the rows whose address is in it. *)
Theorem tied_stations_addresses (self : BiciMad.t) (stations addresses : list pd.value) :
  pd.getitem (BiciMad._data self) "station_unlock" = Ok stations →
  pd.getitem (BiciMad._data self) "address_unlock" = Ok addresses →
  pd.NaN ∉ stations →
  ∃ top,
    BiciMad.get_most_popular_stations self = Ok top ∧
    (∀ a, a ∈ top ↔
       ∃ s, (s, a) ∈ zip stations addresses ∧
            group_size s stations = max_group_size stations) ∧
    BiciMad.get_uses_from_most_populars self =
      Ok (length (filter (λ a, a ∈ top) addresses)).
Proof.
  intros Hst Had Hnan.
  destruct (get_most_popular_stations_elem_of self stations addresses Hst Had Hnan)
    as (top & Htop & Hspec).
  exists top. split_and!; [done | done |].
  unfold BiciMad.get_uses_from_most_populars. rewrite Htop, Had. simpl.
  by rewrite filter_bool_decide.
Qed.

Lemma tied_stations_addresses_witness :
  ∃ top,
    BiciMad.get_most_popular_stations november = Ok top ∧
    (∀ a, a ∈ top ↔
       ∃ s, (s, a) ∈ zip [pd.VStr "2"; pd.VStr "1"; pd.VStr "1"; pd.VStr "3";
                          pd.VStr "4"; pd.VStr "3"]
                         [pd.VStr "Calle Jesus"; pd.VStr "Calle Alcala";
                          pd.VStr "Calle Alcala"; pd.VStr "Calle Manuel Silvela";
                          pd.VStr "Calle X"; pd.VStr "Calle Manuel Silvela"] ∧
            group_size s [pd.VStr "2"; pd.VStr "1"; pd.VStr "1"; pd.VStr "3";
                          pd.VStr "4"; pd.VStr "3"] =
            max_group_size [pd.VStr "2"; pd.VStr "1"; pd.VStr "1"; pd.VStr "3";
                            pd.VStr "4"; pd.VStr "3"]) ∧
    BiciMad.get_uses_from_most_populars november =
      Ok (length (filter (λ a, a ∈ top)
                    [pd.VStr "Calle Jesus"; pd.VStr "Calle Alcala";
                     pd.VStr "Calle Alcala"; pd.VStr "Calle Manuel Silvela";
                     pd.VStr "Calle X"; pd.VStr "Calle Manuel Silvela"])).
Proof.
  apply (tied_stations_addresses november).
  - reflexivity.
  - reflexivity.
  - intros H. apply list_elem_of_In in H. simpl in H.
    repeat (destruct H as [H | H]; [discriminate |]). exact H.
Defined.

(** Every constructed dataset has its stations present as text. *)
Lemma cleaned_stations (raw : pd.DataFrame) (col : string) :
  well_formed raw →
  col ∈ BiciMad.col_names →
  col ∈ pd.columns raw →
  ∃ ids, pd.getitem (BiciMad.clean raw) col = Ok ids ∧
         ∀ v, v ∈ ids → ∃ v0, v = cleaned v0.
Proof.
  intros Hwf Hcol Hin. apply col_index_elem_of in Hin as [i Hi].
  unfold pd.getitem. rewrite clean_unfold.
  assert (pd.col_index {| pd.columns := pd.columns raw;
                          pd.rows := clean_row raw <$> List.filter survives (pd.rows raw) |}
                       col = Some i) as -> by exact Hi.
  eexists. split; [reflexivity |]. simpl. intros v Hv.
  apply list_elem_of_fmap in Hv as (r' & -> & Hr').
  apply list_elem_of_fmap in Hr' as (r & -> & Hr).
  apply list_elem_of_lookup in Hr as [n Hn].
  destruct (well_formed_filter raw n r Hwf Hn) as [Hlen _].
  rewrite (cell_clean_row raw r col i Hi Hlen), decide_True by done. by eexists.
Qed.

(** ** The summary *)

Lemma sum_numbers (minutes : list pd.value) :
  (∀ v, v ∈ minutes → ¬ is_text v) → pd.sum minutes = Ok (total_minutes minutes).
Proof.
  unfold total_minutes. induction minutes as [|v minutes IH]; intros H; [done |].
  assert (pd.sum minutes = Ok (foldr Qplus 0%Q (omap pd.to_Q minutes))) as IH'.
  { apply IH. intros w Hw. apply H. by right. }
  destruct v as [|z|m e|s]; simpl; rewrite ?IH'; try done.
  exfalso. apply (H (pd.VStr s)); [left | by exists s].
Qed.

(** C6: the record of [resume]: its six labels in order, the row count,
    the minutes summed and divided by 60, and the results of the two
    methods on the same instance. *)
Theorem resume_entries (self : BiciMad.t) (minutes : list pd.value)
    (top : gset pd.value) (uses : nat) :
  pd.getitem (BiciMad._data self) "trip_minutes" = Ok minutes →
  (∀ v, v ∈ minutes → ¬ is_text v) →
  BiciMad.get_most_popular_stations self = Ok top →
  BiciMad.get_uses_from_most_populars self = Ok uses →
  ∃ summary,
    BiciMad.resume self = Ok summary ∧
    pd.items summary =
      [ ("year", BiciMad.PInt (BiciMad._year self));
        ("month", BiciMad.PInt (BiciMad._month self));
        ("total_uses", BiciMad.PInt (Z.of_nat (length (pd.rows (BiciMad._data self)))));
        ("total_time", BiciMad.PFloat (total_minutes minutes / 60));
        ("most_popular_station", BiciMad.PSet top);
        ("uses_from_most_popular", BiciMad.PInt (Z.of_nat uses)) ].
Proof.
  intros Hmin Hnum Htop Huses. unfold BiciMad.resume.
  rewrite Hmin. simpl. rewrite (sum_numbers minutes Hnum). simpl.
  rewrite Htop. simpl. rewrite Huses. simpl. by eexists.
Qed.

Lemma resume_entries_witness :
  ∃ summary,
    BiciMad.resume november = Ok summary ∧
    pd.items summary =
      [ ("year", BiciMad.PInt 22);
        ("month", BiciMad.PInt 11);
        ("total_uses", BiciMad.PInt (Z.of_nat (length (pd.rows (BiciMad._data november)))));
        ("total_time",
         BiciMad.PFloat
           (total_minutes [pd.VFloat 525 2; pd.VFloat 10 0; pd.VFloat 10 0;
                           pd.VFloat 1075 2; pd.VFloat 6 0; pd.VFloat 5 1] / 60));
        ("most_popular_station",
         BiciMad.PSet (list_to_set [pd.VStr "Calle Alcala"; pd.VStr "Calle Alcala";
                                    pd.VStr "Calle Manuel Silvela";
                                    pd.VStr "Calle Manuel Silvela"]));
        ("uses_from_most_popular", BiciMad.PInt (Z.of_nat 4)) ].
Proof.
  apply (resume_entries november).
  - reflexivity.
  - intros v H [s ->]. apply list_elem_of_In in H. simpl in H.
    repeat (destruct H as [H | H]; [discriminate |]). exact H.
  - reflexivity.
  - vm_compute. reflexivity.
Defined.

(** ** Hours per day *)

(** On a table whose labels are dates, [day_time] is [hours_per_day]. *)
Lemma day_time_on_dates (self : BiciMad.t) :
  (∀ r ts, r ∈ pd.rows (BiciMad._data self) → pd.label r = Some ts →
           pd.floor_day ts = ts) →
  BiciMad.day_time self = hours_per_day self.
Proof.
  intros H. unfold BiciMad.day_time, hours_per_day.
  assert (pd.label <$> pd.rows (BiciMad._data self) =
          (λ r, pd.floor_day <$> pd.label r) <$> pd.rows (BiciMad._data self)) as ->.
  { apply Forall_fmap_ext, Forall_forall. intros r Hr.
    destruct (pd.label r) as [ts|] eqn:Hl; [| done]. simpl. f_equal.
    symmetry. by apply (H r). }
  reflexivity.
Qed.

(** C2 fails on the code: [day_time] groups by the whole time stamp, so two
    trips of one day an hour apart make two entries, where grouping by the
    date, as [total_usage_day] does, makes one. *)
Theorem day_time_groups_by_timestamp :
  (λ s, prod_map id Qred <$> pd.items s) <$> BiciMad.day_time same_day =
    Ok [ (nov_1 + 8 * hour, (1 # 2)%Q); (nov_1 + 9 * hour, (1 # 1)%Q) ] ∧
  (λ s, prod_map id Qred <$> pd.items s) <$> hours_per_day same_day =
    Ok [ (nov_1, (3 # 2)%Q) ] ∧
  pd.items <$> BiciMad.total_usage_day same_day = Ok [ (nov_1, 2%nat) ].
Proof. split_and!; vm_compute; reflexivity. Qed.

(** ** The stored table *)

Lemma fmap_zip_with_frame {A B C : Type} (f : A → B → A) (g : A → C)
    (l : list A) (k : list B) :
  (∀ x y, x ∈ l → g (f x y) = g x) →
  length l = length k →
  g <$> zip_with f l k = g <$> l.
Proof.
  revert k. induction l as [|x l IH]; intros [|y k] Hg Hlen; try done.
  simpl. rewrite Hg by left. f_equal. apply IH; [| by injection Hlen].
  intros x' y' Hx'. apply Hg. by right.
Qed.

Lemma dia_of_index_cons (ts : pd.Timestamp) (idx : list (option pd.Timestamp)) :
  BiciMad.dia_of_index (Some ts :: idx) =
    d ← BiciMad.dict_get BiciMad.mapping (pd.day_name ts);
    ds ← BiciMad.dia_of_index idx;
    mret (pd.VStr d :: ds).
Proof. reflexivity. Qed.

Lemma length_dia_of_index (idx : list (option pd.Timestamp)) (dia : list pd.value) :
  BiciMad.dia_of_index idx = Ok dia → length dia = length idx.
Proof.
  revert dia. induction idx as [|[ts|] idx IH]; intros dia H.
  - by injection H as <-.
  - rewrite dia_of_index_cons in H.
    destruct (BiciMad.dict_get BiciMad.mapping (pd.day_name ts)) as [d|e];
      cbv [mbind result_bind] in H; [| discriminate H].
    destruct (BiciMad.dia_of_index idx) as [ds|e];
      cbv [mbind result_bind mret result_ret] in H; [| discriminate H].
    injection H as <-. simpl. f_equal. by apply IH.
  - discriminate H.
Qed.

(** Assigning a column leaves the labels and every other column as they
    were. *)
Lemma setitem_frame (df : pd.DataFrame) (col : string) (vals : list pd.value) :
  well_formed df →
  length vals = length (pd.rows df) →
  pd.label <$> pd.rows (pd.setitem df col vals) = pd.label <$> pd.rows df ∧
  ∀ c, c ≠ col → c ∈ pd.columns df →
       c ∈ pd.columns (pd.setitem df col vals) ∧
       pd.getitem (pd.setitem df col vals) c = pd.getitem df c.
Proof.
  intros Hwf Hlen. unfold pd.setitem.
  destruct (pd.col_index df col) as [j|] eqn:Hj; simpl.
  - split; [by apply fmap_zip_with_frame |].
    intros c Hne Hc. split; [done |].
    unfold pd.getitem, pd.col_index. simpl. fold (pd.col_index df c).
    apply col_index_elem_of in Hc as [i Hi]. rewrite Hi. f_equal.
    apply fmap_zip_with_frame; [| done].
    intros r v _. apply cell_alter_ne_value. intros ->. apply Hne. by eapply col_index_inj.
  - split; [by apply fmap_zip_with_frame |].
    intros c Hne Hc. split; [apply elem_of_app; by left |].
    apply col_index_elem_of in Hc as [i Hi].
    assert (pd.columns df !! i = Some c) as Hlook by (by apply col_index_Some).
    unfold pd.getitem, pd.col_index in *. simpl.
    destruct (list_find (λ c0, c0 = c) (pd.columns df)) as [[i' x]|] eqn:Hf; [| done].
    injection Hi as ->. rewrite (list_find_app_l _ _ _ _ _ Hf). simpl. f_equal.
    apply fmap_zip_with_frame; [| done].
    intros r v Hr. unfold pd.cell. simpl. rewrite lookup_app_l; [done |].
    unfold well_formed in Hwf. rewrite Forall_forall in Hwf. rewrite (Hwf r Hr).
    by eapply lookup_lt_Some.
Qed.

Lemma november_well_formed : well_formed (BiciMad._data november).
Proof. unfold well_formed. vm_compute. repeat constructor. Defined.

Lemma weekday_code_spec (ts : pd.Timestamp) :
  BiciMad.dict_get BiciMad.mapping (pd.day_name ts) = Ok (weekday_code ts) ∧
  weekday_code ts ∈ weekday_codes.
Proof.
  unfold weekday_code, pd.day_name.
  assert (0 ≤ (ts / pd.ns_per_day + 3) mod 7 < 7)%Z as Hn by (apply Z.mod_pos_bound; lia).
  assert (Z.to_nat ((ts / pd.ns_per_day + 3) mod 7) < 7)%nat as Hlt by lia.
  destruct (Z.to_nat ((ts / pd.ns_per_day + 3) mod 7)) as [|[|[|[|[|[|[|n]]]]]]];
    try lia; (split; [reflexivity | apply list_elem_of_In; simpl; tauto]).
Qed.

Lemma dia_of_index_present (tss : list pd.Timestamp) :
  BiciMad.dia_of_index (Some <$> tss) =
    Ok ((λ ts, pd.VStr (weekday_code ts)) <$> tss).
Proof.
  induction tss as [|ts tss IH]; [done |].
  rewrite fmap_cons, dia_of_index_cons, (proj1 (weekday_code_spec ts)), IH. done.
Qed.

Lemma fmap_zip_with_values {A B C : Type} (f : A → B → A) (g : A → C)
    (h : B → C) (l : list A) (k : list B) :
  (∀ x y, x ∈ l → g (f x y) = h y) →
  length l = length k →
  g <$> zip_with f l k = h <$> k.
Proof.
  revert k. induction l as [|x l IH]; intros [|y k] Hg Hlen; try done.
  simpl. rewrite Hg by left. f_equal. apply IH; [| by injection Hlen].
  intros x' y' Hx'. apply Hg. by right.
Qed.

Lemma col_index_new (df : pd.DataFrame) (col : string) (rs : list pd.Row) :
  pd.col_index df col = None →
  pd.col_index {| pd.columns := pd.columns df ++ [col]; pd.rows := rs |} col =
    Some (length (pd.columns df)).
Proof.
  unfold pd.col_index. cbn [pd.columns]. intros H.
  destruct (list_find (λ c, c = col) (pd.columns df)) as [[i x]|] eqn:Hf; [done |].
  rewrite list_find_app_r by done. cbn.
  rewrite decide_True by done. cbn. f_equal; lia.
Qed.

(** Reading back a column that was just assigned gives the values
    assigned. *)
Lemma getitem_setitem (df : pd.DataFrame) (col : string) (vals : list pd.value) :
  well_formed df →
  length vals = length (pd.rows df) →
  pd.getitem (pd.setitem df col vals) col = Ok vals.
Proof.
  intros Hwf Hlen. unfold well_formed in Hwf. rewrite Forall_forall in Hwf.
  unfold pd.setitem. destruct (pd.col_index df col) as [j|] eqn:Hj.
  - unfold pd.getitem, pd.col_index. cbn [pd.columns pd.rows].
    fold (pd.col_index df col). rewrite Hj. f_equal.
    rewrite (fmap_zip_with_values _ _ id); [apply list_fmap_id | | done].
    intros r v Hr. unfold pd.cell. cbn. rewrite list_lookup_insert_eq; [done |].
    rewrite (Hwf r Hr). apply col_index_Some in Hj. by eapply lookup_lt_Some.
  - unfold pd.getitem. rewrite col_index_new by done. f_equal. cbn [pd.rows].
    rewrite (fmap_zip_with_values _ _ id); [apply list_fmap_id | | done].
    intros r v Hr. unfold pd.cell. cbn.
    rewrite lookup_app_r by (rewrite (Hwf r Hr); lia).
    rewrite (Hwf r Hr), Nat.sub_diag. done.
Qed.

Lemma dia_of_index_missing (idx : list (option pd.Timestamp)) :
  None ∈ idx → BiciMad.dia_of_index idx = Err (KeyError "nan").
Proof.
  induction idx as [|[ts|] idx IH]; intros H.
  - by apply elem_of_nil in H.
  - apply elem_of_cons in H as [H | H]; [done |].
    rewrite dia_of_index_cons, (proj1 (weekday_code_spec ts)), (IH H). done.
  - done.
Qed.

(** What each method returns and the store it leaves behind, from its
    body: the result is that of the method as a function of the table the
    instance refers to. *)
Lemma bind_read {A : Type} (σ : obj.store) (r : obj.ref) (df : pd.DataFrame)
    (f : pd.DataFrame → obj.st A) :
  σ !! r = Some df → (obj.read r ≫= f) σ = f df σ.
Proof. intros H. unfold mbind, obj.st_bind, obj.read. by rewrite H. Qed.

Lemma bind_eval {A B : Type} (σ : obj.store) (x : result A) (f : A → obj.st B) :
  (obj.eval x ≫= f) σ = match x with Ok a => f a σ | Err e => (Err e, σ) end.
Proof. by destruct x. Qed.

Lemma bind_st {A B : Type} (σ : obj.store) (m : obj.st A) (f : A → obj.st B) :
  (m ≫= f) σ = match m σ with (Ok a, σ') => f a σ' | (Err e, σ') => (Err e, σ') end.
Proof. reflexivity. Qed.

Lemma get_most_popular_stations_run (σ : obj.store) (self : obj.t) (df : pd.DataFrame) :
  σ !! obj._data self = Some df →
  obj.get_most_popular_stations self σ =
    (BiciMad.get_most_popular_stations (obj.snapshot self df), σ).
Proof.
  intros Hdf. unfold obj.get_most_popular_stations, BiciMad.get_most_popular_stations.
  cbn [obj.snapshot BiciMad._data].
  rewrite (bind_read _ _ _ _ Hdf), bind_eval.
  destruct (pd.getitem df "station_unlock") as [stations|e]; [| done].
  cbn [mbind result_bind].
  rewrite (bind_read _ _ _ _ Hdf), bind_eval.
  destruct (pd.getitem df "address_unlock") as [addresses|e]; done.
Qed.

Lemma get_uses_from_most_populars_run (σ : obj.store) (self : obj.t) (df : pd.DataFrame) :
  σ !! obj._data self = Some df →
  obj.get_uses_from_most_populars self σ =
    (BiciMad.get_uses_from_most_populars (obj.snapshot self df), σ).
Proof.
  intros Hdf. unfold obj.get_uses_from_most_populars, BiciMad.get_uses_from_most_populars.
  rewrite bind_st, (get_most_popular_stations_run _ _ _ Hdf).
  destruct (BiciMad.get_most_popular_stations (obj.snapshot self df)) as [top|e]; [| done].
  cbn [mbind result_bind obj.snapshot BiciMad._data].
  rewrite (bind_read _ _ _ _ Hdf), bind_eval.
  destruct (pd.getitem df "address_unlock") as [addresses|e]; done.
Qed.

Lemma resume_run (σ : obj.store) (self : obj.t) (df : pd.DataFrame) :
  σ !! obj._data self = Some df →
  obj.resume self σ = (BiciMad.resume (obj.snapshot self df), σ).
Proof.
  intros Hdf. unfold obj.resume, BiciMad.resume.
  rewrite (bind_read _ _ _ _ Hdf), bind_eval.
  cbn [obj.snapshot BiciMad._data].
  destruct (pd.getitem df "trip_minutes") as [minutes|e]; [| done].
  cbn [mbind result_bind]. rewrite bind_eval.
  destruct (pd.sum minutes) as [total|e]; [| done].
  cbn [mbind result_bind].
  rewrite bind_st, (get_most_popular_stations_run _ _ _ Hdf).
  fold (obj.snapshot self df).
  destruct (BiciMad.get_most_popular_stations (obj.snapshot self df)) as [top|e]; [| done].
  cbn [mbind result_bind].
  rewrite bind_st, (get_uses_from_most_populars_run _ _ _ Hdf).
  destruct (BiciMad.get_uses_from_most_populars (obj.snapshot self df)) as [uses|e]; done.
Qed.

Lemma day_time_run (σ : obj.store) (self : obj.t) (df : pd.DataFrame) :
  σ !! obj._data self = Some df →
  obj.day_time self σ = (BiciMad.day_time (obj.snapshot self df), σ).
Proof.
  intros Hdf. unfold obj.day_time, BiciMad.day_time.
  rewrite (bind_read _ _ _ _ Hdf), bind_eval.
  cbn [obj.snapshot BiciMad._data].
  destruct (pd.getitem df "trip_minutes") as [minutes|e]; [| done].
  cbn [mbind result_bind]. rewrite bind_eval.
  destruct (pd.sums_div_60 _) as [horas|e]; done.
Qed.

Lemma total_usage_day_run (σ : obj.store) (self : obj.t) (df : pd.DataFrame) :
  σ !! obj._data self = Some df →
  obj.total_usage_day self σ = (BiciMad.total_usage_day (obj.snapshot self df), σ).
Proof.
  intros Hdf. unfold obj.total_usage_day, BiciMad.total_usage_day.
  rewrite (bind_read _ _ _ _ Hdf), bind_eval.
  cbn [obj.snapshot BiciMad._data].
  destruct (pd.getitem df "idBike") as [bikes|e]; done.
Qed.

Lemma weekday_time_run (σ : obj.store) (self : obj.t) (df : pd.DataFrame) :
  σ !! obj._data self = Some df →
  obj.weekday_time self σ =
    ((BiciMad.weekday_time (obj.snapshot self df)).1,
     <[obj._data self := BiciMad._data (BiciMad.weekday_time (obj.snapshot self df)).2]> σ).
Proof.
  intros Hdf. unfold obj.weekday_time, BiciMad.weekday_time.
  rewrite (bind_read _ _ _ _ Hdf), bind_eval.
  cbn [obj.snapshot BiciMad._data].
  destruct (BiciMad.dia_of_index (pd.label <$> pd.rows df)) as [dia|e].
  - rewrite (bind_read _ _ _ _ Hdf). rewrite bind_st. cbn [obj.write fst snd BiciMad._data].
    assert (<[obj._data self := pd.setitem df "dia" dia]> σ !! obj._data self =
            Some (pd.setitem df "dia" dia)) as Hnew.
    { apply list_lookup_insert_eq. by eapply lookup_lt_Some. }
    rewrite (bind_read _ _ _ _ Hnew), bind_eval.
    destruct (pd.getitem (pd.setitem df "dia" dia) "dia") as [dia'|e]; [| done].
    cbn [mbind result_bind]. rewrite bind_eval.
    destruct (pd.getitem (pd.setitem df "dia" dia) "trip_minutes") as [minutes|e]; [| done].
    cbn [mbind result_bind]. rewrite bind_eval.
    destruct (pd.sums_div_60 _) as [horas|e]; done.
  - cbn [fst snd BiciMad._data obj.snapshot]. f_equal. symmetry. by apply list_insert_id.
Qed.

Lemma col_index_head (c : string) (cs : list string) (rs : list pd.Row) :
  pd.col_index {| pd.columns := c :: cs; pd.rows := rs |} c = Some 0%nat.
Proof. unfold pd.col_index. cbn [pd.columns list_find]. by rewrite decide_True. Qed.

Lemma total_usage_day_station_unlock_run (σ : obj.store) (self : obj.t)
    (df : pd.DataFrame) :
  σ !! obj._data self = Some df →
  obj.total_usage_day_station_unlock self σ =
    match BiciMad.total_usage_day_station_unlock (obj.snapshot self df) with
    | Ok res => (Ok (length σ), σ ++ [res])
    | Err e => (Err e, σ)
    end.
Proof.
  intros Hdf.
  unfold obj.total_usage_day_station_unlock, BiciMad.total_usage_day_station_unlock.
  rewrite (bind_read _ _ _ _ Hdf), bind_eval.
  cbn [obj.snapshot BiciMad._data].
  destruct (pd.getitem df "station_unlock") as [stations|e]; [| done].
  cbn [mbind result_bind mret result_ret].
  set (counts := pd.groupby BiciMad.day_station_le _).
  rewrite bind_st. cbn [obj.new].
  set (tmp := {| pd.columns := ["fecha"; "station_unlock"; "count"]; pd.rows := _ |}).
  assert ((σ ++ [tmp]) !! length σ = Some tmp) as Htmp.
  { rewrite lookup_app_r by lia. by rewrite Nat.sub_diag. }
  rewrite (bind_read _ _ _ _ Htmp), bind_eval.
  unfold pd.set_index. unfold tmp at 1. rewrite col_index_head.
  rewrite bind_st. cbn [obj.write mret obj.st_ret].
  f_equal.
  unfold obj.ref, obj.store in *.
  replace (length σ) with (length σ + 0)%nat at 1 by lia.
  rewrite insert_app_r.
  match goal with |- context [<[0%nat := ?x]> [tmp]] =>
    change (<[0%nat := x]> [tmp]) with [x] end.
  do 2 f_equal.
  unfold tmp. cbn [pd.columns pd.rows delete list_delete]. f_equal.
  rewrite fmap_imap. rewrite <- imap_const. apply imap_ext.
  intros i [[d k] vs] _. done.
Qed.

Lemma columns_setitem (df : pd.DataFrame) (col : string) (vals : list pd.value) :
  pd.columns (pd.setitem df col vals) =
    if decide (col ∈ pd.columns df) then pd.columns df else pd.columns df ++ [col].
Proof.
  unfold pd.setitem. destruct (pd.col_index df col) as [i|] eqn:Hi.
  - rewrite decide_True; [done |]. apply col_index_elem_of. by eexists.
  - rewrite decide_False; [done |]. intros [i Hi']%col_index_elem_of. congruence.
Qed.

(** C3, as amended: a call of an aggregation method leaves every table of
    the store that is not the table of the instance as it was; a call of
    any method but [weekday_time] leaves the table of the instance as it
    was too; and [weekday_time] assigns the column ["dia"] in the table of
    the instance: when every row has a label, the column holds the weekday
    letter of each row and is added when absent, and when a label is
    missing nothing is written; in both cases the labels of the rows and
    the values of every other column are as they were. *)
Theorem aggregation_frame (σ : obj.store) (self : obj.t) (df : pd.DataFrame)
    (m : BiciMad.method) :
  σ !! obj._data self = Some df →
  well_formed df →
  (∀ r df0, r ≠ obj._data self → σ !! r = Some df0 →
            obj.after m self σ !! r = Some df0) ∧
  (m ≠ BiciMad.WeekdayTime → obj.after m self σ !! obj._data self = Some df) ∧
  (m = BiciMad.WeekdayTime →
   ∃ df',
     obj.after m self σ !! obj._data self = Some df' ∧
     pd.label <$> pd.rows df' = pd.label <$> pd.rows df ∧
     (∀ c, c ≠ "dia" → c ∈ pd.columns df →
           c ∈ pd.columns df' ∧ pd.getitem df' c = pd.getitem df c) ∧
     (∀ tss, pd.label <$> pd.rows df = Some <$> tss →
        pd.columns df' =
          (if decide ("dia" ∈ pd.columns df) then pd.columns df
           else pd.columns df ++ ["dia"]) ∧
        pd.getitem df' "dia" = Ok ((λ ts, pd.VStr (weekday_code ts)) <$> tss)) ∧
     ((∃ r, r ∈ pd.rows df ∧ pd.label r = None) → df' = df)).
Proof.
  intros Hdf Hwf.
  assert (obj._data self < length σ)%nat as Hlt by (by eapply lookup_lt_Some).
  destruct m; unfold obj.after;
    rewrite ?(resume_run _ _ _ Hdf), ?(get_most_popular_stations_run _ _ _ Hdf),
      ?(get_uses_from_most_populars_run _ _ _ Hdf), ?(day_time_run _ _ _ Hdf),
      ?(total_usage_day_run _ _ _ Hdf); cbn [snd];
    try (split_and!; [by intros | done | done]).
  - (* weekday_time *)
    rewrite (weekday_time_run _ _ _ Hdf). cbn [snd].
    unfold obj.ref, obj.store in *.
    split_and!; [| done |].
    + intros r df0 Hr Hr0. by rewrite list_lookup_insert_ne.
    + intros _. eexists. split; [by apply list_lookup_insert_eq |].
      unfold BiciMad.weekday_time. cbn [obj.snapshot BiciMad._data].
      destruct (BiciMad.dia_of_index (pd.label <$> pd.rows df)) as [dia|e] eqn:Hdia;
        cbn [snd BiciMad._data].
      * assert (length dia = length (pd.rows df)) as Hlen.
        { rewrite (length_dia_of_index _ _ Hdia). apply length_fmap. }
        destruct (setitem_frame df "dia" dia Hwf Hlen) as [Hlabels Hothers].
        split_and!; [done | by intros; apply Hothers | |].
        -- intros tss Htss. rewrite Htss, dia_of_index_present in Hdia.
           injection Hdia as <-. split; [apply columns_setitem |].
           by apply getitem_setitem.
        -- intros (r & Hr & Hnone). exfalso.
           rewrite dia_of_index_missing in Hdia; [done |].
           apply list_elem_of_fmap. by exists r.
      * split_and!; [done | by intros | | done].
        intros tss Htss. rewrite Htss, dia_of_index_present in Hdia. done.
  - (* total_usage_day_station_unlock *)
    rewrite (total_usage_day_station_unlock_run _ _ _ Hdf).
    destruct (BiciMad.total_usage_day_station_unlock (obj.snapshot self df)) as [res|e];
      cbn [snd]; (split_and!; [| | done]).
    + intros r df0 _ Hr0. by apply lookup_app_l_Some.
    + intros _. by apply lookup_app_l_Some.
    + by intros.
    + done.
Qed.

Lemma aggregation_frame_witness :
  ∃ df',
    obj.after BiciMad.WeekdayTime november_object [BiciMad._data november] !! 0%nat =
      Some df' ∧
    pd.label <$> pd.rows df' = pd.label <$> pd.rows (BiciMad._data november) ∧
    (∀ c, c ≠ "dia" → c ∈ pd.columns (BiciMad._data november) →
          c ∈ pd.columns df' ∧ pd.getitem df' c = pd.getitem (BiciMad._data november) c) ∧
    (∀ tss, pd.label <$> pd.rows (BiciMad._data november) = Some <$> tss →
       pd.columns df' =
         (if decide ("dia" ∈ pd.columns (BiciMad._data november))
          then pd.columns (BiciMad._data november)
          else pd.columns (BiciMad._data november) ++ ["dia"]) ∧
       pd.getitem df' "dia" = Ok ((λ ts, pd.VStr (weekday_code ts)) <$> tss)) ∧
    ((∃ r, r ∈ pd.rows (BiciMad._data november) ∧ pd.label r = None) →
     df' = BiciMad._data november).
Proof.
  apply (aggregation_frame [BiciMad._data november] november_object
           (BiciMad._data november) BiciMad.WeekdayTime eq_refl november_well_formed).
  reflexivity.
Defined.

(** C3, as stated, fails: [weekday_time] writes the column ["dia"] into the
    table of the instance, which cleaning left with fifteen columns. *)
Lemma weekday_time_mutates_table :
  ¬ ∀ (σ : obj.store) (self : obj.t) (df : pd.DataFrame) (m : BiciMad.method),
      σ !! obj._data self = Some df →
      obj.after m self σ !! obj._data self = Some df.
Proof.
  intros H.
  specialize (H [BiciMad._data november] november_object (BiciMad._data november)
                BiciMad.WeekdayTime eq_refl).
  apply (f_equal (fmap pd.columns)) in H. vm_compute in H. discriminate.
Qed.

Example weekday_time_columns :
  pd.columns (BiciMad._data november) = BiciMad.csv_columns ∧
  pd.columns <$> obj.after BiciMad.WeekdayTime november_object [BiciMad._data november] =
    [BiciMad.csv_columns ++ ["dia"]] ∧
  pd.columns <$>
    obj.after BiciMad.TotalUsageDayStationUnlock november_object [BiciMad._data november] =
    [BiciMad.csv_columns; ["station_unlock"; "count"]].
Proof. split_and!; reflexivity. Qed.

(** * Further properties of the code *)

(** ** Calls issued *)

Lemma run_bind {A B : Type} (env : ∀ X, event X → result X) (m : io A) (f : A → io B) :
  run env (m ≫= f) =
    match run env m with
    | (tr, Ok a) => let '(tr', r) := run env (f a) in (tr ++ tr', r)
    | (tr, Err e) => (tr, Err e)
    end.
Proof.
  unfold mbind, io_mbind. induction m as [[a|e] | X ev k IH]; simpl.
  - by destruct (run env (f a)).
  - done.
  - rewrite IH. destruct (run env (k (env X ev))) as [tr [a|e]]; [| done].
    by destruct (run env (f a)).
Qed.

Lemma run_perform {X : Type} (env : ∀ X, event X → result X) (ev : event X) :
  run env (perform ev) = ([issued ev], env X ev).
Proof. reflexivity. Qed.

Lemma run_lift {A : Type} (env : ∀ X, event X → result X) (r : result A) :
  run env (lift r) = ([], r).
Proof. reflexivity. Qed.

Lemma get_url_ok_valid (self : UrlEMT.t) (month year : Z) (url : string) :
  UrlEMT.get_url self month year = Ok url →
  (1 ≤ month ≤ 12)%Z ∧ (year = 21 ∨ year = 22 ∨ year = 23).
Proof.
  unfold UrlEMT.get_url. intros H.
  destruct ((1 <=? month)%Z && (month <=? 12)%Z) eqn:Hm; cbn [negb] in H; [| done].
  destruct (existsb (Z.eqb year) [21; 22; 23]) eqn:Hy; cbn [negb] in H; [| done].
  split; [by apply valid_month_iff | by apply valid_year_iff].
Qed.

Lemma get_name_csv_valid (month year : Z) :
  (1 ≤ month ≤ 12)%Z →
  ∃ month_name,
    english_month_names !! Z.to_nat (month - 1) = Some month_name ∧
    UrlEMT.get_name_csv month year =
      Ok ("trips_" +:+ str_of_int year +:+ "_" +:+ two_digits month +:+ "_" +:+
          month_name +:+ ".csv").
Proof.
  intros Hm. assert (month ∈ seqZ 1 12) as Hin by (apply elem_of_seqZ; lia).
  unfold UrlEMT.get_name_csv. vm_compute seqZ in Hin.
  repeat (apply elem_of_cons in Hin as [-> | Hin];
          [eexists; split; reflexivity |]).
  by apply elem_of_nil in Hin.
Qed.

(** A month that is no key of the table of names raises [KeyError]: the
    file name is not built, whatever the year. *)
Theorem get_name_csv_unknown_month (month year : Z) :
  ¬ (1 ≤ month ≤ 12)%Z →
  UrlEMT.get_name_csv month year = Err (KeyError (str_of_int month)).
Proof.
  intros Hm.
  assert (UrlEMT.dict_get UrlEMT.month_name_mapping month =
          Err (KeyError (str_of_int month))) as Hget.
  { unfold UrlEMT.month_name_mapping. cbn [UrlEMT.dict_get].
    repeat match goal with
           | |- context [(?k =? month)%Z] =>
               destruct (Z.eqb_spec k month) as [?|_]; [lia |]
           end.
    done. }
  unfold UrlEMT.get_name_csv. by rewrite Hget.
Qed.

Lemma get_name_csv_unknown_month_witness :
  UrlEMT.get_name_csv 13 22 = Err (KeyError (str_of_int 13)).
Proof. apply (get_name_csv_unknown_month 13 22). lia. Defined.

(** Whenever [get_url] resolves, the request for the month's archive is the
    only call [get_csv] makes if the answer is not 200: it raises a
    connection error naming the URL and the status, and no archive is
    opened. *)
Theorem get_csv_connection_error (env : ∀ X, event X → result X) (self : UrlEMT.t)
    (month year : Z) (url : string) (resp : Response) :
  UrlEMT.get_url self month year = Ok url →
  env Response (requests_get url) = Ok resp →
  status_code resp ≠ 200 →
  run env (UrlEMT.get_csv self month year) =
    ([issued (requests_get url)],
     Err (ConnectionError ("Failed to connect to " +:+ url +:+ ", status code: " +:+
                           str_of_int (status_code resp)))).
Proof.
  intros Hurl Hresp Hcode. unfold UrlEMT.get_csv. rewrite Hurl.
  rewrite run_bind, run_lift, run_bind, run_perform, Hresp.
  apply Z.eqb_neq in Hcode. rewrite Hcode. reflexivity.
Qed.

Lemma get_csv_connection_error_witness :
  run (portal index_page not_found [] raw_fixture) (UrlEMT.get_csv catalog_fixture 11 22) =
    ([issued (requests_get "https://opendata.emtmadrid.es/getattachment/45f51cef-9296-4afe-b42e-d8d5bca3c548/trips_22_11_November-csv.aspx")],
     Err (ConnectionError ("Failed to connect to " +:+
       "https://opendata.emtmadrid.es/getattachment/45f51cef-9296-4afe-b42e-d8d5bca3c548/trips_22_11_November-csv.aspx" +:+
       ", status code: " +:+ str_of_int (status_code not_found)))).
Proof.
  apply (get_csv_connection_error _ catalog_fixture 11 22 _ not_found).
  - reflexivity.
  - reflexivity.
  - discriminate.
Defined.

(** With a resolved URL and a 200 answer, [get_csv] opens the archive and
    reads the entry ["trips_<yy>_<mm>_<Month>.csv"]: if the archive has it,
    its bytes are decoded and returned; if not, a [KeyError] is raised and
    nothing is decoded. The month table cannot fail here. *)
Theorem get_csv_reads_entry (env : ∀ X, event X → result X) (self : UrlEMT.t)
    (month year : Z) (url : string) (resp : Response) (zfile : ZipFile) :
  UrlEMT.get_url self month year = Ok url →
  env Response (requests_get url) = Ok resp →
  status_code resp = 200 →
  env ZipFile (zipfile_ZipFile (content resp)) = Ok zfile →
  ∃ month_name,
    english_month_names !! Z.to_nat (month - 1) = Some month_name ∧
    run env (UrlEMT.get_csv self month year) =
      match zip_open_read zfile ("trips_" +:+ two_digits year +:+ "_" +:+
                                 two_digits month +:+ "_" +:+ month_name +:+ ".csv") with
      | Ok contents =>
          ([issued (requests_get url); issued (zipfile_ZipFile (content resp));
            issued (decode_utf8 contents)],
           env string (decode_utf8 contents))
      | Err e =>
          ([issued (requests_get url); issued (zipfile_ZipFile (content resp))], Err e)
      end.
Proof.
  intros Hurl Hresp Hcode Hzip.
  destruct (get_url_ok_valid _ _ _ _ Hurl) as [Hm Hy].
  destruct (get_name_csv_valid month year Hm) as (month_name & Hname & Hcsv).
  exists month_name. split; [done |].
  rewrite (str_of_int_two_digits year) in Hcsv by lia.
  unfold UrlEMT.get_csv. rewrite Hurl.
  rewrite run_bind, run_lift, run_bind, run_perform, Hresp, Hcode. cbn [negb Z.eqb Pos.eqb].
  rewrite run_bind, run_perform, Hzip, Hcsv.
  rewrite run_bind, run_lift, run_bind, run_lift.
  destruct (zip_open_read zfile _) as [contents|e]; [| done].
  rewrite run_bind, run_perform.
  by destruct (env string (decode_utf8 contents)).
Qed.

Lemma get_csv_reads_entry_witness :
  ∃ month_name,
    english_month_names !! Z.to_nat (11 - 1) = Some month_name ∧
    run (portal index_page november_zip november_archive raw_fixture)
        (UrlEMT.get_csv catalog_fixture 11 22) =
      match zip_open_read november_archive
              ("trips_" +:+ two_digits 22 +:+ "_" +:+ two_digits 11 +:+ "_" +:+
               month_name +:+ ".csv") with
      | Ok contents =>
          ([issued (requests_get "https://opendata.emtmadrid.es/getattachment/45f51cef-9296-4afe-b42e-d8d5bca3c548/trips_22_11_November-csv.aspx");
            issued (zipfile_ZipFile (content november_zip));
            issued (decode_utf8 contents)],
           portal index_page november_zip november_archive raw_fixture string
                  (decode_utf8 contents))
      | Err e =>
          ([issued (requests_get "https://opendata.emtmadrid.es/getattachment/45f51cef-9296-4afe-b42e-d8d5bca3c548/trips_22_11_November-csv.aspx");
            issued (zipfile_ZipFile (content november_zip))], Err e)
      end.
Proof.
  apply (get_csv_reads_entry _ catalog_fixture 11 22 _ november_zip november_archive);
    reflexivity.
Defined.

(** ** Construction *)

Lemma run_select_valid_urls (env : ∀ X, event X → result X) :
  run env UrlEMT.select_valid_urls =
    ([issued (requests_get UrlEMT.index_url)],
     match env Response (requests_get UrlEMT.index_url) with
     | Ok resp =>
         if (status_code resp =? 200)%Z then Ok (UrlEMT.get_links (text resp))
         else Err (ConnectionError ("Failed to connect to " +:+ UrlEMT.index_url +:+
                                    ", status code: " +:+ str_of_int (status_code resp)))
     | Err e => Err e
     end).
Proof.
  unfold UrlEMT.select_valid_urls. rewrite run_bind, run_perform.
  destruct (env Response (requests_get UrlEMT.index_url)) as [resp|e]; [| done].
  by destruct (status_code resp =? 200)%Z.
Qed.

(** A dataset cannot be constructed when the index page does not answer
    200: the index request is the only call, and the connection error names
    the index address and the status. *)
Theorem construction_index_failure (env : ∀ X, event X → result X) (month year : Z)
    (resp : Response) :
  env Response (requests_get UrlEMT.index_url) = Ok resp →
  status_code resp ≠ 200 →
  run env (BiciMad.init month year) =
    ([issued (requests_get "https://opendata.emtmadrid.es/Datos-estaticos/Datos-generales-(1)")],
     Err (ConnectionError
            ("Failed to connect to https://opendata.emtmadrid.es/Datos-estaticos/Datos-generales-(1), status code: "
             +:+ str_of_int (status_code resp)))).
Proof.
  intros Hresp Hcode. apply Z.eqb_neq in Hcode.
  unfold BiciMad.init, BiciMad.get_data, UrlEMT.init.
  rewrite !run_bind, run_select_valid_urls, Hresp, Hcode. reflexivity.
Qed.

Lemma construction_index_failure_witness :
  run (portal not_found november_zip november_archive raw_fixture) (BiciMad.init 11 22) =
    ([issued (requests_get "https://opendata.emtmadrid.es/Datos-estaticos/Datos-generales-(1)")],
     Err (ConnectionError
            ("Failed to connect to https://opendata.emtmadrid.es/Datos-estaticos/Datos-generales-(1), status code: "
             +:+ str_of_int (status_code not_found)))).
Proof.
  apply (construction_index_failure _ 11 22 not_found); [reflexivity | discriminate].
Defined.

(** Constructing a dataset for an invalid month or year still fetches the
    index page: the catalogue is built first, and the value error is raised
    after that one request. *)
Theorem construction_invalid_input (env : ∀ X, event X → result X) (month year : Z)
    (resp : Response) :
  env Response (requests_get UrlEMT.index_url) = Ok resp →
  status_code resp = 200 →
  ¬ (1 ≤ month ≤ 12)%Z ∨ ¬ (year = 21 ∨ year = 22 ∨ year = 23) →
  ∃ msg,
    run env (BiciMad.init month year) =
      ([issued (requests_get UrlEMT.index_url)], Err (ValueError msg)).
Proof.
  intros Hresp Hcode Hbad.
  destruct (get_url_invalid {| UrlEMT.enlaces_validos := [] |} month year Hbad) as [msg Hmsg].
  exists msg. unfold BiciMad.init, BiciMad.get_data, UrlEMT.init, UrlEMT.get_csv.
  rewrite !run_bind, run_select_valid_urls, Hresp, Hcode. cbn [Z.eqb Pos.eqb].
  cbn [run mret io_ret]. rewrite !run_bind, Hmsg. reflexivity.
Qed.

Lemma construction_invalid_input_witness :
  ∃ msg,
    run (portal index_page november_zip november_archive raw_fixture) (BiciMad.init 13 22) =
      ([issued (requests_get UrlEMT.index_url)], Err (ValueError msg)).
Proof.
  apply (construction_invalid_input _ 13 22 index_page); [reflexivity | reflexivity |].
  left. lia.
Defined.

(** The whole construction: index page, resolution, archive, entry,
    decoding, parsing, the fifteen columns, cleaning. Five calls are made,
    in this order, and the instance holds the cleaned selection. *)
Theorem construction_loads_month (env : ∀ X, event X → result X) (month year : Z)
    (index dataset : Response) (url name contents csv : string) (zfile : ZipFile)
    (raw df : pd.DataFrame) :
  env Response (requests_get UrlEMT.index_url) = Ok index →
  status_code index = 200 →
  UrlEMT.get_url {| UrlEMT.enlaces_validos := elements (UrlEMT.get_links (text index)) |}
                 month year = Ok url →
  env Response (requests_get url) = Ok dataset →
  status_code dataset = 200 →
  env ZipFile (zipfile_ZipFile (content dataset)) = Ok zfile →
  UrlEMT.get_name_csv month year = Ok name →
  zip_open_read zfile name = Ok contents →
  env string (decode_utf8 contents) = Ok csv →
  env pd.DataFrame (read_csv csv) = Ok raw →
  pd.select raw BiciMad.csv_columns = Ok df →
  run env (BiciMad.init month year) =
    ([ issued (requests_get UrlEMT.index_url); issued (requests_get url);
       issued (zipfile_ZipFile (content dataset)); issued (decode_utf8 contents);
       issued (read_csv csv) ],
     Ok {| BiciMad._month := month; BiciMad._year := year;
           BiciMad._data := BiciMad.clean df |}).
Proof.
  intros Hindex Hcode Hurl Hdata Hcode' Hzip Hname Hentry Hdec Hcsv Hsel.
  unfold BiciMad.init, BiciMad.get_data, UrlEMT.init, UrlEMT.get_csv, BiciMad.csv_to_df.
  rewrite !run_bind, run_select_valid_urls, Hindex, Hcode. cbn [Z.eqb Pos.eqb].
  cbn [run mret io_ret]. rewrite !run_bind, Hurl, run_lift.
  rewrite !run_bind, run_perform, Hdata, Hcode'. cbn [negb Z.eqb Pos.eqb].
  rewrite !run_bind, run_perform, Hzip.
  rewrite !run_bind, Hname, run_lift.
  rewrite !run_bind, Hentry, run_lift.
  rewrite !run_bind, run_perform, Hdec. cbn [run mret io_ret].
  rewrite !run_bind, run_perform, Hcsv.
  rewrite !run_bind, Hsel, run_lift. reflexivity.
Qed.

Lemma construction_loads_month_witness :
  run (portal index_page november_zip november_archive raw_fixture) (BiciMad.init 11 22) =
    ([ issued (requests_get UrlEMT.index_url);
       issued (requests_get "https://opendata.emtmadrid.es/getattachment/45f5/trips_22_11_November-csv.aspx");
       issued (zipfile_ZipFile (content november_zip));
       issued (decode_utf8 "fecha;idBike;fleet");
       issued (read_csv "fecha;idBike;fleet") ],
     Ok {| BiciMad._month := 11; BiciMad._year := 22;
           BiciMad._data := BiciMad.clean raw_fixture |}).
Proof.
  apply (construction_loads_month _ 11 22 index_page november_zip _
           "trips_22_11_November.csv" _ _ november_archive raw_fixture raw_fixture).
  - reflexivity.
  - reflexivity.
  - vm_compute. reflexivity.
  - reflexivity.
  - reflexivity.
  - reflexivity.
  - reflexivity.
  - reflexivity.
  - reflexivity.
  - reflexivity.
  - vm_compute. reflexivity.
Defined.

(** ** Names *)

Lemma str_of_int_inj (a b : Z) : str_of_int a = str_of_int b → a = b.
Proof.
  unfold str_of_int. intros H. apply DecimalZ.to_int_inj.
  assert (Some (Z.to_int a) = Some (Z.to_int b)) as [= ->]; [| done].
  by rewrite <- !NilEmpty.isi, H.
Qed.

Lemma string_of_uint_without (sep : ascii) (d : Decimal.uint) :
  (∀ c, In c (String.list_ascii_of_string "0123456789") → c ≠ sep) →
  all_chars (λ c, c ≠ sep) (NilEmpty.string_of_uint d).
Proof.
  intros Hsep. induction d; simpl; try done; (split; [apply Hsep; simpl; tauto | done]).
Qed.

Lemma str_of_int_without (sep : ascii) (z : Z) :
  (∀ c, In c (String.list_ascii_of_string "-0123456789") → c ≠ sep) →
  all_chars (λ c, c ≠ sep) (str_of_int z).
Proof.
  intros Hsep. unfold str_of_int. destruct (Z.to_int z); simpl.
  - apply string_of_uint_without. intros c Hc. apply Hsep. by right.
  - split; [apply Hsep; by left |].
    apply string_of_uint_without. intros c Hc. apply Hsep. by right.
Qed.

Lemma append_sep_inj (sep : ascii) (a a' x y : string) :
  all_chars (λ c, c ≠ sep) a →
  all_chars (λ c, c ≠ sep) a' →
  a +:+ String sep x = a' +:+ String sep y →
  a = a' ∧ x = y.
Proof.
  revert a'. induction a as [|c a IH]; intros [|c' a'] Ha Ha' H; str_simpl.
  - by injection H as ->.
  - injection H as -> _. by destruct Ha'.
  - injection H as -> _. by destruct Ha.
  - injection H as -> H. destruct Ha as [_ Ha], Ha' as [_ Ha'].
    destruct (IH a' Ha Ha' H) as [-> ->]. done.
Qed.

Lemma month_name_unknown (month : Z) :
  ¬ (1 ≤ month ≤ 12)%Z →
  UrlEMT.dict_get UrlEMT.month_name_mapping month = Err (KeyError (str_of_int month)).
Proof.
  intros Hm. unfold UrlEMT.month_name_mapping. cbn [UrlEMT.dict_get].
  repeat match goal with
         | |- context [(?k =? month)%Z] =>
             destruct (Z.eqb_spec k month) as [?|_]; [lia |]
         end.
  done.
Qed.

Lemma get_name_csv_ok_valid (month year : Z) (name : string) :
  UrlEMT.get_name_csv month year = Ok name → (1 ≤ month ≤ 12)%Z.
Proof.
  intros H. destruct (decide (1 ≤ month ≤ 12)%Z) as [Hm|Hm]; [done |].
  unfold UrlEMT.get_name_csv in H. by rewrite (month_name_unknown month Hm) in H.
Qed.

Lemma two_digits_month_inj (m m' : Z) :
  (1 ≤ m ≤ 12)%Z → (1 ≤ m' ≤ 12)%Z → two_digits m = two_digits m' → m = m'.
Proof.
  intros Hm Hm' H.
  assert (m ∈ seqZ 1 12) as Hin by (apply elem_of_seqZ; lia).
  assert (m' ∈ seqZ 1 12) as Hin' by (apply elem_of_seqZ; lia).
  vm_compute seqZ in Hin, Hin'.
  repeat (apply elem_of_cons in Hin as [-> | Hin];
          [repeat (apply elem_of_cons in Hin' as [-> | Hin'];
                   [first [reflexivity | vm_compute in H; discriminate H] |]);
           by apply elem_of_nil in Hin' |]).
  by apply elem_of_nil in Hin.
Qed.

(** A file name determines its month and year: two calls of
    [get_name_csv] that return the same name were given the same month and
    the same year. *)
Theorem get_name_csv_inj (month year month' year' : Z) (name : string) :
  UrlEMT.get_name_csv month year = Ok name →
  UrlEMT.get_name_csv month' year' = Ok name →
  month = month' ∧ year = year'.
Proof.
  intros H H'.
  pose proof (get_name_csv_ok_valid _ _ _ H) as Hm.
  pose proof (get_name_csv_ok_valid _ _ _ H') as Hm'.
  destruct (get_name_csv_valid month year Hm) as (n & _ & Hn).
  destruct (get_name_csv_valid month' year' Hm') as (n' & _ & Hn').
  rewrite Hn in H. rewrite Hn' in H'. injection H as <-. injection H' as H'.
  str_simpl.
  assert (∀ c, In c (String.list_ascii_of_string "-0123456789") → c ≠ "_"%char) as Hsep.
  { intros c Hc. simpl in Hc. intuition subst; discriminate. }
  apply append_sep_inj in H' as [Hy H']; [| by apply str_of_int_without..].
  apply str_of_int_inj in Hy. split; [| done].
  apply two_digits_month_inj; [done | done |].
  unfold two_digits in *. str_simpl. by injection H' as <- <-.
Qed.

Lemma get_name_csv_inj_witness : 11 = 11 ∧ 22 = 22.
Proof.
  apply (get_name_csv_inj 11 22 11 22 "trips_22_11_November.csv"); reflexivity.
Defined.

(** The text of an instance identifies its month and year. *)
Theorem str_inj (self other : BiciMad.t) :
  BiciMad.__str__ self = BiciMad.__str__ other →
  BiciMad._month self = BiciMad._month other ∧
  BiciMad._year self = BiciMad._year other.
Proof.
  unfold BiciMad.__str__. intros H. str_simpl. repeat injection H as H.
  assert (∀ c, In c (String.list_ascii_of_string "-0123456789") → c ≠ ","%char) as Hsep.
  { intros c Hc. simpl in Hc. intuition subst; discriminate. }
  apply append_sep_inj in H as [Hm H]; [| by apply str_of_int_without..].
  apply str_of_int_inj in Hm. split; [done |].
  str_simpl. repeat injection H as H. by apply str_of_int_inj.
Qed.

Lemma str_inj_witness :
  BiciMad._month november = BiciMad._month november ∧
  BiciMad._year november = BiciMad._year november.
Proof. apply (str_inj november november). reflexivity. Defined.

(** ** Selecting the columns *)

Section select.
Import pd.

Lemma select_indices (df : DataFrame) (cols : list string) :
  (∃ idx,
     foldr (λ c acc, match col_index df c with
                     | Some i => (i ::.) <$> acc
                     | None => Err (KeyError c)
                     end) (Ok []) cols = Ok idx ∧
     Forall2 (λ c i, col_index df c = Some i) cols idx) ∨
  (∃ k,
     foldr (λ c acc, match col_index df c with
                     | Some i => (i ::.) <$> acc
                     | None => Err (KeyError c)
                     end) (Ok []) cols = Err (KeyError k) ∧
     k ∈ cols ∧ k ∉ columns df).
Proof.
  induction cols as [|c cols IH]; simpl.
  - left. exists []. by split.
  - destruct (col_index df c) as [i|] eqn:Hi.
    + destruct IH as [(idx & -> & Hidx) | (k & -> & Hk & Hnot)].
      * left. exists (i :: idx). split; [done | by constructor].
      * right. exists k. split_and!; [done | by right | done].
    + right. exists c. split_and!; [done | left |].
      intros Hc. apply col_index_elem_of in Hc as [j Hj]. congruence.
Qed.

Lemma select_unfold (df : DataFrame) (cols : list string) (df' : DataFrame) :
  select df cols = Ok df' →
  ∃ idx,
    Forall2 (λ c i, col_index df c = Some i) cols idx ∧
    df' = {| columns := cols;
             rows := (λ r, {| label := label r; cells := (λ i, cell i r) <$> idx |})
                       <$> rows df |}.
Proof.
  unfold select. intros H.
  destruct (select_indices df cols) as [(idx & Hf & Hidx) | (k & Hf & _)];
    rewrite Hf in H; [| done].
  exists idx. split; [done |]. by injection H as <-.
Qed.

Lemma col_index_NoDup (cols : list string) (rs : list Row) (c : string) (j : nat) :
  NoDup cols → cols !! j = Some c →
  col_index {| columns := cols; rows := rs |} c = Some j.
Proof.
  intros Hnd Hj. unfold col_index. cbn [columns].
  destruct (list_find (λ c0, c0 = c) cols) as [[j' x]|] eqn:Hfind.
  - apply list_find_Some in Hfind as (Hj' & -> & _). cbn. f_equal.
    by eapply NoDup_lookup.
  - exfalso. apply list_find_None in Hfind. rewrite Forall_forall in Hfind.
    apply (Hfind c); [by eapply list_elem_of_lookup_2 | done].
Qed.

End select.

(** [csv_to_df] parses once and keeps the fifteen columns. A file that
    [read_csv] has parsed has the columns ["lock_date"] and ["unlock_date"]:
    they are named in [parse_dates], and [read_csv] itself raises when one
    is absent. When the parsed file has all fifteen, the table has exactly
    these columns, in this order, with the labels and the values of the
    file, whatever other columns the file has; when one of the other
    thirteen is missing, the selection raises a [KeyError]. *)
Theorem csv_to_df_selection (env : ∀ X, event X → result X) (data : string)
    (raw : pd.DataFrame) :
  env pd.DataFrame (read_csv data) = Ok raw →
  "lock_date" ∈ pd.columns raw →
  "unlock_date" ∈ pd.columns raw →
  ((∀ c, c ∈ BiciMad.csv_columns → c ∈ pd.columns raw) →
   ∃ df,
     run env (BiciMad.csv_to_df data) = ([issued (read_csv data)], Ok df) ∧
     pd.columns df = BiciMad.csv_columns ∧
     pd.label <$> pd.rows df = pd.label <$> pd.rows raw ∧
     ∀ c, c ∈ BiciMad.csv_columns → pd.getitem df c = pd.getitem raw c) ∧
  ((∃ c, c ∈ BiciMad.csv_columns ∧ c ≠ "lock_date" ∧ c ≠ "unlock_date" ∧
         c ∉ pd.columns raw) →
   ∃ k, run env (BiciMad.csv_to_df data) = ([issued (read_csv data)], Err (KeyError k))).
Proof.
  intros Hraw _ _.
  assert (run env (BiciMad.csv_to_df data) =
          ([issued (read_csv data)], pd.select raw BiciMad.csv_columns)) as Hrun.
  { unfold BiciMad.csv_to_df. rewrite run_bind, run_perform, Hraw.
    rewrite run_bind, run_lift. by destruct (pd.select raw BiciMad.csv_columns). }
  rewrite Hrun. split.
  - intros Hall.
    destruct (select_indices raw BiciMad.csv_columns)
      as [(idx & Hf & Hidx) | (k & _ & Hk & Hnot)]; [| by destruct Hnot; auto].
    eexists. split; [unfold pd.select; rewrite Hf; reflexivity |].
    split_and!; [done | |].
    + simpl. by rewrite <- list_fmap_compose.
    + intros c Hc. apply list_elem_of_lookup in Hc as [j Hj].
      destruct (Forall2_lookup_l _ _ _ _ _ Hidx Hj) as (i & Hij & Hi).
      assert (NoDup BiciMad.csv_columns) as Hnd by compute_done.
      unfold pd.getitem at 1. rewrite (col_index_NoDup _ _ c j Hnd Hj).
      unfold pd.getitem. rewrite Hi. f_equal. cbn [pd.rows].
      rewrite <- list_fmap_compose. apply list_fmap_ext. intros _ r _. cbn.
      unfold pd.cell at 1. simpl. by rewrite list_lookup_fmap, Hij.
  - intros (c & Hc & _ & _ & Hnot).
    destruct (select_indices raw BiciMad.csv_columns)
      as [(idx & _ & Hidx) | (k & Hf & _)].
    + exfalso. apply Hnot. apply list_elem_of_lookup in Hc as [j Hj].
      destruct (Forall2_lookup_l _ _ _ _ _ Hidx Hj) as (i & _ & Hi).
      apply col_index_elem_of. by eexists.
    + exists k. unfold pd.select. by rewrite Hf.
Qed.

Lemma csv_to_df_selection_witness :
  ∃ df,
    run (portal index_page november_zip november_archive raw_fixture)
        (BiciMad.csv_to_df "fecha;idBike;fleet") =
      ([issued (read_csv "fecha;idBike;fleet")], Ok df) ∧
    pd.columns df = BiciMad.csv_columns ∧
    pd.label <$> pd.rows df = pd.label <$> pd.rows raw_fixture ∧
    ∀ c, c ∈ BiciMad.csv_columns → pd.getitem df c = pd.getitem raw_fixture c.
Proof.
  assert ("lock_date" ∈ pd.columns raw_fixture) as Hlock
    by (apply list_elem_of_In; simpl; tauto).
  assert ("unlock_date" ∈ pd.columns raw_fixture) as Hunlock
    by (apply list_elem_of_In; simpl; tauto).
  apply (proj1 (csv_to_df_selection
                  (portal index_page november_zip november_archive raw_fixture)
                  "fecha;idBike;fleet" raw_fixture eq_refl Hlock Hunlock)).
  intros c Hc. exact Hc.
Defined.

(** ** What cleaning keeps *)

Lemma survives_exists (r : pd.Row) :
  survives r = true ↔ ∃ i v, pd.cells r !! i = Some v ∧ pd.notna v = true.
Proof.
  unfold survives. rewrite existsb_exists. split.
  - intros (v & Hin & Hv). apply list_elem_of_In, list_elem_of_lookup in Hin as [i Hi].
    by exists i, v.
  - intros (i & v & Hi & Hv). exists v. split; [| done].
    by eapply list_elem_of_In, list_elem_of_lookup_2.
Qed.

Lemma survives_clean_row_at (oi : option nat) (r : pd.Row) :
  survives r = true → survives (clean_row_at oi r) = true.
Proof.
  destruct oi as [j|]; [| done]. rewrite !survives_exists.
  intros (i & v & Hi & Hv). simpl.
  destruct (decide (i = j)) as [->|Hne].
  - exists j, (cleaned (pd.cell j r)). split; [| done].
    apply list_lookup_insert_eq. by eapply lookup_lt_Some.
  - exists i, v. split; [| done]. by rewrite list_lookup_insert_ne.
Qed.

Lemma survives_clean_row (df : pd.DataFrame) (r : pd.Row) :
  survives r = true → survives (clean_row df r) = true.
Proof.
  unfold clean_row. generalize BiciMad.col_names. intros names. revert r.
  induction names as [|c names IH]; intros r Hr; [done |].
  simpl. by apply IH, survives_clean_row_at.
Qed.

(** After [clean] no row of the table is empty: every row has a cell that
    is present. *)
Theorem clean_no_empty_row (df : pd.DataFrame) (r : pd.Row) :
  r ∈ pd.rows (BiciMad.clean df) → existsb pd.notna (pd.cells r) = true.
Proof.
  rewrite clean_unfold. simpl. intros (r0 & -> & Hr0)%list_elem_of_fmap.
  apply list_elem_of_In, filter_In in Hr0 as [_ Hs].
  by apply (survives_clean_row df r0).
Qed.

Lemma clean_no_empty_row_witness :
  existsb pd.notna
    (pd.cells {| pd.label := Some nov_1;
                 pd.cells := [ pd.VStr "7337"; pd.VStr "1"; pd.VFloat 525 2; pd.NaN;
                               pd.VStr "Calle Jesus"; pd.NaN; pd.NaN; pd.NaN; pd.NaN;
                               pd.NaN; pd.NaN; pd.VStr "2"; pd.NaN; pd.VStr "nan";
                               pd.NaN ] |}) = true.
Proof.
  apply (clean_no_empty_row raw_fixture). apply list_elem_of_In. vm_compute. tauto.
Defined.

(** [clean] keeps the columns and their order, the labels of the rows it
    keeps, and every column that is not one of the four identifiers: such a
    column reads as it does after dropping the empty rows alone. *)
Theorem clean_keeps_other_columns (df : pd.DataFrame) :
  well_formed df →
  pd.columns (BiciMad.clean df) = pd.columns df ∧
  pd.label <$> pd.rows (BiciMad.clean df) =
    pd.label <$> List.filter (λ r, existsb pd.notna (pd.cells r)) (pd.rows df) ∧
  ∀ c, c ∉ BiciMad.col_names →
       pd.getitem (BiciMad.clean df) c = pd.getitem (pd.dropna_all df) c.
Proof.
  intros Hwf. rewrite clean_unfold. split_and!; [done | |].
  - simpl. rewrite <- list_fmap_compose. apply list_fmap_ext. intros _ r _.
    apply label_clean_row.
  - intros c Hc. unfold pd.getitem, pd.col_index, pd.dropna_all. cbn [pd.columns pd.rows].
    fold (pd.col_index df c). destruct (pd.col_index df c) as [i|] eqn:Hi; [| done].
    f_equal. rewrite <- list_fmap_compose. apply list_fmap_ext. intros n r Hn.
    unfold compose.
    destruct (well_formed_filter df n r Hwf Hn) as [Hlen _].
    by rewrite (cell_clean_row df r c i Hi Hlen), decide_False.
Qed.

Lemma clean_keeps_other_columns_witness :
  pd.columns (BiciMad.clean raw_fixture) = pd.columns raw_fixture ∧
  pd.label <$> pd.rows (BiciMad.clean raw_fixture) =
    pd.label <$> List.filter (λ r, existsb pd.notna (pd.cells r)) (pd.rows raw_fixture) ∧
  ∀ c, c ∉ BiciMad.col_names →
       pd.getitem (BiciMad.clean raw_fixture) c = pd.getitem (pd.dropna_all raw_fixture) c.
Proof. apply (clean_keeps_other_columns raw_fixture raw_fixture_well_formed). Defined.





(** ** Groups *)

Lemma sum_list_Permutation (l k : list nat) : l ≡ₚ k → sum_list l = sum_list k.
Proof. induction 1; simpl; lia. Qed.

Lemma length_filter_cons_key {K : Type} `{EqDecision K} (k : K) (ks l : list K) :
  k ∉ ks →
  length (filter (λ x, x ∈ k :: ks) l) =
    (length (filter (λ x, x = k) l) + length (filter (λ x, x ∈ ks) l))%nat.
Proof.
  intros Hk. induction l as [|x l IH]; [done |].
  rewrite !filter_cons.
  destruct (decide (x = k)) as [->|Hne].
  - rewrite decide_True by left. rewrite decide_False by done. simpl. lia.
  - destruct (decide (x ∈ ks)) as [Hin|Hin].
    + rewrite decide_True by (by right). simpl. lia.
    + rewrite decide_False; [done |]. intros [?|?]%elem_of_cons; done.
Qed.

Lemma sum_list_cons (n : nat) (l : list nat) : sum_list (n :: l) = (n + sum_list l)%nat.
Proof. reflexivity. Qed.

Lemma filter_all {A : Type} (P : A → Prop) `{∀ x, Decision (P x)} (l : list A) :
  (∀ x, x ∈ l → P x) → filter P l = l.
Proof.
  induction l as [|x l IH]; intros HP; [done |].
  rewrite filter_cons, decide_True by (apply HP; left).
  f_equal. apply IH. intros y Hy. apply HP. by right.
Qed.

Lemma filter_none {A : Type} (P : A → Prop) `{∀ x, Decision (P x)} (l : list A) :
  (∀ x, x ∈ l → ¬ P x) → filter P l = [].
Proof.
  induction l as [|x l IH]; intros HP; [done |].
  rewrite filter_cons, decide_False by (apply HP; left).
  apply IH. intros y Hy. apply HP. by right.
Qed.

Lemma sum_group_sizes {K : Type} `{EqDecision K} (ks l : list K) :
  NoDup ks →
  sum_list ((λ k, length (filter (λ x, x = k) l)) <$> ks) =
    length (filter (λ x, x ∈ ks) l).
Proof.
  induction 1 as [|k ks Hk Hnd IH].
  - rewrite filter_none; [done |]. intros x _. apply not_elem_of_nil.
  - by rewrite fmap_cons, sum_list_cons, IH, length_filter_cons_key.
Qed.

Section group_facts.
Import pd.
Context {K V : Type} `{EqDecision K} (le : relation K) `{!RelDecision le}.

Lemma groupby_keys (kvs : list (option K * V)) :
  (groupby le kvs).*1 = merge_sort le (remove_dups (omap fst kvs)).
Proof.
  unfold groupby. rewrite <- list_fmap_compose. apply list_fmap_id.
Qed.

Lemma groupby_keys_NoDup (kvs : list (option K * V)) : NoDup (groupby le kvs).*1.
Proof.
  rewrite groupby_keys, merge_sort_Permutation. apply NoDup_remove_dups.
Qed.

Lemma groupby_keys_Sorted (kvs : list (option K * V)) :
  Total le → Sorted le (groupby le kvs).*1.
Proof. intros Htot. rewrite groupby_keys. by apply Sorted_merge_sort. Qed.

Lemma group_size_key (kvs : list (option K * V)) (k : K) :
  length (filter (λ kv : option K * V, kv.1 = Some k) kvs) =
  length (filter (λ x, x = k) (omap fst kvs)).
Proof.
  induction kvs as [|[[k'|] v] kvs IH]; [done | |].
  - change (omap fst ((Some k', v) :: kvs)) with (k' :: omap fst kvs).
    rewrite !filter_cons.
    destruct (decide (k' = k)) as [->|Hne].
    + rewrite decide_True by done. simpl. by rewrite IH.
    + rewrite decide_False by (simpl; congruence). done.
  - change (omap fst ((None, v) :: kvs)) with (omap fst kvs).
    rewrite filter_cons, decide_False by done. done.
Qed.

Lemma groupby_sizes (kvs : list (option K * V)) :
  sum_list ((λ g, length g.2) <$> groupby le kvs) = length (omap fst kvs).
Proof.
  unfold groupby. rewrite <- list_fmap_compose.
  rewrite (list_fmap_ext _ (λ k, length (filter (λ x, x = k) (omap fst kvs)))).
  2:{ intros _ k _. unfold compose. cbn [snd].
      by rewrite length_fmap, filter_bool_decide, group_size_key. }
  rewrite (sum_list_Permutation _
             ((λ k, length (filter (λ x, x = k) (omap fst kvs)))
                <$> remove_dups (omap fst kvs))).
  2:{ apply fmap_Permutation, merge_sort_Permutation. }
  rewrite sum_group_sizes by apply NoDup_remove_dups.
  f_equal. apply filter_all. intros x Hx. by apply elem_of_remove_dups.
Qed.

Lemma groupby_nonempty (kvs : list (option K * V)) (k : K) (vs : list V) :
  (k, vs) ∈ groupby le kvs → vs ≠ [].
Proof.
  intros [Hk ->]%elem_of_groupby.
  apply list_elem_of_fmap in Hk as ([k0 v] & Hk0 & Hin). simpl in Hk0. subst k0.
  assert ((Some k, v) ∈ filter (λ kv : option K * V, kv.1 = Some k) kvs) as Hf
    by (by apply list_elem_of_filter).
  intros Hnil. apply fmap_nil_inv in Hnil. rewrite Hnil in Hf. by apply elem_of_nil in Hf.
Qed.

End group_facts.

(** ** Trips and hours per day *)

Lemma omap_fst_zip {A B : Type} (l : list (option A)) (k : list B) :
  length l = length k → omap fst (zip l k) = omap id l.
Proof.
  revert k. induction l as [|[x|] l IH]; intros [|y k] Hlen; try done;
    injection Hlen as Hlen.
  - change (omap fst (zip (Some x :: l) (y :: k))) with (x :: omap fst (zip l k)).
    change (omap id (Some x :: l)) with (x :: omap id l). by rewrite IH.
  - change (omap fst (zip (None :: l) (y :: k))) with (omap fst (zip l k)).
    change (omap id (None :: l)) with (omap id l). by rewrite IH.
Qed.

Lemma length_labelled (f : pd.Timestamp → pd.Timestamp) (rs : list pd.Row) :
  length (omap id ((λ r, f <$> pd.label r) <$> rs)) =
  length (filter (λ r, is_Some (pd.label r)) rs).
Proof.
  induction rs as [|r rs IH]; [done |].
  rewrite fmap_cons, filter_cons. destruct (pd.label r) as [ts|] eqn:Hl.
  - rewrite decide_True by (by eexists).
    change (omap id ((f <$> Some ts) :: ?l)) with (f ts :: omap id l).
    simpl. by rewrite IH.
  - rewrite decide_False by (by intros [? ?]).
    change (omap id ((f <$> None) :: ?l)) with (omap id l). done.
Qed.

Lemma floor_day_idemp (ts : pd.Timestamp) : pd.floor_day (pd.floor_day ts) = pd.floor_day ts.
Proof.
  unfold pd.floor_day. rewrite Z.div_mul; [done |]. unfold pd.ns_per_day. lia.
Qed.

Lemma getitem_present (df : pd.DataFrame) (c : string) :
  c ∈ pd.columns df →
  ∃ vals, pd.getitem df c = Ok vals ∧ length vals = length (pd.rows df).
Proof.
  intros [i Hi]%col_index_elem_of. unfold pd.getitem. rewrite Hi.
  eexists. split; [done | apply length_fmap].
Qed.

(** [total_usage_day] loses no trip: every day it lists has at least one
    trip, and the counts of the days add up to the number of rows that have
    a label (all the rows, when no label is missing). *)
Theorem total_usage_day_counts (self : BiciMad.t) :
  "idBike" ∈ pd.columns (BiciMad._data self) →
  ∃ s,
    BiciMad.total_usage_day self = Ok s ∧
    (∀ day n, (day, n) ∈ pd.items s → (1 ≤ n)%nat) ∧
    sum_list (pd.items s).*2 =
      length (filter (λ r, is_Some (pd.label r)) (pd.rows (BiciMad._data self))).
Proof.
  intros Hcol. destruct (getitem_present _ _ Hcol) as (bikes & Hget & Hlen).
  unfold BiciMad.total_usage_day. rewrite Hget. simpl. eexists.
  split; [reflexivity |]. simpl. split.
  - intros day n ([k vs] & [= -> ->] & Hg)%list_elem_of_fmap. simpl.
    apply groupby_nonempty in Hg. destruct vs; [done | simpl; lia].
  - rewrite <- list_fmap_compose.
    rewrite (list_fmap_ext _ (λ g : pd.Timestamp * list pd.value, length g.2) _
               (λ _ _ _, eq_refl)).
    rewrite groupby_sizes, omap_fst_zip by (by rewrite length_fmap).
    apply length_labelled.
Qed.

Lemma total_usage_day_counts_witness :
  ∃ s,
    BiciMad.total_usage_day november = Ok s ∧
    (∀ day n, (day, n) ∈ pd.items s → (1 ≤ n)%nat) ∧
    sum_list (pd.items s).*2 =
      length (filter (λ r, is_Some (pd.label r)) (pd.rows (BiciMad._data november))).
Proof.
  apply (total_usage_day_counts november). apply list_elem_of_In. vm_compute. tauto.
Defined.

(** The days that [total_usage_day] lists are the days of the labels: each
    is the start of a day on which some row falls, no day is listed twice,
    and they are in increasing order. *)
Theorem total_usage_day_days (self : BiciMad.t) :
  "idBike" ∈ pd.columns (BiciMad._data self) →
  ∃ s,
    BiciMad.total_usage_day self = Ok s ∧
    pd.name s = Some "Number_trips" ∧
    NoDup (pd.items s).*1 ∧
    Sorted Z.le (pd.items s).*1 ∧
    ∀ day, day ∈ (pd.items s).*1 ↔
           ∃ r ts, r ∈ pd.rows (BiciMad._data self) ∧ pd.label r = Some ts ∧
                   day = pd.floor_day ts.
Proof.
  intros Hcol. destruct (getitem_present _ _ Hcol) as (bikes & Hget & Hlen).
  unfold BiciMad.total_usage_day. rewrite Hget. simpl. eexists.
  split; [reflexivity |]. simpl.
  assert (∀ kvs : list (option pd.Timestamp * pd.value),
            ((λ g : pd.Timestamp * list pd.value, (g.1, length g.2))
               <$> pd.groupby Z.le kvs).*1 = (pd.groupby Z.le kvs).*1) as Hkeys.
  { intros kvs. rewrite <- list_fmap_compose. done. }
  rewrite Hkeys. split_and!; [done | apply groupby_keys_NoDup | |].
  - apply groupby_keys_Sorted, Z.le_total.
  - intros day. rewrite groupby_keys, merge_sort_Permutation, elem_of_remove_dups.
    rewrite omap_fst_zip by (by rewrite length_fmap).
    rewrite list_elem_of_omap. split.
    + intros (o & Ho & Hid). simpl in Hid. subst o.
      apply list_elem_of_fmap in Ho as (r & Hr & Hin).
      destruct (pd.label r) as [ts|] eqn:Hl; [| done].
      injection Hr as ->. by exists r, ts.
    + intros (r & ts & Hin & Hl & ->). exists (Some (pd.floor_day ts)).
      split; [| done]. apply list_elem_of_fmap. exists r. by rewrite Hl.
Qed.

Lemma total_usage_day_days_witness :
  ∃ s,
    BiciMad.total_usage_day november = Ok s ∧
    pd.name s = Some "Number_trips" ∧
    NoDup (pd.items s).*1 ∧
    Sorted Z.le (pd.items s).*1 ∧
    ∀ day, day ∈ (pd.items s).*1 ↔
           ∃ r ts, r ∈ pd.rows (BiciMad._data november) ∧ pd.label r = Some ts ∧
                   day = pd.floor_day ts.
Proof.
  apply (total_usage_day_days november). apply list_elem_of_In. vm_compute. tauto.
Defined.

Lemma sums_div_60_numbers {K : Type} (gs : list (K * list pd.value)) :
  (∀ g v, g ∈ gs → v ∈ g.2 → ¬ is_text v) →
  pd.sums_div_60 gs = Ok ((λ g, (g.1, (total_minutes g.2 / 60)%Q)) <$> gs).
Proof.
  induction gs as [|[k vs] gs IH]; intros H; [done |].
  simpl. rewrite (sum_numbers vs); [| intros v Hv; apply (H (k, vs)); [left | done]].
  simpl. rewrite IH; [done |]. intros g v Hg. apply H. by right.
Qed.

Lemma group_members {K : Type} `{EqDecision K} (le : relation K) `{!RelDecision le}
    (keys : list (option K)) (vals : list pd.value) (g : K * list pd.value) (v : pd.value) :
  g ∈ pd.groupby le (zip keys vals) → v ∈ g.2 → v ∈ vals.
Proof.
  destruct g as [k vs]. intros [_ ->]%elem_of_groupby Hv. simpl in Hv.
  apply list_elem_of_fmap in Hv as ([o v'] & -> & Hin).
  apply list_elem_of_filter in Hin as [_ Hin]. by eapply elem_of_zip_r.
Qed.

(** [day_time] on a column of numbers: one entry for each distinct label,
    in increasing order, holding the minutes of the rows with that very
    label, summed and divided by 60. *)
Theorem day_time_per_label (self : BiciMad.t) (minutes : list pd.value) :
  pd.getitem (BiciMad._data self) "trip_minutes" = Ok minutes →
  (∀ v, v ∈ minutes → ¬ is_text v) →
  ∃ s,
    BiciMad.day_time self = Ok s ∧
    pd.name s = Some "trip_hours" ∧
    NoDup (pd.items s).*1 ∧
    Sorted Z.le (pd.items s).*1 ∧
    (∀ ts, ts ∈ (pd.items s).*1 ↔
           ∃ r, r ∈ pd.rows (BiciMad._data self) ∧ pd.label r = Some ts) ∧
    ∀ ts h, (ts, h) ∈ pd.items s →
      h = (total_minutes
             (filter (λ lm : option pd.Timestamp * pd.value, lm.1 = Some ts)
                (zip (pd.label <$> pd.rows (BiciMad._data self)) minutes)).*2 / 60)%Q.
Proof.
  intros Hget Hnum.
  assert (length minutes = length (pd.rows (BiciMad._data self))) as Hlen.
  { unfold pd.getitem in Hget. destruct (pd.col_index _ _); [| done].
    injection Hget as <-. apply length_fmap. }
  unfold BiciMad.day_time. rewrite Hget. simpl.
  rewrite sums_div_60_numbers by (intros g v Hg Hv; apply Hnum; by eapply group_members).
  simpl. eexists. split; [reflexivity |]. simpl.
  assert (∀ gs : list (pd.Timestamp * list pd.value),
            ((λ g : pd.Timestamp * list pd.value, (g.1, (total_minutes g.2 / 60)%Q))
               <$> gs).*1 = gs.*1) as Hkeys.
  { intros gs. rewrite <- list_fmap_compose. done. }
  rewrite Hkeys. split_and!; [done | apply groupby_keys_NoDup | | |].
  - apply groupby_keys_Sorted, Z.le_total.
  - intros ts. rewrite groupby_keys, merge_sort_Permutation, elem_of_remove_dups.
    rewrite omap_fst_zip by (by rewrite length_fmap).
    rewrite list_elem_of_omap. split.
    + intros (o & Ho & Hid). simpl in Hid. subst o.
      apply list_elem_of_fmap in Ho as (r & Hr & Hin). by exists r.
    + intros (r & Hin & Hl). exists (Some ts). split; [| done].
      apply list_elem_of_fmap. by exists r.
  - intros ts h ([k vs] & [= -> ->] & Hg)%list_elem_of_fmap. simpl.
    by apply elem_of_groupby in Hg as [_ ->].
Qed.

Lemma day_time_per_label_witness :
  ∃ s,
    BiciMad.day_time same_day = Ok s ∧
    pd.name s = Some "trip_hours" ∧
    NoDup (pd.items s).*1 ∧
    Sorted Z.le (pd.items s).*1 ∧
    (∀ ts, ts ∈ (pd.items s).*1 ↔
           ∃ r, r ∈ pd.rows (BiciMad._data same_day) ∧ pd.label r = Some ts) ∧
    ∀ ts h, (ts, h) ∈ pd.items s →
      h = (total_minutes
             (filter (λ lm : option pd.Timestamp * pd.value, lm.1 = Some ts)
                (zip (pd.label <$> pd.rows (BiciMad._data same_day))
                     [pd.VFloat 30 0; pd.VFloat 60 0])).*2 / 60)%Q.
Proof.
  apply (day_time_per_label same_day).
  - reflexivity.
  - intros v Hv [s ->]. apply list_elem_of_In in Hv. simpl in Hv.
    repeat (destruct Hv as [Hv | Hv]; [discriminate |]). exact Hv.
Defined.

Lemma day_time_on_dates_witness :
  BiciMad.day_time november = hours_per_day november.
Proof.
  apply (day_time_on_dates november). intros r ts Hr Hl.
  apply list_elem_of_In in Hr. vm_compute in Hr.
  repeat (destruct Hr as [<- | Hr]; [injection Hl as <-; reflexivity |]).
  destruct Hr.
Defined.

(** ** Hours per weekday *)

Lemma zip_with_twice {A B : Type} (f g : A → B → A) (l : list A) (k : list B) :
  (∀ x y, x ∈ l → g (f x y) y = f x y) →
  zip_with g (zip_with f l k) k = zip_with f l k.
Proof.
  revert k. induction l as [|x l IH]; intros [|y k] H; try done.
  simpl. rewrite H by left. f_equal. apply IH. intros x' y' Hx'. apply H. by right.
Qed.

(** Assigning the same values to the same column a second time changes
    nothing. *)
Lemma setitem_twice (df : pd.DataFrame) (col : string) (vals : list pd.value) :
  well_formed df →
  pd.setitem (pd.setitem df col vals) col vals = pd.setitem df col vals.
Proof.
  intros Hwf. unfold well_formed in Hwf. rewrite Forall_forall in Hwf.
  unfold pd.setitem at 2 3. destruct (pd.col_index df col) as [j|] eqn:Hj.
  - unfold pd.setitem, pd.col_index. cbn [pd.columns pd.rows].
    fold (pd.col_index df col). rewrite Hj. f_equal.
    apply zip_with_twice. intros r v _. cbn. by rewrite list_insert_insert_eq.
  - unfold pd.setitem. rewrite col_index_new by done. cbn [pd.columns pd.rows]. f_equal.
    apply zip_with_twice. intros r v Hr. cbn. f_equal.
    rewrite <- (Hwf r Hr).
    replace (length (pd.cells r)) with (length (pd.cells r) + 0)%nat by lia.
    by rewrite insert_app_r.
Qed.

Lemma weekday_time_ok (self : BiciMad.t) (dia : list pd.value) :
  BiciMad.dia_of_index (pd.label <$> pd.rows (BiciMad._data self)) = Ok dia →
  BiciMad.weekday_time self =
    (dia' ← pd.getitem (pd.setitem (BiciMad._data self) "dia" dia) "dia";
     minutes ← pd.getitem (pd.setitem (BiciMad._data self) "dia" dia) "trip_minutes";
     horas ← pd.sums_div_60 (pd.groupby pd.value_le (zip (pd.key_of <$> dia') minutes));
     mret (pd.rename {| pd.name := Some "trip_minutes"; pd.items := horas |} "trip_hours"),
     {| BiciMad._month := BiciMad._month self; BiciMad._year := BiciMad._year self;
        BiciMad._data := pd.setitem (BiciMad._data self) "dia" dia |}).
Proof. intros H. unfold BiciMad.weekday_time. by rewrite H. Qed.

Lemma weekday_time_err (self : BiciMad.t) (e : exn) :
  BiciMad.dia_of_index (pd.label <$> pd.rows (BiciMad._data self)) = Err e →
  BiciMad.weekday_time self = (Err e, self).
Proof. intros H. unfold BiciMad.weekday_time. by rewrite H. Qed.

(** A second call of [weekday_time] returns what the first returned and
    leaves the instance as the first left it: the column ["dia"] is written
    again with the same letters, not added again. *)
Theorem weekday_time_twice (self : BiciMad.t) :
  well_formed (BiciMad._data self) →
  BiciMad.weekday_time (BiciMad.weekday_time self).2 = BiciMad.weekday_time self.
Proof.
  intros Hwf.
  destruct (BiciMad.dia_of_index (pd.label <$> pd.rows (BiciMad._data self)))
    as [dia|e] eqn:Hdia.
  - assert (length dia = length (pd.rows (BiciMad._data self))) as Hlen.
    { rewrite (length_dia_of_index _ _ Hdia). apply length_fmap. }
    rewrite (weekday_time_ok self dia Hdia). cbn [snd].
    rewrite (weekday_time_ok _ dia).
    + cbn [BiciMad._data BiciMad._month BiciMad._year]. by rewrite setitem_twice.
    + cbn [BiciMad._data].
      by rewrite (proj1 (setitem_frame _ "dia" dia Hwf Hlen)).
  - rewrite (weekday_time_err self e Hdia). cbn [snd]. by apply weekday_time_err.
Qed.

Lemma weekday_time_twice_witness :
  BiciMad.weekday_time (BiciMad.weekday_time november).2 = BiciMad.weekday_time november.
Proof. apply (weekday_time_twice november november_well_formed). Defined.

Lemma key_of_text (ds : list string) :
  pd.key_of <$> (pd.VStr <$> ds) = Some <$> (pd.VStr <$> ds).
Proof. induction ds as [|d ds IH]; [done |]. rewrite !fmap_cons, IH. done. Qed.

Lemma omap_id_Some {A : Type} (l : list A) : omap id (Some <$> l) = l.
Proof. induction l as [|x l IH]; [done |]. rewrite fmap_cons. cbn. by rewrite IH. Qed.

(** [weekday_time] on a table whose labels are all present and whose
    minutes are numbers: it returns one entry for each weekday letter that
    occurs, holding the minutes of the rows of that weekday, summed and
    divided by 60; the letters are among L, M, X, J, V, S, D. *)
Theorem weekday_time_per_code (self : BiciMad.t) (tss : list pd.Timestamp)
    (minutes : list pd.value) :
  well_formed (BiciMad._data self) →
  pd.label <$> pd.rows (BiciMad._data self) = Some <$> tss →
  pd.getitem (BiciMad._data self) "trip_minutes" = Ok minutes →
  (∀ v, v ∈ minutes → ¬ is_text v) →
  ∃ s,
    (BiciMad.weekday_time self).1 = Ok s ∧
    pd.name s = Some "trip_hours" ∧
    NoDup (pd.items s).*1 ∧
    (∀ k, k ∈ (pd.items s).*1 ↔ ∃ ts, ts ∈ tss ∧ k = pd.VStr (weekday_code ts)) ∧
    (∀ k, k ∈ (pd.items s).*1 → ∃ d, d ∈ weekday_codes ∧ k = pd.VStr d) ∧
    ∀ k h, (k, h) ∈ pd.items s →
      h = (total_minutes
             (filter (λ cm : option pd.value * pd.value, cm.1 = Some k)
                (zip (Some <$> (pd.VStr <$> (weekday_code <$> tss))) minutes)).*2 / 60)%Q.
Proof.
  intros Hwf Hlabels Hget Hnum.
  assert (length minutes = length (pd.rows (BiciMad._data self))) as Hlen.
  { unfold pd.getitem in Hget. destruct (pd.col_index _ _); [| done].
    injection Hget as <-. apply length_fmap. }
  assert (length tss = length (pd.rows (BiciMad._data self))) as Hlen'.
  { rewrite <- (length_fmap pd.label), Hlabels. by rewrite length_fmap. }
  pose proof (dia_of_index_present tss) as Hdia. rewrite <- Hlabels in Hdia.
  rewrite (weekday_time_ok self _ Hdia). cbn [fst].
  assert (length ((λ ts, pd.VStr (weekday_code ts)) <$> tss) =
          length (pd.rows (BiciMad._data self))) as Hld by (by rewrite length_fmap).
  rewrite getitem_setitem by done.
  assert ("trip_minutes" ∈ pd.columns (BiciMad._data self)) as Hcol.
  { apply col_index_elem_of. unfold pd.getitem in Hget.
    destruct (pd.col_index _ _); [by eexists | done]. }
  destruct (setitem_frame (BiciMad._data self) "dia" _ Hwf Hld) as [_ Hframe].
  assert ("trip_minutes" ≠ "dia") as Hne by done.
  destruct (Hframe "trip_minutes" Hne Hcol) as [_ ->]. rewrite Hget.
  cbn [mbind result_bind].
  rewrite (list_fmap_compose weekday_code pd.VStr), key_of_text.
  rewrite sums_div_60_numbers by (intros g v Hg Hv; apply Hnum; by eapply group_members).
  cbn [mbind result_bind mret result_ret]. eexists. split; [reflexivity |].
  cbn [pd.rename pd.name pd.items].
  assert (∀ gs : list (pd.value * list pd.value),
            ((λ g : pd.value * list pd.value, (g.1, (total_minutes g.2 / 60)%Q))
               <$> gs).*1 = gs.*1) as Hkeys.
  { intros gs. rewrite <- list_fmap_compose. done. }
  rewrite Hkeys.
  assert (∀ k, k ∈ (pd.groupby pd.value_le
                      (zip (Some <$> (pd.VStr <$> (weekday_code <$> tss))) minutes)).*1 ↔
               ∃ ts, ts ∈ tss ∧ k = pd.VStr (weekday_code ts)) as Hmem.
  { intros k. rewrite groupby_keys, merge_sort_Permutation, elem_of_remove_dups.
    rewrite omap_fst_zip by (rewrite !length_fmap; lia).
    rewrite omap_id_Some, <- list_fmap_compose, list_elem_of_fmap. split.
    - intros (ts & -> & Hts). by exists ts.
    - intros (ts & Hts & ->). by exists ts. }
  split_and!; [done | apply groupby_keys_NoDup | done | |].
  - intros k (ts & _ & ->)%Hmem. exists (weekday_code ts).
    split; [apply weekday_code_spec | done].
  - intros k h ([k' vs] & [= -> ->] & Hg)%list_elem_of_fmap. simpl.
    by apply elem_of_groupby in Hg as [_ ->].
Qed.

Lemma weekday_time_per_code_witness :
  ∃ s,
    (BiciMad.weekday_time same_day).1 = Ok s ∧
    pd.name s = Some "trip_hours" ∧
    NoDup (pd.items s).*1 ∧
    (∀ k, k ∈ (pd.items s).*1 ↔
          ∃ ts, ts ∈ [nov_1 + 8 * hour; nov_1 + 9 * hour] ∧ k = pd.VStr (weekday_code ts)) ∧
    (∀ k, k ∈ (pd.items s).*1 → ∃ d, d ∈ weekday_codes ∧ k = pd.VStr d) ∧
    ∀ k h, (k, h) ∈ pd.items s →
      h = (total_minutes
             (filter (λ cm : option pd.value * pd.value, cm.1 = Some k)
                (zip (Some <$> (pd.VStr <$> (weekday_code <$>
                                   [nov_1 + 8 * hour; nov_1 + 9 * hour]%Z)))
                     [pd.VFloat 30 0; pd.VFloat 60 0])).*2 / 60)%Q.
Proof.
  apply (weekday_time_per_code same_day).
  - unfold well_formed. vm_compute. repeat constructor.
  - reflexivity.
  - reflexivity.
  - intros v Hv [s ->]. apply list_elem_of_In in Hv. simpl in Hv.
    repeat (destruct Hv as [Hv | Hv]; [discriminate |]). exact Hv.
Defined.

(** A row without a label makes [weekday_time] raise a [KeyError] (its day
    name is no key of the letter table), and nothing is written: the
    instance is as it was. *)
Theorem weekday_time_missing_label (self : BiciMad.t) (r : pd.Row) :
  r ∈ pd.rows (BiciMad._data self) →
  pd.label r = None →
  ∃ key, BiciMad.weekday_time self = (Err (KeyError key), self).
Proof.
  intros Hr Hl. exists "nan". apply weekday_time_err, dia_of_index_missing.
  apply list_elem_of_fmap. by exists r.
Qed.

Lemma weekday_time_missing_label_witness :
  ∃ key,
    BiciMad.weekday_time
      {| BiciMad._month := 11; BiciMad._year := 22; BiciMad._data := raw_fixture |} =
    (Err (KeyError key),
     {| BiciMad._month := 11; BiciMad._year := 22; BiciMad._data := raw_fixture |}).
Proof.
  apply (weekday_time_missing_label _ (trip None pd.NaN pd.NaN pd.NaN pd.NaN pd.NaN)).
  - apply list_elem_of_In. simpl. tauto.
  - reflexivity.
Defined.

(** ** The most popular stations *)

Lemma length_filter_along {A B : Type} (P : A → Prop) (Q : B → Prop)
    `{∀ x, Decision (P x)} `{∀ y, Decision (Q y)} (l : list A) (k : list B) :
  length l = length k →
  (∀ x y, (x, y) ∈ zip l k → P x → Q y) →
  (length (filter P l) ≤ length (filter Q k))%nat.
Proof.
  revert k. induction l as [|x l IH]; intros [|y k] Hlen HPQ; try done.
  injection Hlen as Hlen. rewrite !filter_cons.
  assert (length (filter P l) ≤ length (filter Q k))%nat as IH'.
  { apply IH; [done |]. intros x' y' Hin. apply HPQ. by right. }
  destruct (decide (P x)) as [HP|HP].
  - rewrite decide_True by (apply (HPQ x y); [left | done]). simpl. lia.
  - destruct (decide (Q y)); simpl; lia.
Qed.

Lemma length_filter_le {A : Type} (P : A → Prop) `{∀ x, Decision (P x)} (l : list A) :
  (length (filter P l) ≤ length l)%nat.
Proof.
  induction l as [|x l IH]; [done |]. rewrite filter_cons.
  destruct (decide (P x)); simpl; lia.
Qed.

(** On a table that is not empty there is a most popular address, and the
    trips counted from the most popular addresses are at least those of a
    most popular station and at most all the trips. *)
Theorem popular_uses_bounds (self : BiciMad.t) (stations addresses : list pd.value) :
  pd.getitem (BiciMad._data self) "station_unlock" = Ok stations →
  pd.getitem (BiciMad._data self) "address_unlock" = Ok addresses →
  pd.NaN ∉ stations →
  stations ≠ [] →
  ∃ top uses,
    BiciMad.get_most_popular_stations self = Ok top ∧
    top ≠ ∅ ∧
    BiciMad.get_uses_from_most_populars self = Ok uses ∧
    (1 ≤ max_group_size stations ≤ uses)%nat ∧
    (uses ≤ length (pd.rows (BiciMad._data self)))%nat.
Proof.
  intros Hst Had Hnan Hne.
  assert (length stations = length (pd.rows (BiciMad._data self)) ∧
          length addresses = length (pd.rows (BiciMad._data self))) as [Hls Hla].
  { unfold pd.getitem in Hst, Had.
    destruct (pd.col_index _ "station_unlock"); [| done].
    destruct (pd.col_index _ "address_unlock"); [| done].
    injection Hst as <-. injection Had as <-. by rewrite !length_fmap. }
  destruct (get_most_popular_stations_elem_of self stations addresses Hst Had Hnan)
    as (top & Htop & Hspec).
  assert (∃ s, s ∈ stations ∧ group_size s stations = max_group_size stations)
    as (s & Hs & Hmax).
  { unfold max_group_size.
    assert ((λ s, group_size s stations) <$> stations ≠ []) as Hne'
      by (by destruct stations).
    apply max_list_elem_of, list_elem_of_fmap in Hne' as (s & Heq & Hs). by exists s. }
  exists top, (length (filter (λ a, a ∈ top) addresses)).
  split_and!; [done | | | | |].
  - apply list_elem_of_lookup in Hs as [i Hi].
    destruct (lookup_lt_is_Some_2 addresses i) as [a Ha].
    { rewrite Hla, <- Hls. by eapply lookup_lt_Some. }
    assert (a ∈ top) as Hin.
    { apply Hspec. exists s. split; [| done].
      apply list_elem_of_lookup. exists i. by apply lookup_zip_Some. }
    intros Hempty. rewrite Hempty in Hin. by apply elem_of_empty in Hin.
  - unfold BiciMad.get_uses_from_most_populars. rewrite Htop, Had. simpl.
    by rewrite filter_bool_decide.
  - rewrite <- Hmax. by apply group_size_pos.
  - rewrite <- Hmax. unfold group_size. apply length_filter_along; [lia |].
    intros x a Hin ->. apply Hspec. by exists s.
  - rewrite <- Hla. apply length_filter_le.
Qed.

Lemma popular_uses_bounds_witness :
  ∃ top uses,
    BiciMad.get_most_popular_stations november = Ok top ∧
    top ≠ ∅ ∧
    BiciMad.get_uses_from_most_populars november = Ok uses ∧
    (1 ≤ max_group_size [pd.VStr "2"; pd.VStr "1"; pd.VStr "1"; pd.VStr "3";
                         pd.VStr "4"; pd.VStr "3"] ≤ uses)%nat ∧
    (uses ≤ length (pd.rows (BiciMad._data november)))%nat.
Proof.
  apply (popular_uses_bounds november _
           [pd.VStr "Calle Jesus"; pd.VStr "Calle Alcala"; pd.VStr "Calle Alcala";
            pd.VStr "Calle Manuel Silvela"; pd.VStr "Calle X";
            pd.VStr "Calle Manuel Silvela"]).
  - reflexivity.
  - reflexivity.
  - intros H. apply list_elem_of_In in H. simpl in H.
    repeat (destruct H as [H | H]; [discriminate |]). exact H.
  - discriminate.
Defined.

(** ** A table without rows *)

(** On a table with the columns and no row: the summary counts no trip and
    no time, the set of popular addresses is empty, and the series per day
    are empty; nothing raises. *)
Theorem empty_dataset (self : BiciMad.t) :
  pd.rows (BiciMad._data self) = [] →
  (∀ c, c ∈ ["trip_minutes"; "station_unlock"; "address_unlock"; "idBike"] →
        c ∈ pd.columns (BiciMad._data self)) →
  BiciMad.get_most_popular_stations self = Ok ∅ ∧
  BiciMad.get_uses_from_most_populars self = Ok 0%nat ∧
  pd.items <$> BiciMad.resume self =
    Ok [ ("year", BiciMad.PInt (BiciMad._year self));
         ("month", BiciMad.PInt (BiciMad._month self));
         ("total_uses", BiciMad.PInt 0);
         ("total_time", BiciMad.PFloat (0 / 60));
         ("most_popular_station", BiciMad.PSet ∅);
         ("uses_from_most_popular", BiciMad.PInt 0) ] ∧
  pd.items <$> BiciMad.day_time self = Ok [] ∧
  pd.items <$> BiciMad.total_usage_day self = Ok [] ∧
  pd.items <$> (BiciMad.weekday_time self).1 = Ok [].
Proof.
  intros Hrows Hcols.
  assert (∀ c, c ∈ ["trip_minutes"; "station_unlock"; "address_unlock"; "idBike"] →
               pd.getitem (BiciMad._data self) c = Ok []) as Hget.
  { intros c Hc. apply Hcols, col_index_elem_of in Hc as [i Hi].
    unfold pd.getitem. by rewrite Hi, Hrows. }
  assert (BiciMad.get_most_popular_stations self = Ok ∅) as Htop.
  { unfold BiciMad.get_most_popular_stations.
    rewrite !Hget by (apply list_elem_of_In; simpl; tauto). done. }
  assert (BiciMad.get_uses_from_most_populars self = Ok 0%nat) as Huses.
  { unfold BiciMad.get_uses_from_most_populars.
    rewrite Htop, !Hget by (apply list_elem_of_In; simpl; tauto). done. }
  split_and!; [done | done | | | |].
  - unfold BiciMad.resume.
    rewrite Htop, Huses, !Hget by (apply list_elem_of_In; simpl; tauto).
    by rewrite Hrows.
  - unfold BiciMad.day_time.
    rewrite !Hget by (apply list_elem_of_In; simpl; tauto). by rewrite Hrows.
  - unfold BiciMad.total_usage_day.
    rewrite !Hget by (apply list_elem_of_In; simpl; tauto). by rewrite Hrows.
  - assert (well_formed (BiciMad._data self)) as Hwf
      by (unfold well_formed; rewrite Hrows; constructor).
    rewrite (weekday_time_ok self []) by (by rewrite Hrows).
    cbn [fst]. rewrite getitem_setitem by (by rewrite ?Hrows).
    destruct (setitem_frame (BiciMad._data self) "dia" [] Hwf) as [_ Hframe];
      [by rewrite Hrows |].
    assert ("trip_minutes" ≠ "dia") as Hne by done.
    destruct (Hframe "trip_minutes" Hne) as [_ ->];
      [apply Hcols, list_elem_of_In; simpl; tauto |].
    rewrite Hget by (apply list_elem_of_In; simpl; tauto). done.
Qed.

Lemma empty_dataset_witness :
  BiciMad.get_most_popular_stations
    {| BiciMad._month := 1; BiciMad._year := 21;
       BiciMad._data := {| pd.columns := BiciMad.csv_columns; pd.rows := [] |} |} = Ok ∅.
Proof.
  apply (empty_dataset
           {| BiciMad._month := 1; BiciMad._year := 21;
              BiciMad._data := {| pd.columns := BiciMad.csv_columns; pd.rows := [] |} |}).
  - reflexivity.
  - intros c Hc. apply list_elem_of_In in Hc. apply list_elem_of_In.
    simpl in Hc. simpl. intuition.
Defined.

(** ** Trips per day and station *)

Lemma omap_fst_unit {K : Type} (keys : list (option K)) :
  omap fst ((λ k, (k, ())) <$> keys) = omap id keys.
Proof.
  induction keys as [|[k|] keys IH]; [done | |].
  - rewrite fmap_cons. cbn. by rewrite IH.
  - rewrite fmap_cons. cbn. by rewrite IH.
Qed.

Lemma length_omap {A B : Type} (f : A → option B) (l : list A) :
  length (omap f l) = length (filter (λ x, is_Some (f x)) l).
Proof.
  induction l as [|a l IH]; [done |]. rewrite filter_cons.
  change (omap f (a :: l))
    with (match f a with Some y => y :: omap f l | None => omap f l end).
  destruct (f a) as [y|] eqn:E.
  - rewrite decide_True by (by eexists). simpl. by rewrite IH.
  - rewrite decide_False by (intros [? ?]; done). done.
Qed.

Lemma day_station_keys (rs : list pd.Row) (stations : list pd.value) :
  length stations = length rs →
  omap id (zip_with (λ r s, d ← pd.floor_day <$> pd.label r; k ← pd.key_of s; Some (d, k))
                    rs stations) =
  omap (λ rs : pd.Row * pd.value,
          d ← pd.floor_day <$> pd.label rs.1; k ← pd.key_of rs.2; Some (d, k))
       (zip rs stations).
Proof.
  revert stations. induction rs as [|r rs IH]; intros [|s stations] Hlen; try done.
  injection Hlen as Hlen. cbn [zip_with zip].
  specialize (IH stations Hlen). cbn [zip] in IH.
  destruct (pd.floor_day <$> pd.label r) as [d|] eqn:Hd;
    [destruct (pd.key_of s) as [k|] eqn:Hk |]; cbn; rewrite ?Hd, ?Hk; cbn;
    by rewrite IH.
Qed.

Lemma length_filter_fmap {A B : Type} (g : A → B) (P : B → Prop) (Q : A → Prop)
    `{∀ y, Decision (P y)} `{∀ x, Decision (Q x)} (l : list A) :
  (∀ x, P (g x) ↔ Q x) →
  length (filter P (g <$> l)) = length (filter Q l).
Proof.
  intros HPQ. induction l as [|x l IH]; [done |].
  rewrite fmap_cons, !filter_cons.
  destruct (decide (Q x)) as [HQ|HQ].
  - rewrite decide_True by (by apply HPQ). simpl. by rewrite IH.
  - rewrite decide_False by (by rewrite HPQ). done.
Qed.

Lemma day_station_key (r : pd.Row) (s : pd.value) (d : pd.Timestamp) (k : pd.value) :
  (d' ← pd.floor_day <$> pd.label r; k' ← pd.key_of s; Some (d', k')) = Some (d, k) ↔
  pd.floor_day <$> pd.label r = Some d ∧ s = k ∧ k ≠ pd.NaN.
Proof.
  destruct (pd.label r) as [ts|]; cbn; [| split; [done | by intros [? _]]].
  destruct s; cbn; split; try done; try (intros [= <- <-]; done);
    try (intros ([= <-] & <- & ?); done).
Qed.

Lemma day_station_group (rs : list pd.Row) (stations : list pd.value)
    (d : pd.Timestamp) (k : pd.value) :
  k ≠ pd.NaN →
  length (filter (λ kv : option (pd.Timestamp * pd.value) * (), kv.1 = Some (d, k))
            ((λ k, (k, ())) <$>
               zip_with (λ r s, d ← pd.floor_day <$> pd.label r; k ← pd.key_of s; Some (d, k))
                        rs stations)) =
  trips_on d k (zip rs stations).
Proof.
  intros Hk. rewrite zip_with_zip, <- list_fmap_compose. unfold trips_on.
  apply length_filter_fmap. intros [r s]. unfold compose. cbn [fst snd uncurry].
  rewrite day_station_key. tauto.
Qed.

(** [total_usage_day_station_unlock] makes one row for each day and station
    that occur together, and only for these: no pair is listed twice, every
    row holds a day on which trips started at its station, the station
    (which is present) and the number of those trips, which is at least
    one; every trip with a label and a station falls in a row; and the
    counts add up to the number of rows that have both a label and a
    station. *)
Theorem day_station_counts (self : BiciMad.t) (stations : list pd.value) :
  pd.getitem (BiciMad._data self) "station_unlock" = Ok stations →
  ∃ res,
    BiciMad.total_usage_day_station_unlock self = Ok res ∧
    pd.columns res = ["station_unlock"; "count"] ∧
    NoDup ((λ r, (pd.label r, pd.cell 0 r)) <$> pd.rows res) ∧
    (∀ r, r ∈ pd.rows res →
       ∃ day station,
         pd.label r = Some day ∧ station ≠ pd.NaN ∧
         pd.cells r =
           [station;
            pd.VInt (Z.of_nat (trips_on day station
                                 (zip (pd.rows (BiciMad._data self)) stations)))] ∧
         (1 ≤ trips_on day station (zip (pd.rows (BiciMad._data self)) stations))%nat) ∧
    (∀ t ts, t ∈ zip (pd.rows (BiciMad._data self)) stations →
       pd.label t.1 = Some ts → t.2 ≠ pd.NaN →
       ∃ r, r ∈ pd.rows res ∧ pd.label r = Some (pd.floor_day ts) ∧ pd.cell 0 r = t.2) ∧
    sum_list (count_of <$> pd.rows res) =
      length (filter (λ rs : pd.Row * pd.value, is_Some (pd.label rs.1) ∧ rs.2 ≠ pd.NaN)
                (zip (pd.rows (BiciMad._data self)) stations)).
Proof.
  intros Hget.
  assert (length stations = length (pd.rows (BiciMad._data self))) as Hlen.
  { unfold pd.getitem in Hget. destruct (pd.col_index _ _); [| done].
    injection Hget as <-. apply length_fmap. }
  unfold BiciMad.total_usage_day_station_unlock. rewrite Hget.
  cbn [mbind result_bind mret result_ret]. eexists. split; [reflexivity |].
  cbn [pd.columns pd.rows].
  set (kvs := (λ k : option (pd.Timestamp * pd.value), (k, ())) <$> _).
  assert (∀ d k, Some (d, k) ∈ kvs.*1 → k ≠ pd.NaN) as Hpresent.
  { intros d k Hk.
    apply list_elem_of_fmap in Hk as ([o u] & Ho & Hin). cbn in Ho. subst o.
    apply list_elem_of_fmap in Hin as (o & [= <-] & Hin).
    apply list_elem_of_lookup in Hin as [i Hi].
    apply lookup_zip_with_Some in Hi as (r & s & Heq & _ & _).
    symmetry in Heq. apply day_station_key in Heq. tauto. }
  split_and!; [done | | | |].
  - rewrite <- list_fmap_compose.
    assert (NoDup ((λ k : pd.Timestamp * pd.value, (Some k.1, k.2))
                     <$> (pd.groupby BiciMad.day_station_le kvs).*1)) as Hnd.
    { apply NoDup_fmap_2; [| apply groupby_keys_NoDup].
      intros [d k] [d' k'] [= -> ->]. done. }
    by rewrite <- list_fmap_compose in Hnd.
  - intros r ([[d k] vs] & -> & Hg)%list_elem_of_fmap. cbn [fst snd pd.label pd.cells].
    pose proof (groupby_nonempty _ _ _ _ Hg) as Hne.
    apply elem_of_groupby in Hg as [Hk ->].
    specialize (Hpresent d k Hk).
    rewrite length_fmap in *.
    assert (length (filter (λ kv : option (pd.Timestamp * pd.value) * (), kv.1 = Some (d, k))
                      kvs) =
            trips_on d k (zip (pd.rows (BiciMad._data self)) stations)) as Hcount
      by (by apply day_station_group).
    exists d, k. split_and!; [done | done | by rewrite Hcount |].
    rewrite <- Hcount.
    destruct (filter _ kvs); [done | simpl; lia].
  - intros [row s] ts Hin Hl Hs. cbn [fst snd] in *.
    assert ((pd.floor_day ts, s) ∈ (pd.groupby BiciMad.day_station_le kvs).*1) as Hkey.
    { rewrite groupby_keys, merge_sort_Permutation, elem_of_remove_dups.
      apply list_elem_of_omap. exists (Some (pd.floor_day ts, s), ()). split; [| done].
      unfold kvs. apply list_elem_of_fmap. eexists. split; [reflexivity |].
      rewrite zip_with_zip. apply list_elem_of_fmap. exists (row, s). split; [| done].
      symmetry. cbn [uncurry]. apply day_station_key. by rewrite Hl. }
    apply list_elem_of_fmap in Hkey as ([[d k] vs] & [= <- <-] & Hg).
    eexists. split; [apply list_elem_of_fmap; eexists; split; [reflexivity | exact Hg] |].
    done.
  - rewrite <- list_fmap_compose.
    rewrite (list_fmap_ext _ (λ g : (pd.Timestamp * pd.value) * list (), length g.2)).
    2:{ intros _ [[d k] vs] _. unfold compose, count_of. cbn. by rewrite Nat2Z.id. }
    rewrite groupby_sizes. unfold kvs. rewrite omap_fst_unit, day_station_keys by done.
    rewrite length_omap. f_equal. apply list_filter_iff. intros [r s]. cbn [fst snd].
    destruct (pd.label r) as [ts|], s; cbn; split;
      try (intros [? ?]; done); try (intros [[? ?] ?]; done);
      try (intros _; split; [by eexists | done]); by eexists.
Qed.

Lemma day_station_counts_witness :
  ∃ res,
    BiciMad.total_usage_day_station_unlock november = Ok res ∧
    pd.columns res = ["station_unlock"; "count"] ∧
    NoDup ((λ r, (pd.label r, pd.cell 0 r)) <$> pd.rows res) ∧
    (∀ r, r ∈ pd.rows res →
       ∃ day station,
         pd.label r = Some day ∧ station ≠ pd.NaN ∧
         pd.cells r =
           [station;
            pd.VInt (Z.of_nat (trips_on day station
                                 (zip (pd.rows (BiciMad._data november))
                                      [pd.VStr "2"; pd.VStr "1"; pd.VStr "1"; pd.VStr "3";
                                       pd.VStr "4"; pd.VStr "3"])))] ∧
         (1 ≤ trips_on day station
                (zip (pd.rows (BiciMad._data november))
                     [pd.VStr "2"; pd.VStr "1"; pd.VStr "1"; pd.VStr "3";
                      pd.VStr "4"; pd.VStr "3"]))%nat) ∧
    (∀ t ts, t ∈ zip (pd.rows (BiciMad._data november))
                     [pd.VStr "2"; pd.VStr "1"; pd.VStr "1"; pd.VStr "3";
                      pd.VStr "4"; pd.VStr "3"] →
       pd.label t.1 = Some ts → t.2 ≠ pd.NaN →
       ∃ r, r ∈ pd.rows res ∧ pd.label r = Some (pd.floor_day ts) ∧ pd.cell 0 r = t.2) ∧
    sum_list (count_of <$> pd.rows res) =
      length (filter (λ rs : pd.Row * pd.value, is_Some (pd.label rs.1) ∧ rs.2 ≠ pd.NaN)
                (zip (pd.rows (BiciMad._data november))
                     [pd.VStr "2"; pd.VStr "1"; pd.VStr "1"; pd.VStr "3";
                      pd.VStr "4"; pd.VStr "3"])).
Proof. apply (day_station_counts november). reflexivity. Defined.

(** ** From the page to the URL *)

(** A link that [get_links] extracted for a valid month and year can be
    resolved: on the catalogue made of the extracted links, [get_url] for
    that month and year returns one of them, with the month's token in it,
    and does not raise. *)
Theorem extracted_link_resolves (html u : string) (month year : Z) :
  u ∈ UrlEMT.get_links html →
  occurs_in (two_digits year +:+ "_" +:+ two_digits month) u →
  (1 ≤ month ≤ 12)%Z →
  year = 21 ∨ year = 22 ∨ year = 23 →
  ∃ url,
    UrlEMT.get_url {| UrlEMT.enlaces_validos := elements (UrlEMT.get_links html) |}
                   month year = Ok url ∧
    url ∈ UrlEMT.get_links html ∧
    occurs_in (two_digits year +:+ "_" +:+ two_digits month) url.
Proof.
  intros Hu Hocc Hm Hy. unfold UrlEMT.get_url.
  rewrite (proj2 (valid_month_iff month) Hm), (proj2 (valid_year_iff year) Hy).
  cbn [negb UrlEMT.enlaces_validos]. rewrite (search_token month year Hm Hy).
  set (token := two_digits year +:+ "_" +:+ two_digits month) in *.
  destruct (find (str_contains token) (elements (UrlEMT.get_links html)))
    as [url|] eqn:Hfind.
  - exists url. apply find_first in Hfind as (before & after & Hl & Hc & _).
    split_and!; [done | | by apply str_contains_spec].
    apply elem_of_elements. rewrite Hl. apply elem_of_app. right. left.
  - exfalso. rewrite find_none_iff in Hfind.
    apply str_contains_spec in Hocc. rewrite Hfind in Hocc; [done |].
    by apply elem_of_elements.
Qed.

Lemma extracted_link_resolves_witness :
  ∃ url,
    UrlEMT.get_url {| UrlEMT.enlaces_validos := elements (UrlEMT.get_links html_fixture) |}
                   3 22 = Ok url ∧
    url ∈ UrlEMT.get_links html_fixture ∧
    occurs_in (two_digits 22 +:+ "_" +:+ two_digits 3) url.
Proof.
  apply (extracted_link_resolves html_fixture
           "https://opendata.emtmadrid.es/getattachment/trips_22_03_march-csv.aspx").
  - apply elem_of_get_links. exists "getattachment/trips_22_03_march-csv.aspx".
    split; [reflexivity |].
    assert (re.findall UrlEMT.pattern html_fixture =
            [ "getattachment/45f5/trips_22_11_November-csv.aspx";
              "getattachment/trips_22_03_march-csv.aspx";
              "getattachment/51ba/trips_21_10_October-csv.aspx" ]) as ->
      by (vm_compute; reflexivity).
    right. left.
  - by exists "https://opendata.emtmadrid.es/getattachment/trips_", "_march-csv.aspx".
  - lia.
  - right. by left.
Defined.

(** ** Links and lines *)

Lemma sound_weaken (k : string → option string) (Q : string → Prop) :
  sound k Q → sound k (λ _, True).
Proof. intros Hk s r H. destruct (Hk s r H) as (m & Hs & _). by exists m. Qed.

Lemma match_here_suffix (pat : list re.atom) : sound (re.match_here pat) (λ _, True).
Proof.
  induction pat as [|a pat IH].
  - intros s r [= ->]. by exists "".
  - destruct a as [l | k n | k | k].
    + apply (sound_weaken _ _ (sound_lit _ _ l IH)).
    + apply (sound_weaken _ _
               (sound_exactly (λ c, re.cls_matches k c = true) _
                  (λ c, conj (λ H, H) (λ H, H)) _ _ n IH)).
    + apply (sound_weaken _ _
               (sound_lazy_star (λ c, re.cls_matches k c = true) _
                  (λ c, conj (λ H, H) (λ H, H)) _ _ IH)).
    + apply (sound_weaken _ _
               (sound_greedy_plus (λ c, re.cls_matches k c = true) _
                  (λ c, conj (λ H, H) (λ H, H)) _ _ IH)).
Qed.

Section lines.
Context (b : string).

(** [k'] does on a text followed by a line break and [b] what [k] does on
    the text alone. *)
Definition ext (k k' : string → option string) : Prop :=
  ∀ t, k' (t +:+ String "010"%char b) = (λ r, r +:+ String "010"%char b) <$> k t.

Lemma ext_lit (l : string) (k k' : string → option string) :
  str_contains (String "010"%char "") l = false →
  ext k k' →
  ext (λ s, match re.strip_prefix l s with Some s' => k s' | None => None end)
      (λ s, match re.strip_prefix l s with Some s' => k' s' | None => None end).
Proof.
  intros Hl Hk. induction l as [|a l IH]; intros t.
  - cbn. apply Hk.
  - rewrite str_contains_cons in Hl. apply orb_false_elim in Hl as [Ha Hl].
    assert (a ≠ "010"%char) as Hne.
    { intros ->. by destruct l. }
    destruct t as [|c t]; str_simpl; cbn [re.strip_prefix].
    + destruct (Ascii.eqb_spec a "010"%char); done.
    + destruct (Ascii.eqb a c); [| done]. apply (IH Hl).
Qed.

Lemma ext_exactly (n : nat) (p : ascii → bool) (k k' : string → option string) :
  p "010"%char = false → ext k k' → ext (re.exactly n p k) (re.exactly n p k').
Proof.
  intros Hp Hk. induction n as [|n IH]; intros t; [apply Hk |].
  destruct t as [|c t]; str_simpl; cbn [re.exactly].
  - by rewrite Hp.
  - destruct (p c); [apply IH | done].
Qed.

Lemma ext_lazy_star (p : ascii → bool) (k k' : string → option string) :
  p "010"%char = false → ext k k' → ext (re.lazy_star p k) (re.lazy_star p k').
Proof.
  intros Hp Hk t. induction t as [|c t IH].
  - str_simpl. cbn [re.lazy_star].
    pose proof (Hk "") as H0. str_simpl. rewrite H0, Hp.
    by destruct (k "").
  - pose proof (Hk (String c t)) as H0. str_simpl. cbn [re.lazy_star].
    rewrite H0. destruct (k (String c t)) as [r|]; [done |]. cbn.
    destruct (p c); [apply IH | done].
Qed.

Lemma ext_greedy_star (p : ascii → bool) (k k' : string → option string) :
  p "010"%char = false → ext k k' → ext (re.greedy_star p k) (re.greedy_star p k').
Proof.
  intros Hp Hk t. induction t as [|c t IH].
  - pose proof (Hk "") as H0. str_simpl. cbn [re.greedy_star]. by rewrite Hp.
  - pose proof (Hk (String c t)) as H0. str_simpl. cbn [re.greedy_star].
    destruct (p c); [| done]. rewrite IH.
    by destruct (re.greedy_star p k t).
Qed.

Lemma match_here_line (pat : list re.atom) :
  within_line pat = true → ext (re.match_here pat) (re.match_here pat).
Proof.
  induction pat as [|a pat IH]; intros Hpat; [by intros t |].
  cbn in Hpat. apply andb_true_iff in Hpat as [Ha Hpat]. specialize (IH Hpat).
  destruct a as [l | k n | k | k]; cbn in Ha; apply negb_true_iff in Ha.
  - apply (ext_lit l _ _ Ha IH).
  - apply (ext_exactly n _ _ _ Ha IH).
  - apply (ext_lazy_star _ _ _ Ha IH).
  - intros t. destruct t as [|c t]; str_simpl; cbn [re.match_here].
    + by rewrite Ha.
    + destruct (re.cls_matches k c); [| done]. apply (ext_greedy_star _ _ _ Ha IH).
Qed.

Lemma findall_go_line (pat : list re.atom) (a : string) (skip : nat) :
  within_line pat = true →
  (skip ≤ String.length a)%nat →
  re.findall_go pat skip (a +:+ String "010"%char b) =
    re.findall_go pat skip a ++ re.findall_go pat 0 b.
Proof.
  intros Hpat. pose proof (match_here_line pat Hpat) as Hext.
  revert skip. induction a as [|c a IH]; intros skip Hskip.
  - assert (skip = 0%nat) as -> by (simpl in Hskip; lia).
    pose proof (Hext "") as H0. str_simpl. cbn [re.findall_go]. rewrite H0.
    destruct (re.match_here pat "") as [r|] eqn:Hm; [| done]. cbn.
    destruct (match_here_suffix pat "" r Hm) as (m & Hs & _).
    destruct m, r; try discriminate. str_simpl. cbn.
    rewrite Nat.sub_diag. done.
  - destruct skip as [|j].
    + pose proof (Hext (String c a)) as H0. str_simpl. cbn [re.findall_go].
      rewrite H0. destruct (re.match_here pat (String c a)) as [r|] eqn:Hm.
      * cbn [fmap option_fmap option_map].
        destruct (match_here_suffix pat _ r Hm) as (m & Hs & _).
        assert (String.length (String c (a +:+ String "010"%char b)) -
                String.length (r +:+ String "010"%char b) = String.length m)%nat as ->.
        { rewrite <- append_cons, Hs, append_assoc, !str_length_app. lia. }
        assert (String.length (String c a) - String.length r = String.length m)%nat as ->.
        { rewrite Hs, str_length_app. lia. }
        rewrite <- app_comm_cons. f_equal.
        -- rewrite <- append_cons, Hs, append_assoc.
           pose proof (str_take_app m (r +:+ String "010"%char b)) as H1.
           pose proof (str_take_app m r) as H2.
           rewrite str_length_app in H1, H2.
           replace (String.length m + String.length (r +:+ String "010"%char b) -
                    String.length (r +:+ String "010"%char b))%nat
             with (String.length m) in H1 by lia.
           replace (String.length m + String.length r - String.length r)%nat
             with (String.length m) in H2 by lia.
           by rewrite H1, H2.
        -- apply IH. apply (f_equal String.length) in Hs.
           rewrite str_length_app in Hs. simpl in Hs. lia.
      * cbn [fmap option_fmap option_map]. apply IH. lia.
    + str_simpl. cbn [re.findall_go]. apply IH. simpl in Hskip. lia.
Qed.

End lines.

(** Links are found line by line: no link spans a line break, so the links
    of two texts joined by a line break are those of the first together
    with those of the second. *)
Theorem get_links_lines (a b : string) :
  UrlEMT.get_links (a +:+ String "010"%char b) =
    UrlEMT.get_links a ∪ UrlEMT.get_links b.
Proof.
  unfold UrlEMT.get_links, re.findall.
  rewrite (findall_go_line b UrlEMT.pattern a 0) by (reflexivity || lia).
  by rewrite fmap_app, list_to_set_app_L.
Qed.

(** ** Resolution and the order of the stored links *)

Lemma find_unique_perm {A : Type} (p : A → bool) (l l' : list A) :
  l ≡ₚ l' →
  (∀ x y, x ∈ l → y ∈ l → p x = true → p y = true → x = y) →
  find p l = find p l'.
Proof.
  intros Hperm Huniq.
  destruct (find p l) as [x|] eqn:Hl; destruct (find p l') as [y|] eqn:Hl'; try done.
  - apply find_first in Hl as (b1 & a1 & -> & Hx & _).
    apply find_first in Hl' as (b2 & a2 & Hl2 & Hy & _).
    f_equal. apply Huniq; [| | done | done].
    + apply elem_of_app. right. left.
    + rewrite Hperm, Hl2. apply elem_of_app. right. left.
  - apply find_first in Hl as (b1 & a1 & -> & Hx & _).
    rewrite find_none_iff in Hl'. rewrite Hl' in Hx; [done |].
    rewrite <- Hperm. apply elem_of_app. right. left.
  - apply find_first in Hl' as (b2 & a2 & Hl2 & Hy & _).
    rewrite find_none_iff in Hl. rewrite Hl in Hy; [done |].
    rewrite Hperm, Hl2. apply elem_of_app. right. left.
Qed.

(** When the token of the month occurs in at most one stored link, the
    order in which the stored links are iterated does not matter: [get_url]
    gives the same answer for every order. *)
Theorem get_url_order_independent (stored stored' : list string) (month year : Z) :
  stored ≡ₚ stored' →
  (∀ u v, u ∈ stored → v ∈ stored →
          occurs_in (str_of_int year +:+ "_" +:+ fmt_02 month) u →
          occurs_in (str_of_int year +:+ "_" +:+ fmt_02 month) v → u = v) →
  UrlEMT.get_url {| UrlEMT.enlaces_validos := stored |} month year =
  UrlEMT.get_url {| UrlEMT.enlaces_validos := stored' |} month year.
Proof.
  intros Hperm Huniq. unfold UrlEMT.get_url. cbn [UrlEMT.enlaces_validos].
  rewrite (find_unique_perm _ stored stored' Hperm); [done |].
  intros u v Hu Hv Hpu Hpv. apply Huniq; try done; by apply str_contains_spec.
Qed.

Lemma get_url_order_independent_witness :
  UrlEMT.get_url catalog_fixture 11 22 =
  UrlEMT.get_url
    {| UrlEMT.enlaces_validos := reverse (UrlEMT.enlaces_validos catalog_fixture) |} 11 22.
Proof.
  apply (get_url_order_independent (UrlEMT.enlaces_validos catalog_fixture)).
  - symmetry. apply reverse_Permutation.
  - intros u v Hu Hv Hpu Hpv.
    apply str_contains_spec in Hpu, Hpv.
    apply list_elem_of_In in Hu, Hv. simpl in Hu, Hv.
    repeat (destruct Hu as [<- | Hu]);
      repeat (destruct Hv as [<- | Hv]);
      first [reflexivity | (vm_compute in Hpu; discriminate Hpu)
             | (vm_compute in Hpv; discriminate Hpv) | contradiction].
Defined.
